(** * Clip Finder: the retrieval and ranking engine of [backend/main.py]

    A shallow embedding of [cosine_similarity] and of the [/search]
    endpoint [search_video], with the properties the specification
    states about them.

    Numbers.  Python floats are IEEE 754 binary64 values.
    - [Module Cosine] embeds [cosine_similarity] once, over an abstract
      arithmetic, and reads it at two instances: binary64 itself (Rocq's
      primitive floats, which compute) and the real numbers (the exact
      arithmetic the floats approximate).
    - [Module Engine] embeds [search_video].  Scores and timestamps are
      the exact rational values of the floats ([Q]) and the arithmetic
      on them is exact: the roundings of [similarity + 0.3] and of the
      decimal literals are left out, and there is no NaN.  The
      similarity function is a parameter of the engine, which uses its
      values only through comparisons, [+ 0.3], [min (., 1.0)] and
      [* 0.5].  It is the model of what does not hang on these
      roundings: the dispatch, the order of the ranking, the buckets,
      the counts, the errors and the history.
    - [Module Scores] embeds the scoring of text and hybrid mode on
      binary64, with the float sum, the float literals [0.3], [0.2],
      [0.5] and [1.0], a similarity that may be NaN, exceed [1.0] or
      raise, and [str.lower] as a parameter: the thresholds and the
      ranges of the scores are stated there.
    - [Module Later] gives the query encoders of a second call, which
      need not answer what they answered at the first. *)

From Stdlib Require Import ZArith QArith Qround Qminmax List Bool Ascii String.
From Stdlib Require Import Sorted Permutation Lia Lra Floats Reals Psatz.
From Stdlib Require Import DecimalString DecimalPos DecimalZ.
From stdpp Require Import base option gmap strings.

Import ListNotations.

(* ===================================================================== *)
(** * cosine_similarity (main.py, lines 370-382)                          *)
(* ===================================================================== *)

Module Cosine.

(** The arithmetic [cosine_similarity] uses: numpy's [+], [*], [/],
    [sqrt] and [==] on float64. *)
Class Arith (F : Type) := {
  fzero : F;
  fadd  : F -> F -> F;
  fmul  : F -> F -> F;
  fdiv  : F -> F -> F;
  fsqrt : F -> F;
  feqb  : F -> F -> bool
}.

Section Generic.
Context {F : Type} `{Arith F}.

(** [np.dot] on two 1-D arrays: the sum of the products, accumulated
    from [0.0]; arrays of different lengths raise [ValueError]
    ([None]).  The accumulation runs left to right; where an example
    below depends on rounding, every partial sum is a small integer,
    so any other order gives the same float. *)
Fixpoint dot_from (acc : F) (a b : list F) : option F :=
  match a, b with
  | [], [] => Some acc
  | x :: a', y :: b' => dot_from (fadd acc (fmul x y)) a' b'
  | _, _ => None
  end.

Definition dot (a b : list F) : option F := dot_from fzero a b.

(** [np.linalg.norm] of a 1-D array: [sqrt(x.dot(x))]. *)
Fixpoint sumsq_from (acc : F) (a : list F) : F :=
  match a with
  | [] => acc
  | x :: a' => sumsq_from (fadd acc (fmul x x)) a'
  end.

Definition norm (a : list F) : F := fsqrt (sumsq_from fzero a).

(** [[
    dot_product = np.dot(a_np, b_np)
    norm_a = np.linalg.norm(a_np)
    norm_b = np.linalg.norm(b_np)
    if norm_a == 0 or norm_b == 0:
        return 0.0
    return float(dot_product / (norm_a * norm_b))
    ]] *)
Definition cosine_similarity (a b : list F) : option F :=
  match dot a b with
  | None => None
  | Some dot_product =>
      let norm_a := norm a in
      let norm_b := norm b in
      if feqb norm_a fzero || feqb norm_b fzero then Some fzero
      else Some (fdiv dot_product (fmul norm_a norm_b))
  end.
End Generic.

(** binary64: what the program runs on. *)
#[export] Instance float_arith : Arith float := {|
  fzero := 0%float;
  fadd  := PrimFloat.add;
  fmul  := PrimFloat.mul;
  fdiv  := PrimFloat.div;
  fsqrt := PrimFloat.sqrt;
  feqb  := PrimFloat.eqb
|}.

(** Exact arithmetic: the reals. *)
Definition Reqb (x y : R) : bool := if Req_dec_T x y then true else false.

#[export] Instance real_arith : Arith R := {|
  fzero := 0%R;
  fadd  := Rplus;
  fmul  := Rmult;
  fdiv  := Rdiv;
  fsqrt := sqrt;
  feqb  := Reqb
|}.

(** A float is in [[-1, 1]] when both comparisons hold (they fail on NaN). *)
Definition in_unit_range (x : float) : bool :=
  (PrimFloat.leb (-1)%float x && PrimFloat.leb x 1%float)%bool.

Definition nonzero_vector (v : list float) : Prop :=
  exists x, In x v /\ PrimFloat.eqb x 0%float = false.

(** The range and the self-similarity of the specification, read on
    binary64. *)
Definition spec_range : Prop :=
  forall a b c, cosine_similarity a b = Some c -> in_unit_range c = true.

Definition spec_self_one : Prop :=
  forall v, nonzero_vector v -> cosine_similarity v v = Some 1%float.

(** The sum of the products of two real vectors, by structural recursion. *)
Fixpoint rdot (a b : list R) : R :=
  match a, b with
  | x :: a', y :: b' => (x * y + rdot a' b')%R
  | _, _ => 0%R
  end.

End Cosine.

(* ===================================================================== *)
(** * Python built-ins used by search_video                               *)
(* ===================================================================== *)

Module Py.

(** [a < b] on floats. *)
Definition Qltb (a b : Q) : bool := negb (Qle_bool b a).

(** [min(a, b)]: Python returns its first argument unless the second is
    strictly smaller. *)
Definition min (a b : Q) : Q := if Qltb b a then b else a.

(** Rounding to the nearest integer, ties to even: the rounding of
    [round(x, n)] and of the [.1f] format, which both round the exact
    value of the float. *)
Definition round_half_even (q : Q) : Z :=
  let n := Qnum q in
  let d := Zpos (Qden q) in
  let f := (n / d)%Z in
  let r := (n mod d)%Z in
  match (2 * r ?= d)%Z with
  | Lt => f
  | Gt => (f + 1)%Z
  | Eq => if Z.even f then f else (f + 1)%Z
  end.

(** [round(x, 1)], given by its number of tenths: two floats
    [round(x, 1)] and [round(y, 1)] are the same dictionary key exactly
    when the two numbers of tenths are equal. *)
Definition round1 (x : Q) : Z := round_half_even (x * 10).

(** [round(x, 3)]. *)
Definition round3 (x : Q) : Q := round_half_even (x * 1000) # 1000.

(** [str(n)] for an integer. *)
Definition str (n : Z) : string := NilZero.string_of_int (Z.to_int n).

(** [f"{x:.1f}"]. *)
Definition format_1f (x : Q) : string :=
  let n := Z.abs (round1 x) in
  ((if Qltb x 0 then "-" else "") +:+ str (n / 10) +:+ "." +:+ str (n mod 10))%string.

(** [s.lower()], on ASCII text. *)
Definition lower_ascii (c : ascii) : ascii :=
  let n := nat_of_ascii c in
  if (65 <=? n)%nat && (n <=? 90)%nat then ascii_of_nat (n + 32) else c.

Fixpoint lower (s : string) : string :=
  match s with
  | EmptyString => EmptyString
  | String c s' => String (lower_ascii c) (lower s')
  end.

(** [needle in hay] on strings. *)
Fixpoint contains (hay needle : string) : bool :=
  String.prefix needle hay ||
  match hay with
  | EmptyString => false
  | String _ hay' => contains hay' needle
  end.

(** [l[:k]]; a negative [k] counts from the end. *)
Definition slice_to {A : Type} (k : Z) (l : list A) : list A :=
  if (0 <=? k)%Z then firstn (Z.to_nat k) l
  else firstn (length l - Z.to_nat (- k)) l.

(** [l.sort(key=key, reverse=True)].  Python's sort is stable, also
    with [reverse=True]: elements with equal keys keep their order.  A
    stable sort has one possible result, computed here by insertion. *)
Fixpoint insert_desc {A : Type} (key : A -> Q) (x : A) (l : list A) : list A :=
  match l with
  | [] => [x]
  | y :: l' => if Qltb (key x) (key y) then y :: insert_desc key x l' else x :: l
  end.

Definition sort_desc {A : Type} (key : A -> Q) (l : list A) : list A :=
  fold_right (insert_desc key) [] l.

(** ** Notions the properties of the built-ins are stated with *)

(** [needle] occurs in [hay]. *)
Definition is_substring (needle hay : string) : Prop :=
  exists pre post : string, hay = (pre +:+ needle +:+ post)%string.

(** [desc x y]: [x] may stand before [y] in a list sorted by descending key. *)
Definition desc {A : Type} (key : A -> Q) (x y : A) : Prop := (key y <= key x)%Q.

(** Stability.  [best key P l] is the element of [l] a stable
    descending sort puts first among those that satisfy [P]: of the
    greatest key, and among these the first of [l]. *)
Fixpoint best {A : Type} (key : A -> Q) (P : A -> bool) (l : list A)
    : option A :=
  match l with
  | [] => None
  | x :: l' =>
      if P x then
        match best key P l' with
        | Some y => if Qltb (key x) (key y) then Some y else Some x
        | None => Some x
        end
      else best key P l'
  end.

(** [u] stands in [l] after [l1] and before [l2], beats every candidate
    of [l1] that satisfies [P], and is not beaten by one of [l2]. *)
Definition first_greatest {A : Type} (key : A -> Q) (P : A -> bool)
    (l : list A) (u : A) : Prop :=
  exists l1 l2 : list A,
    l = l1 ++ u :: l2
    /\ P u = true
    /\ (forall c, In c l1 -> P c = true -> (key c < key u)%Q)
    /\ (forall c, In c l2 -> P c = true -> (key c <= key u)%Q).

End Py.

(* ===================================================================== *)
(** * search_video (main.py, lines 794-1024)                              *)
(* ===================================================================== *)

Module Engine.

Import Py.
Local Open Scope Q_scope.

(** The models behind the search.  [get_text_embeddings] is the sentence
    transformer called on the one-element list [[query.query]] and
    indexed at [0]; [encode_text_with_openclip] is the CLIP text
    encoder.  [None] is a raised exception.  [cosine_similarity] stands
    for the function of that name applied to stored embeddings of the
    model's dimension, its float result read as the rational it denotes. *)
Class Models := {
  embedding : Type;
  get_text_embeddings : string -> option embedding;
  encode_text_with_openclip : string -> option embedding;
  cosine_similarity : embedding -> embedding -> Q
}.

(** An entry of [data["segments"]]. *)
Module Segment.
Record t := { start : Q; end_ : Q; text : string }.
End Segment.

(** An entry of [data["visual_data"]]. *)
Module VisualData.
Record t `{Models} := {
  timestamp : Q;
  frame_path : string;
  frame_number : Z;
  embedding_ : embedding
}.
End VisualData.

(** The contents of [CACHE_DIR/{video_id}_data.json] that the search reads. *)
Module Data.
Record t `{Models} := {
  segments : list Segment.t;
  text_embeddings : list embedding;
  visual_data : list VisualData.t
}.
End Data.

(** The contents of [CACHE_DIR/{video_id}.json]. *)
Module ProcessingStatus.
Record t := { status : string; progress : Q; message : string }.
End ProcessingStatus.

(** The request body. *)
Module SearchQuery.
Record t := {
  video_id : string;
  query : string;
  search_type : string;
  top_k : Z
}.
End SearchQuery.

(** An entry of [visual_matches]. *)
Module Match.
Record t := {
  timestamp : Q;
  frame_number : Z;
  frame_path : string;
  similarity : Q
}.
End Match.

(** An entry of [results].  The keys a mode does not set are [None]. *)
Module Result.
Record t := {
  timestamp : Q;
  text : string;
  score : Q;
  search_type : string;
  end_ : Q;
  frame_url : option string;
  frame_path : option string;
  clip_score : option Q
}.
End Result.

(** An entry of [search_history[video_id]]. *)
Module HistoryEntry.
Record t := {
  query : string;
  search_type : string;
  timestamp : string;
  results_count : nat;
  top_score : Q
}.
End HistoryEntry.

Module Response.
Record t := {
  results : list Result.t;
  total_matches : nat;
  search_type : string;
  model : string
}.
End Response.

Module HTTPException.
Record t := { status_code : Z; detail : string }.
End HTTPException.

(** What the endpoint reads and writes: the files under [CACHE_DIR] and
    the in-memory [search_history]. *)
Module World.
Record t `{Models} := {
  data_files : gmap string Data.t;
  status_files : gmap string ProcessingStatus.t;
  search_history : gmap string (list HistoryEntry.t)
}.
End World.

Section Search.
Context `{Models}.

(** [[
    keyword_bonus = 0.0
    if query_lower in text_lower:
        keyword_bonus = 0.3
    ]] *)
Definition keyword_bonus (query text : string) : Q :=
  if contains (lower text) (lower query) then 3 # 10 else 0.

(** Text mode, the loop of lines 819-842. *)
Fixpoint text_loop (query : string) (query_embedding : embedding)
    (text_segments : list Segment.t) (text_embeddings : list embedding)
    : list Result.t :=
  match text_segments, text_embeddings with
  | seg :: segs, emb :: embs =>
      let similarity := cosine_similarity query_embedding emb in
      let combined_score := similarity + keyword_bonus query (Segment.text seg) in
      (if Qltb (3 # 10) combined_score then
         [ {| Result.timestamp := Segment.start seg;
              Result.text := Segment.text seg;
              Result.score := min combined_score 1;
              Result.search_type := "text";
              Result.end_ := Segment.end_ seg;
              Result.frame_url := None;
              Result.frame_path := None;
              Result.clip_score := None |} ]
       else [])
      ++ text_loop query query_embedding segs embs
  | _, _ => []       (* [i >= len(text_embeddings)]: continue *)
  end.

Definition text_search (query : SearchQuery.t) (data : Data.t) : list Result.t :=
  match get_text_embeddings (SearchQuery.query query) with
  | Some query_embedding =>
      text_loop (SearchQuery.query query) query_embedding
        (Data.segments data) (Data.text_embeddings data)
  | None => []       (* except Exception: print *)
  end.

(** [[
    corresponding_text = f"Visual content at {timestamp:.1f}s"
    for seg in data.get("segments", []):
        if seg["start"] <= timestamp <= seg["end"]:
            corresponding_text = seg["text"]
            break
    ]] *)
Definition placeholder (timestamp : Q) : string :=
  ("Visual content at " +:+ format_1f timestamp +:+ "s")%string.

Definition covers (timestamp : Q) (seg : Segment.t) : bool :=
  Qle_bool (Segment.start seg) timestamp && Qle_bool timestamp (Segment.end_ seg).

Fixpoint first_covering (segments : list Segment.t) (timestamp : Q)
    (corresponding_text : string) : string :=
  match segments with
  | [] => corresponding_text
  | seg :: segs =>
      if covers timestamp seg then Segment.text seg
      else first_covering segs timestamp corresponding_text
  end.

Definition corresponding_text (segments : list Segment.t) (timestamp : Q) : string :=
  first_covering segments timestamp (placeholder timestamp).

Definition frame_url (video_id : string) (frame_number : Z) : string :=
  ("/frame/" +:+ video_id +:+ "/" +:+ str frame_number)%string.

(** Visual mode, lines 864-878. *)
Definition visual_match (query_visual_embedding : embedding) (vd : VisualData.t)
    : Match.t :=
  {| Match.timestamp := VisualData.timestamp vd;
     Match.frame_number := VisualData.frame_number vd;
     Match.frame_path := VisualData.frame_path vd;
     Match.similarity :=
       cosine_similarity query_visual_embedding (VisualData.embedding_ vd) |}.

(** Lines 888-906. *)
Definition visual_result (video_id : string) (segments : list Segment.t)
    (m : Match.t) : Result.t :=
  let timestamp := Match.timestamp m in
  {| Result.timestamp := timestamp;
     Result.text := corresponding_text segments timestamp;
     Result.score := Match.similarity m;
     Result.search_type := "visual";
     Result.end_ := timestamp + 1;
     Result.frame_url := Some (frame_url video_id (Match.frame_number m));
     Result.frame_path := Some (Match.frame_path m);
     Result.clip_score := Some (round3 (Match.similarity m)) |}.

Definition visual_search (query : SearchQuery.t) (data : Data.t) : list Result.t :=
  match encode_text_with_openclip (SearchQuery.query query) with
  | Some query_visual_embedding =>
      let visual_matches :=
        map (visual_match query_visual_embedding) (Data.visual_data data) in
      let visual_matches := sort_desc Match.similarity visual_matches in
      let top_matches := slice_to (SearchQuery.top_k query * 2) visual_matches in
      match top_matches with
      | [] => []     (* [top_matches[0]] in the print raises IndexError *)
      | _ :: _ =>
          map (visual_result (SearchQuery.video_id query) (Data.segments data))
            top_matches
      end
  | None => []       (* except Exception: print *)
  end.

(** Hybrid mode, text half: lines 931-950. *)
Fixpoint hybrid_text_loop (query : string) (query_embedding : embedding)
    (text_segments : list Segment.t) (text_embeddings : list embedding)
    : list Result.t :=
  match text_segments, text_embeddings with
  | seg :: segs, emb :: embs =>
      let similarity := cosine_similarity query_embedding emb in
      let combined_score := similarity + keyword_bonus query (Segment.text seg) in
      (if Qltb (3 # 10) combined_score then
         [ {| Result.timestamp := Segment.start seg;
              Result.text := Segment.text seg;
              Result.score := min combined_score 1 * (1 # 2);
              Result.search_type := "text";
              Result.end_ := Segment.end_ seg;
              Result.frame_url := None;
              Result.frame_path := None;
              Result.clip_score := None |} ]
       else [])
      ++ hybrid_text_loop query query_embedding segs embs
  | _, _ => []
  end.

(** Hybrid mode, visual half: lines 960-983. *)
Fixpoint hybrid_visual_loop (video_id : string) (segments : list Segment.t)
    (query_visual_embedding : embedding) (visual_data : list VisualData.t)
    : list Result.t :=
  match visual_data with
  | [] => []
  | vd :: vds =>
      let similarity :=
        cosine_similarity query_visual_embedding (VisualData.embedding_ vd) in
      (if Qltb (2 # 10) similarity then
         let timestamp := VisualData.timestamp vd in
         [ {| Result.timestamp := timestamp;
              Result.text := corresponding_text segments timestamp;
              Result.score := similarity * (1 # 2);
              Result.search_type := "visual";
              Result.end_ := timestamp + 1;
              Result.frame_url :=
                Some (frame_url video_id (VisualData.frame_number vd));
              Result.frame_path := None;
              Result.clip_score := Some (round3 similarity) |} ]
       else [])
      ++ hybrid_visual_loop video_id segments query_visual_embedding vds
  end.

Definition hybrid_text_results (query : SearchQuery.t) (data : Data.t)
    : list Result.t :=
  match get_text_embeddings (SearchQuery.query query) with
  | Some query_embedding =>
      hybrid_text_loop (SearchQuery.query query) query_embedding
        (Data.segments data) (Data.text_embeddings data)
  | None => []
  end.

Definition hybrid_visual_results (query : SearchQuery.t) (data : Data.t)
    : list Result.t :=
  match encode_text_with_openclip (SearchQuery.query query) with
  | Some query_visual_embedding =>
      hybrid_visual_loop (SearchQuery.video_id query) (Data.segments data)
        query_visual_embedding (Data.visual_data data)
  | None => []
  end.

Definition hybrid_search (query : SearchQuery.t) (data : Data.t) : list Result.t :=
  hybrid_text_results query data ++ hybrid_visual_results query data.

(** The dispatch of lines 808, 852 and 916: [if ... == "text"],
    [elif ... == "visual"], [else]. *)
Definition candidates (query : SearchQuery.t) (data : Data.t) : list Result.t :=
  if String.eqb (SearchQuery.search_type query) "text" then text_search query data
  else if String.eqb (SearchQuery.search_type query) "visual" then
    visual_search query data
  else hybrid_search query data.

(** [[
    for r in results:
        ts = round(r["timestamp"], 1)
        if ts not in seen_timestamps or seen_timestamps[ts] < r["score"]:
            if ts in seen_timestamps:
                unique_results = [ur for ur in unique_results
                                  if round(ur["timestamp"], 1) != ts]
            seen_timestamps[ts] = r["score"]
            unique_results.append(r)
    ]] *)
Definition dedup_step (st : gmap Z Q * list Result.t) (r : Result.t)
    : gmap Z Q * list Result.t :=
  let '(seen_timestamps, unique_results) := st in
  let ts := round1 (Result.timestamp r) in
  match seen_timestamps !! ts with
  | None => (<[ts := Result.score r]> seen_timestamps, unique_results ++ [r])
  | Some seen =>
      if Qltb seen (Result.score r) then
        (<[ts := Result.score r]> seen_timestamps,
         List.filter (fun ur => negb (round1 (Result.timestamp ur) =? ts)%Z)
           unique_results ++ [r])
      else st
  end.

Definition remove_duplicates (results : list Result.t) : list Result.t :=
  snd (fold_left dedup_step results (∅, [])).

(** Lines 991-1005. *)
Definition rank (results : list Result.t) : list Result.t :=
  let results := sort_desc Result.score results in
  let unique_results := remove_duplicates results in
  sort_desc Result.score unique_results.

Definition history_entry (now : string) (query : SearchQuery.t)
    (unique_results : list Result.t) : HistoryEntry.t :=
  {| HistoryEntry.query := SearchQuery.query query;
     HistoryEntry.search_type := SearchQuery.search_type query;
     HistoryEntry.timestamp := now;
     HistoryEntry.results_count := length unique_results;
     HistoryEntry.top_score :=
       match unique_results with
       | r :: _ => Result.score r
       | [] => 0
       end |}.

(** The endpoint.  [now] is [datetime.now().isoformat()] at the call.
    The result is the raised [HTTPException] or the returned body, and
    the world after the call. *)
Definition search_video (now : string) (w : World.t) (query : SearchQuery.t)
    : (HTTPException.t + Response.t) * World.t :=
  match World.data_files w !! SearchQuery.video_id query with
  | None =>
      (inl {| HTTPException.status_code := 404;
              HTTPException.detail := "Video not processed yet" |}, w)
  | Some data =>
      let unique_results := rank (candidates query data) in
      let history :=
        default [] (World.search_history w !! SearchQuery.video_id query) in
      (inr {| Response.results := slice_to (SearchQuery.top_k query) unique_results;
              Response.total_matches := length unique_results;
              Response.search_type := SearchQuery.search_type query;
              Response.model := "OpenCLIP ViT-B-32 + LAION-2B - FIXED" |},
       {| World.data_files := World.data_files w;
          World.status_files := World.status_files w;
          World.search_history :=
            <[SearchQuery.video_id query :=
                history ++ [history_entry now query unique_results]]>
              (World.search_history w) |})
  end.

(** ** Notions the properties of the search are stated with *)

(** The 0.1 s bucket of a result: [round(r["timestamp"], 1)]. *)
Definition bucket (r : Result.t) : Z := round1 (Result.timestamp r).

Definition in_bucket (b : Z) (r : Result.t) : bool := (bucket r =? b)%Z.

(** What the loop of lines 997-1003 maintains on a list sorted by
    descending score: the dictionary knows exactly the buckets met so
    far, each with the score of one of their results, and
    [unique_results] holds, for each bucket, its first result. *)
Definition dedup_inv (l : list Result.t) (st : gmap Z Q * list Result.t) : Prop :=
  (forall b, fst st !! b = None <-> List.find (in_bucket b) l = None)
  /\ (forall b s, fst st !! b = Some s -> exists r, In r l /\ Result.score r = s)
  /\ (forall u, In u (snd st) <-> List.find (in_bucket (bucket u)) l = Some u)
  /\ List.NoDup (map bucket (snd st)).

(** [u] wins its bucket among the candidates [l]: it stands in [l], no
    candidate of its bucket before it reaches its score, and no
    candidate of its bucket after it exceeds it. *)
Definition bucket_winner (l : list Result.t) (u : Result.t) : Prop :=
  exists l1 l2 : list Result.t,
    l = l1 ++ u :: l2
    /\ (forall c, In c l1 -> bucket c = bucket u -> Result.score c < Result.score u)
    /\ (forall c, In c l2 -> bucket c = bucket u -> Result.score c <= Result.score u).

(** A text result for [seg] with the given score. *)
Definition text_result (seg : Segment.t) (score : Q) : Result.t :=
  {| Result.timestamp := Segment.start seg;
     Result.text := Segment.text seg;
     Result.score := score;
     Result.search_type := "text";
     Result.end_ := Segment.end_ seg;
     Result.frame_url := None;
     Result.frame_path := None;
     Result.clip_score := None |}.

(** [min(similarity + keyword_bonus, 1.0)] for a segment and its embedding. *)
Definition combined_score (query : string) (query_embedding : embedding)
    (seg : Segment.t) (emb : embedding) : Q :=
  min (cosine_similarity query_embedding emb
       + keyword_bonus query (Segment.text seg)) 1.

(** [seg] is the first segment of [segments], in order, whose interval
    contains [timestamp]. *)
Definition first_containing (segments : list Segment.t) (timestamp : Q)
    (seg : Segment.t) : Prop :=
  exists l1 l2 : list Segment.t,
    segments = l1 ++ seg :: l2
    /\ (Segment.start seg <= timestamp /\ timestamp <= Segment.end_ seg)
    /\ forall s, In s l1 ->
         ~ (Segment.start s <= timestamp /\ timestamp <= Segment.end_ s).

Definition none_containing (segments : list Segment.t) (timestamp : Q) : Prop :=
  forall s, In s segments ->
    ~ (Segment.start s <= timestamp /\ timestamp <= Segment.end_ s).

(** [r] with its score multiplied by [0.5]. *)
Definition halve (r : Result.t) : Result.t :=
  {| Result.timestamp := Result.timestamp r;
     Result.text := Result.text r;
     Result.score := Result.score r * (1 # 2);
     Result.search_type := Result.search_type r;
     Result.end_ := Result.end_ r;
     Result.frame_url := Result.frame_url r;
     Result.frame_path := Result.frame_path r;
     Result.clip_score := Result.clip_score r |}.

(** The hybrid result for the frame [vd] of similarity [similarity]. *)
Definition hybrid_visual_result (video_id : string) (segments : list Segment.t)
    (vd : VisualData.t) (similarity : Q) : Result.t :=
  {| Result.timestamp := VisualData.timestamp vd;
     Result.text := corresponding_text segments (VisualData.timestamp vd);
     Result.score := similarity * (1 # 2);
     Result.search_type := "visual";
     Result.end_ := VisualData.timestamp vd + 1;
     Result.frame_url := Some (frame_url video_id (VisualData.frame_number vd));
     Result.frame_path := None;
     Result.clip_score := Some (round3 similarity) |}.

(** The modes a request runs all failed to encode the query. *)
Definition all_modes_fail (query : SearchQuery.t) : Prop :=
  (SearchQuery.search_type query = "text"
   /\ get_text_embeddings (SearchQuery.query query) = None)
  \/ (SearchQuery.search_type query = "visual"
      /\ encode_text_with_openclip (SearchQuery.query query) = None)
  \/ (SearchQuery.search_type query <> "text"
      /\ SearchQuery.search_type query <> "visual"
      /\ get_text_embeddings (SearchQuery.query query) = None
      /\ encode_text_with_openclip (SearchQuery.query query) = None).

(** [query] with its [search_type] replaced. *)
Definition with_search_type (search_type : string) (query : SearchQuery.t)
    : SearchQuery.t :=
  {| SearchQuery.video_id := SearchQuery.video_id query;
     SearchQuery.query := SearchQuery.query query;
     SearchQuery.search_type := search_type;
     SearchQuery.top_k := SearchQuery.top_k query |}.

End Search.

End Engine.

(* ===================================================================== *)
(** * Small sessions to run the search on                                 *)
(* ===================================================================== *)

Module Demo.

Import Engine.
Local Open Scope Q_scope.
Local Open Scope string_scope.

(** A table in place of the models: the stored embedding of a segment or
    of a frame is the similarity it has to the query. *)
Definition table_models : Models := {|
  embedding := Q;
  get_text_embeddings := fun _ => Some 0;
  encode_text_with_openclip := fun _ => Some 0;
  cosine_similarity := fun _ e => e
|}.

(** The same table behind models whose query encoders raise. *)
Definition failing_models : Models := {|
  embedding := Q;
  get_text_embeddings := fun _ => None;
  encode_text_with_openclip := fun _ => None;
  cosine_similarity := fun _ e => e
|}.

Definition segments : list Segment.t :=
  [ {| Segment.start := 0; Segment.end_ := 5; Segment.text := "Cats are great" |};
    {| Segment.start := 1004 # 100; Segment.end_ := 11; Segment.text := "first" |};
    {| Segment.start := 1006 # 100; Segment.end_ := 12; Segment.text := "second" |} ].

Definition frame `{Models} (i : Z) (e : embedding) : VisualData.t :=
  {| VisualData.timestamp := inject_Z i;
     VisualData.frame_path := "frames/" +:+ Py.str i;
     VisualData.frame_number := i;
     VisualData.embedding_ := e |}.

(** Three segments with similarities 0.1, 0.6 and 0.7, and three frames,
    at 0 s, 1 s and 7 s, with similarities 0.9, 0.1 and 0.5. *)
Definition data (M : Models) (sims : list (@embedding M)) (frames : list (@VisualData.t M))
    : @Data.t M :=
  {| Data.segments := segments;
     Data.text_embeddings := sims;
     Data.visual_data := frames |}.

Definition table_data : @Data.t table_models :=
  data table_models [1 # 10; 6 # 10; 7 # 10]
    [ @frame table_models 0 (9 # 10);
      @frame table_models 1 (1 # 10);
      @frame table_models 7 (5 # 10) ].

Definition failing_data : @Data.t failing_models :=
  data failing_models [1 # 10; 6 # 10; 7 # 10]
    [ @frame failing_models 0 (9 # 10);
      @frame failing_models 1 (1 # 10);
      @frame failing_models 7 (5 # 10) ].

(** The session ["v"], processed. *)
Definition world (M : Models) (d : @Data.t M) : @World.t M :=
  {| World.data_files := {[ "v" := d ]};
     World.status_files :=
       {[ "v" := {| ProcessingStatus.status := "completed";
                    ProcessingStatus.progress := 1;
                    ProcessingStatus.message :=
                      "Processing complete! Visual search is now working correctly." |} ]};
     World.search_history := ∅ |}.

Definition table_world : @World.t table_models := world table_models table_data.
Definition failing_world : @World.t failing_models := world failing_models failing_data.

Definition request (query search_type : string) (top_k : Z) : SearchQuery.t :=
  {| SearchQuery.video_id := "v";
     SearchQuery.query := query;
     SearchQuery.search_type := search_type;
     SearchQuery.top_k := top_k |}.

(** [datetime.now().isoformat()] at the calls. *)
Definition now : string := "2025-01-01T12:00:00".

(** The requests the theorems are run on. *)
Definition cats_text : SearchQuery.t := request "cats" "text" 10.
Definition car_visual : SearchQuery.t := request "a red car" "visual" 2.
Definition cats_hybrid : SearchQuery.t := request "cats" "hybrid" 2.
Definition cats_semantic : SearchQuery.t := request "cats" "semantic" 2.
Definition empty_text : SearchQuery.t := request "" "text" 10.

(** The frame at 7 s lies in no segment. *)
Definition frame7_result : Result.t :=
  {| Result.timestamp := 7 # 1;
     Result.text := "Visual content at 7.0s";
     Result.score := 5 # 10;
     Result.search_type := "visual";
     Result.end_ := (7 # 1) + 1;
     Result.frame_url := Some "/frame/v/7";
     Result.frame_path := Some "frames/7";
     Result.clip_score := Some (500 # 1000) |}.

End Demo.

(* ===================================================================== *)
(** * The scores of text and hybrid mode on binary64 (main.py, lines
      808-844 and 916-1020)                                               *)
(* ===================================================================== *)

Module Scores.

Import Py.

(** What the scoring calls.  [get_text_embeddings] and
    [encode_text_with_openclip] are the two encoders of the query, with
    [None] for a raised exception.  [cosine_similarity] is the function
    of lines 370-382 on two stored lists, with [None] for the
    [ValueError] of [np.dot]: any function of this type, so that what is
    proved holds whatever the order in which [np.dot] sums, and for
    similarities that are NaN or exceed [1.0];
    [Cosine.cosine_similarity] on binary64 is one.  [lower] is
    [str.lower], with the case tables of Unicode.  A text is the string
    of its UTF-8 bytes, on which [needle in hay] is [contains]: the
    bytes of a character never start inside another character. *)
Class Models := {
  get_text_embeddings : string -> option (list float);
  encode_text_with_openclip : string -> option (list float);
  cosine_similarity : list float -> list float -> option float;
  lower : string -> string
}.

(** An entry of [data["visual_data"]]. *)
Module VisualData.
Record t := {
  timestamp : Q;
  frame_path : string;
  frame_number : Z;
  embedding_ : list float
}.
End VisualData.

(** The contents of the data file that the search reads. *)
Module Data.
Record t := {
  segments : list Engine.Segment.t;
  text_embeddings : list (list float);
  visual_data : list VisualData.t
}.
End Data.

(** An entry of [results], its score a binary64 float. *)
Module Result.
Record t := {
  timestamp : Q;
  text : string;
  score : float;
  search_type : string;
  end_ : Q;
  frame_url : option string;
  clip_score : option float
}.
End Result.

(** The mantissa [m] followed by [k] binary zeros. *)
Fixpoint shl (m : positive) (k : nat) : positive :=
  match k with
  | O => m
  | S k' => ((shl m k')~0)%positive
  end.

(** [min(a, b)] on floats: the first argument unless the second is
    strictly smaller. *)
Definition min (a b : float) : float := if (b <? a)%float then b else a.

(** The float of an integer below [2^53]. *)
Definition of_Z (n : Z) : float := PrimFloat.of_uint63 (Uint63.of_Z n).

(** [round(x, 3)]: the float nearest to the decimal with three places
    that is nearest to the exact value of [x], ties to even.  From
    magnitude [2^43] on that float is [x] itself, as it is for the
    infinities and NaN; below, the number of thousandths is less than
    [2^53] and the division is the one rounding. *)
Definition round3 (x : float) : float :=
  match Prim2SF x with
  | S754_finite s m e =>
      if (0x1p43 <=? abs x)%float then x
      else
        let n := round_half_even (inject_Z (Z.pos m) * Qpower 2 e * 1000) in
        let r := (of_Z n / 1000)%float in
        if s then (- r)%float else r
  | _ => x
  end.

Section Search.
Context `{Models}.

(** [[
    keyword_bonus = 0.0
    if query_lower in text_lower:
        keyword_bonus = 0.3
    ]] *)
Definition keyword_bonus (query text : string) : float :=
  if contains (lower text) (lower query)
  then 0x1.3333333333333p-2%float       (* 0.3 *)
  else 0%float.

(** Text mode, the loop of lines 819-842.  A [ValueError] of
    [cosine_similarity] ends the loop; the results appended before it
    stay in [results]. *)
Fixpoint text_loop (query : string) (query_embedding : list float)
    (text_segments : list Engine.Segment.t) (text_embeddings : list (list float))
    : list Result.t :=
  match text_segments, text_embeddings with
  | seg :: segs, emb :: embs =>
      match cosine_similarity query_embedding emb with
      | None => []
      | Some similarity =>
          let combined_score :=
            (similarity + keyword_bonus query (Engine.Segment.text seg))%float in
          (if (0x1.3333333333333p-2 <? combined_score)%float then
             [ {| Result.timestamp := Engine.Segment.start seg;
                  Result.text := Engine.Segment.text seg;
                  Result.score := min combined_score 1;
                  Result.search_type := "text";
                  Result.end_ := Engine.Segment.end_ seg;
                  Result.frame_url := None;
                  Result.clip_score := None |} ]
           else [])
          ++ text_loop query query_embedding segs embs
      end
  | _, _ => []       (* [i >= len(text_embeddings)]: continue *)
  end.

Definition text_search (query : Engine.SearchQuery.t) (data : Data.t)
    : list Result.t :=
  match get_text_embeddings (Engine.SearchQuery.query query) with
  | Some query_embedding =>
      text_loop (Engine.SearchQuery.query query) query_embedding
        (Data.segments data) (Data.text_embeddings data)
  | None => []       (* except Exception: print *)
  end.

(** Hybrid mode, text half: lines 931-950. *)
Fixpoint hybrid_text_loop (query : string) (query_embedding : list float)
    (text_segments : list Engine.Segment.t) (text_embeddings : list (list float))
    : list Result.t :=
  match text_segments, text_embeddings with
  | seg :: segs, emb :: embs =>
      match cosine_similarity query_embedding emb with
      | None => []
      | Some similarity =>
          let combined_score :=
            (similarity + keyword_bonus query (Engine.Segment.text seg))%float in
          (if (0x1.3333333333333p-2 <? combined_score)%float then
             [ {| Result.timestamp := Engine.Segment.start seg;
                  Result.text := Engine.Segment.text seg;
                  Result.score := (min combined_score 1 * 0.5)%float;
                  Result.search_type := "text";
                  Result.end_ := Engine.Segment.end_ seg;
                  Result.frame_url := None;
                  Result.clip_score := None |} ]
           else [])
          ++ hybrid_text_loop query query_embedding segs embs
      end
  | _, _ => []
  end.

(** Hybrid mode, visual half: lines 960-983. *)
Fixpoint hybrid_visual_loop (video_id : string) (segments : list Engine.Segment.t)
    (query_visual_embedding : list float) (visual_data : list VisualData.t)
    : list Result.t :=
  match visual_data with
  | [] => []
  | vd :: vds =>
      match cosine_similarity query_visual_embedding (VisualData.embedding_ vd) with
      | None => []
      | Some similarity =>
          (if (0x1.999999999999ap-3 <? similarity)%float then      (* 0.2 *)
             let timestamp := VisualData.timestamp vd in
             [ {| Result.timestamp := timestamp;
                  Result.text := Engine.corresponding_text segments timestamp;
                  Result.score := (similarity * 0.5)%float;
                  Result.search_type := "visual";
                  Result.end_ := (timestamp + 1)%Q;
                  Result.frame_url :=
                    Some (Engine.frame_url video_id (VisualData.frame_number vd));
                  Result.clip_score := Some (round3 similarity) |} ]
           else [])
          ++ hybrid_visual_loop video_id segments query_visual_embedding vds
      end
  end.

Definition hybrid_text_results (query : Engine.SearchQuery.t) (data : Data.t)
    : list Result.t :=
  match get_text_embeddings (Engine.SearchQuery.query query) with
  | Some query_embedding =>
      hybrid_text_loop (Engine.SearchQuery.query query) query_embedding
        (Data.segments data) (Data.text_embeddings data)
  | None => []
  end.

Definition hybrid_visual_results (query : Engine.SearchQuery.t) (data : Data.t)
    : list Result.t :=
  match encode_text_with_openclip (Engine.SearchQuery.query query) with
  | Some query_visual_embedding =>
      hybrid_visual_loop (Engine.SearchQuery.video_id query) (Data.segments data)
        query_visual_embedding (Data.visual_data data)
  | None => []
  end.

Definition hybrid_search (query : Engine.SearchQuery.t) (data : Data.t)
    : list Result.t :=
  hybrid_text_results query data ++ hybrid_visual_results query data.

(** [results.sort(key=lambda x: x["score"], reverse=True)].  The scores
    of text and hybrid candidates are never NaN (each passed a [>]), so
    the floats compared are totally ordered and the stable sort has one
    possible result, computed here by insertion. *)
Fixpoint insert_desc (x : Result.t) (l : list Result.t) : list Result.t :=
  match l with
  | [] => [x]
  | y :: l' =>
      if (Result.score x <? Result.score y)%float then y :: insert_desc x l'
      else x :: l
  end.

Definition sort_desc (l : list Result.t) : list Result.t :=
  fold_right insert_desc [] l.

(** The loop of lines 997-1003, on keys [round(r["timestamp"], 1)]. *)
Definition dedup_step (st : gmap Z float * list Result.t) (r : Result.t)
    : gmap Z float * list Result.t :=
  let '(seen_timestamps, unique_results) := st in
  let ts := round1 (Result.timestamp r) in
  match seen_timestamps !! ts with
  | None => (<[ts := Result.score r]> seen_timestamps, unique_results ++ [r])
  | Some seen =>
      if (seen <? Result.score r)%float then
        (<[ts := Result.score r]> seen_timestamps,
         List.filter (fun ur => negb (round1 (Result.timestamp ur) =? ts)%Z)
           unique_results ++ [r])
      else st
  end.

Definition remove_duplicates (results : list Result.t) : list Result.t :=
  snd (fold_left dedup_step results (∅, [])).

(** Lines 991-1005. *)
Definition rank (results : list Result.t) : list Result.t :=
  let results := sort_desc results in
  let unique_results := remove_duplicates results in
  sort_desc unique_results.

(** [unique_results[:query.top_k]]: the results returned for the
    candidates of a mode. *)
Definition returned (query : Engine.SearchQuery.t) (candidates : list Result.t)
    : list Result.t :=
  slice_to (Engine.SearchQuery.top_k query) (rank candidates).

(** ** Notions the properties of the scores are stated with *)

(** A text result for [seg] with the given score. *)
Definition text_result (seg : Engine.Segment.t) (score : float) : Result.t :=
  {| Result.timestamp := Engine.Segment.start seg;
     Result.text := Engine.Segment.text seg;
     Result.score := score;
     Result.search_type := "text";
     Result.end_ := Engine.Segment.end_ seg;
     Result.frame_url := None;
     Result.clip_score := None |}.

(** [r] with its score multiplied by [0.5]. *)
Definition halve (r : Result.t) : Result.t :=
  {| Result.timestamp := Result.timestamp r;
     Result.text := Result.text r;
     Result.score := (Result.score r * 0.5)%float;
     Result.search_type := Result.search_type r;
     Result.end_ := Result.end_ r;
     Result.frame_url := Result.frame_url r;
     Result.clip_score := Result.clip_score r |}.

(** The hybrid result for the frame [vd] of similarity [similarity]. *)
Definition hybrid_visual_result (video_id : string)
    (segments : list Engine.Segment.t) (vd : VisualData.t) (similarity : float)
    : Result.t :=
  {| Result.timestamp := VisualData.timestamp vd;
     Result.text := Engine.corresponding_text segments (VisualData.timestamp vd);
     Result.score := (similarity * 0.5)%float;
     Result.search_type := "visual";
     Result.end_ := (VisualData.timestamp vd + 1)%Q;
     Result.frame_url :=
       Some (Engine.frame_url video_id (VisualData.frame_number vd));
     Result.clip_score := Some (round3 similarity) |}.

(** The loop over [embeddings] reaches the index [i]: no similarity
    before it raises. *)
Definition reached (query_embedding : list float) (embeddings : list (list float))
    (i : nat) : Prop :=
  forall j emb, (j < i)%nat -> embeddings !! j = Some emb ->
    cosine_similarity query_embedding emb <> None.

End Search.

End Scores.

(* ===================================================================== *)
(** * A small session to run the binary64 scores on                       *)
(* ===================================================================== *)

Module Samples.

Import Scores.
Local Open Scope Q_scope.
Local Open Scope string_scope.

(** The sentence transformer embeds the query as [[3; 4]] and CLIP as
    [[1; 1; 1]].  The similarity is [Cosine.cosine_similarity] on
    binary64: the sums of products of the session are small integers,
    in whatever order they are added.  The texts of the session are
    ASCII, on which [str.lower] is [Py.lower]. *)
Definition models : Models := {|
  get_text_embeddings := fun _ => Some [3; 4]%float;
  encode_text_with_openclip := fun _ => Some [1; 1; 1]%float;
  cosine_similarity := @Cosine.cosine_similarity float Cosine.float_arith;
  lower := Py.lower
|}.

Definition segment (start end_ : Q) (text : string) : Engine.Segment.t :=
  {| Engine.Segment.start := start;
     Engine.Segment.end_ := end_;
     Engine.Segment.text := text |}.

Definition frame (i : Z) (e : list float) : VisualData.t :=
  {| VisualData.timestamp := inject_Z i;
     VisualData.frame_path := "frames/" +:+ Py.str i;
     VisualData.frame_number := i;
     VisualData.embedding_ := e |}.

(** Five segments, of similarities 1.0, 0.96, 0.0, 0.6 and 0.8 to the
    query, and three frames, of similarities 1.0000000000000002,
    0.5773502691896258 and -0.5773502691896258. *)
Definition data : Data.t :=
  {| Data.segments :=
       [ segment 0 5 "Cats are great";
         segment 5 9 "and dogs";
         segment 9 12 "Many cats";
         segment 12 15 "cats";
         segment 15 18 "birds" ];
     Data.text_embeddings :=
       [ [3; 4]; [4; 3]; [-4; 3]; [1; 0]; [0; 1] ]%float;
     Data.visual_data :=
       [ frame 20 [1; 1; 1]%float;
         frame 21 [1; 0; 0]%float;
         frame 22 [-1; 0; 0]%float ] |}.

Definition cats_text : Engine.SearchQuery.t := Demo.request "cats" "text" 10.
Definition cats_hybrid : Engine.SearchQuery.t := Demo.request "cats" "hybrid" 10.

End Samples.

(* ===================================================================== *)
(** * A second call of search_video, the encoders answering anew          *)
(* ===================================================================== *)

Module Later.

Import Engine.

Section Later.
Context `{M : Models}.
Variables text clip : string -> option embedding.

(** The models at a later call.  The two query encoders load their
    model on first use and may raise, so what they answer at a later
    call, [text] and [clip], need not be what they answered before; the
    stored embeddings and [cosine_similarity] are those of [M]. *)
Definition models : Models := {|
  embedding := @embedding M;
  get_text_embeddings := text;
  encode_text_with_openclip := clip;
  cosine_similarity := @cosine_similarity M
|}.

(** The files as the later call reads them: the same contents. *)
Definition frame (vd : @VisualData.t M) : @VisualData.t models :=
  @VisualData.Build_t models (VisualData.timestamp vd) (VisualData.frame_path vd)
    (VisualData.frame_number vd) (VisualData.embedding_ vd).

Definition data (d : @Data.t M) : @Data.t models :=
  @Data.Build_t models (Data.segments d) (Data.text_embeddings d)
    (map frame (Data.visual_data d)).

Definition world (w : @World.t M) : @World.t models :=
  @World.Build_t models (data <$> World.data_files w) (World.status_files w)
    (World.search_history w).


End Later.

End Later.

(** ** A second call on the small sessions *)

Module Replay.

Import Engine Demo.
Local Open Scope Q_scope.
Local Open Scope string_scope.






End Replay.

(* ===================================================================== *)
(** * The rate limiter (main.py, lines 92-111)                            *)
(* ===================================================================== *)

Module Limits.

Definition RATE_LIMIT : Z := 50.

(** [f"{ip}:{today}"]; [today] is [datetime.now().date()] as text. *)
Definition key (today ip : string) : string := (ip +:+ ":" +:+ today)%string.

(** [[
    if key not in rate_limit_store:
        rate_limit_store[key] = 0
    if rate_limit_store[key] >= RATE_LIMIT:
        return False
    rate_limit_store[key] += 1
    return True
    ]] *)
Definition check_rate_limit (today ip : string) (rate_limit_store : gmap string Z)
    : bool * gmap string Z :=
  let key := key today ip in
  let rate_limit_store :=
    match rate_limit_store !! key with
    | None => <[key := 0%Z]> rate_limit_store
    | Some _ => rate_limit_store
    end in
  let used := default 0%Z (rate_limit_store !! key) in
  if (RATE_LIMIT <=? used)%Z then (false, rate_limit_store)
  else (true, <[key := (used + 1)%Z]> rate_limit_store).

(** [[
    used = rate_limit_store.get(key, 0)
    return max(0, RATE_LIMIT - used)
    ]] *)
Definition get_rate_limit_remaining (today ip : string)
    (rate_limit_store : gmap string Z) : Z :=
  let used := default 0%Z (rate_limit_store !! key today ip) in
  Z.max 0 (RATE_LIMIT - used).

(** Successive calls of [check_rate_limit], each at its date and from
    its address: the answers, and the store after the last one. *)
Fixpoint check_all (calls : list (string * string)) (rate_limit_store : gmap string Z)
    : list bool * gmap string Z :=
  match calls with
  | [] => ([], rate_limit_store)
  | (today, ip) :: calls' =>
      let '(ok, store) := check_rate_limit today ip rate_limit_store in
      let '(oks, store') := check_all calls' store in
      (ok :: oks, store')
  end.

(** Every counter of the store lies between [0] and [RATE_LIMIT]. *)
Definition bounded (rate_limit_store : gmap string Z) : Prop :=
  forall k used, rate_limit_store !! k = Some used -> (0 <= used <= RATE_LIMIT)%Z.

(** The counter [check_rate_limit] works on, once the key is there. *)
Definition used_of (today ip : string) (rate_limit_store : gmap string Z) : Z :=
  default 0%Z (rate_limit_store !! key today ip).

End Limits.

(* ===================================================================== *)
(** * The other endpoints (main.py, lines 505-584, 777-792, 1045-1181)    *)
(* ===================================================================== *)

Module Server.

Import Py Engine Limits.

(** What the endpoints take from the framework and from the clock:
    [str(e)] of an [HTTPException] and the value [generate_video_id]
    derives from a name and the time of the call (an MD5 digest). *)
Class Framework := {
  http_exception_str : HTTPException.t -> string;
  generate_video_id : string -> string -> string
}.

Definition MAX_FILE_SIZE : Z := 500 * 1024 * 1024.

Module BookmarkRequest.
Record t := { video_id : string; timestamp : Q; note : option string }.
End BookmarkRequest.

(** An entry of [bookmarks[video_id]]. *)
Module Bookmark.
Record t := { timestamp : Q; note : option string; created_at : string }.
End Bookmark.

(** The whole of a data file: what the search reads and the other keys
    an endpoint reads. *)
Module DataFile.
Record t `{Models} := {
  data : Data.t;
  frames_dir : string;
  video_path : string;
  duration : Q;
  frame_interval : Z;
  model : string
}.
End DataFile.

(** A JSON file of [CACHE_DIR]: a status or a data file. *)
Module Json.
Inductive t `{Models} :=
| Status (status : ProcessingStatus.t)
| Data (data : DataFile.t).
End Json.

Module VideoInfo.
Record t := {
  video_id : string;
  duration : Q;
  segments_count : nat;
  frames_count : nat;
  frame_interval : Z;
  model : string;
  has_text_search : bool;
  has_visual_search : bool
}.
End VideoInfo.

Module UploadReply.
Record t := {
  video_id : string;
  filename : string;
  message : string;
  remaining_uploads : Z
}.
End UploadReply.

(** The files and the in-memory stores.  [cache] is [CACHE_DIR], by
    file name; [uploads] holds the names of the files of [UPLOAD_DIR]
    and [frame_dirs] its directories with their files; [lancedb] is the
    set of table names, or [None] when the library is missing. *)
Module State.
Record t `{Models} := {
  cache : gmap string Json.t;
  uploads : gset string;
  frame_dirs : gmap string (list string);
  lancedb : option (gset string);
  search_history : gmap string (list HistoryEntry.t);
  bookmarks : gmap string (list Bookmark.t);
  rate_limit_store : gmap string Z
}.
End State.

Section Endpoints.
Context `{Models} `{Framework}.

(** [f"{video_id}.json"], [f"{video_id}_data.json"], [f"{video_id}.mp4"]
    and [f"{video_id}_frames"]. *)
Definition status_name (video_id : string) : string := video_id +:+ ".json".
Definition data_name (video_id : string) : string := video_id +:+ "_data.json".
Definition video_name (video_id : string) : string := video_id +:+ ".mp4".
Definition frames_name (video_id : string) : string := video_id +:+ "_frames".

(** [str(UPLOAD_DIR / name)], from [BASE_DIR]. *)
Definition upload_path (name : string) : string := "uploads/" +:+ name.

(** The state when the program starts: empty stores (lines 50-52). *)
Definition start (cache : gmap string Json.t) (uploads : gset string)
    (frame_dirs : gmap string (list string)) (lancedb : option (gset string))
    : State.t :=
  {| State.cache := cache;
     State.uploads := uploads;
     State.frame_dirs := frame_dirs;
     State.lancedb := lancedb;
     State.search_history := ∅;
     State.bookmarks := ∅;
     State.rate_limit_store := ∅ |}.

(** ** GET /status/{video_id} *)

Definition not_found : ProcessingStatus.t :=
  {| ProcessingStatus.status := "not_found";
     ProcessingStatus.progress := 0;
     ProcessingStatus.message := "Video not found" |}.

Definition get_status (s : State.t) (video_id : string) : Json.t :=
  match State.cache s !! status_name video_id with
  | None => Json.Status not_found
  | Some status => status
  end.

(** ** POST /search *)

(** [data.get("segments", [])] and the like: the keys of a data file,
    and nothing for a file that has no such key. *)
Definition data_of (j : Json.t) : Data.t :=
  match j with
  | Json.Data d => DataFile.data d
  | Json.Status _ =>
      {| Data.segments := []; Data.text_embeddings := []; Data.visual_data := [] |}
  end.

(** What [search_video] sees of the state for one [video_id]. *)
Definition world_for (s : State.t) (video_id : string) : World.t :=
  {| World.data_files :=
       match State.cache s !! data_name video_id with
       | Some j => {[ video_id := data_of j ]}
       | None => ∅
       end;
     World.status_files := ∅;
     World.search_history := State.search_history s |}.

Definition with_search_history (s : State.t)
    (search_history : gmap string (list HistoryEntry.t)) : State.t :=
  {| State.cache := State.cache s;
     State.uploads := State.uploads s;
     State.frame_dirs := State.frame_dirs s;
     State.lancedb := State.lancedb s;
     State.search_history := search_history;
     State.bookmarks := State.bookmarks s;
     State.rate_limit_store := State.rate_limit_store s |}.

Definition search (now : string) (s : State.t) (query : SearchQuery.t)
    : (HTTPException.t + Response.t) * State.t :=
  let '(reply, w) := search_video now (world_for s (SearchQuery.video_id query)) query in
  (reply, with_search_history s (World.search_history w)).

(** ** GET /search-history/{video_id} *)

Definition get_search_history (s : State.t) (video_id : string)
    : string * list HistoryEntry.t :=
  (video_id, default [] (State.search_history s !! video_id)).

(** ** POST /bookmarks and GET /bookmarks/{video_id} *)

Definition add_bookmark (now : string) (s : State.t) (bookmark : BookmarkRequest.t)
    : string * State.t :=
  let video_id := BookmarkRequest.video_id bookmark in
  let old := default [] (State.bookmarks s !! video_id) in
  ("Bookmark added successfully",
   {| State.cache := State.cache s;
      State.uploads := State.uploads s;
      State.frame_dirs := State.frame_dirs s;
      State.lancedb := State.lancedb s;
      State.search_history := State.search_history s;
      State.bookmarks :=
        <[video_id :=
            old ++ [ {| Bookmark.timestamp := BookmarkRequest.timestamp bookmark;
                        Bookmark.note := BookmarkRequest.note bookmark;
                        Bookmark.created_at := now |} ]]>
          (State.bookmarks s);
      State.rate_limit_store := State.rate_limit_store s |}).

Definition get_bookmarks (s : State.t) (video_id : string)
    : string * list Bookmark.t :=
  (video_id, default [] (State.bookmarks s !! video_id)).

(** ** GET /video-info/{video_id} *)

Definition get_video_info (s : State.t) (video_id : string)
    : HTTPException.t + VideoInfo.t :=
  match State.cache s !! data_name video_id with
  | None =>
      inl {| HTTPException.status_code := 404;
             HTTPException.detail := "Video not found" |}
  | Some j =>
      inr {| VideoInfo.video_id := video_id;
             VideoInfo.duration :=
               match j with Json.Data d => DataFile.duration d | _ => 0%Q end;
             VideoInfo.segments_count := length (Data.segments (data_of j));
             VideoInfo.frames_count := length (Data.visual_data (data_of j));
             VideoInfo.frame_interval :=
               match j with Json.Data d => DataFile.frame_interval d | _ => 1%Z end;
             VideoInfo.model :=
               match j with Json.Data d => DataFile.model d | _ => "Unknown" end;
             VideoInfo.has_text_search := true;
             VideoInfo.has_visual_search := true |}
  end.

(** ** DELETE /video/{video_id} *)

Definition delete_video (s : State.t) (video_id : string) : string * State.t :=
  ("Video and all associated data deleted",
   {| State.cache :=
        delete (data_name video_id) (delete (status_name video_id) (State.cache s));
      State.uploads := State.uploads s ∖ {[ video_name video_id ]};
      State.frame_dirs := delete (frames_name video_id) (State.frame_dirs s);
      State.lancedb :=
        match State.lancedb s with
        | Some tables =>
            Some (tables ∖ {[ "text_" +:+ video_id ]} ∖ {[ "visual_" +:+ video_id ]})
        | None => None         (* except Exception: print *)
        end;
      State.search_history := delete video_id (State.search_history s);
      State.bookmarks := delete video_id (State.bookmarks s);
      State.rate_limit_store := State.rate_limit_store s |}).

(** ** POST /upload and POST /upload-url *)

(** [s.endswith(suffix)]. *)
Definition endswith (s suffix : string) : bool :=
  (String.length suffix <=? String.length s)%nat
  && String.eqb
       (String.substring (String.length s - String.length suffix)
          (String.length suffix) s)
       suffix.

Definition supported (filename : string) : bool :=
  existsb (endswith (lower filename)) [".mp4"; ".avi"; ".mov"; ".mkv"; ".webm"].

Definition rate_limit_exceeded : HTTPException.t :=
  {| HTTPException.status_code := 429;
     HTTPException.detail :=
       "Rate limit exceeded. Limit: " +:+ str RATE_LIMIT +:+ "/day" |}.

Definition file_too_large : HTTPException.t :=
  {| HTTPException.status_code := 400;
     HTTPException.detail :=
       "File too large. Max size: " +:+ str (MAX_FILE_SIZE / (1024 * 1024)) +:+ "MB" |}.

Definition with_upload (s : State.t) (name : string) : State.t :=
  {| State.cache := State.cache s;
     State.uploads := State.uploads s ∪ {[ name ]};
     State.frame_dirs := State.frame_dirs s;
     State.lancedb := State.lancedb s;
     State.search_history := State.search_history s;
     State.bookmarks := State.bookmarks s;
     State.rate_limit_store := State.rate_limit_store s |}.

Definition with_status (s : State.t) (video_id : string)
    (status : ProcessingStatus.t) : State.t :=
  {| State.cache := <[status_name video_id := Json.Status status]> (State.cache s);
     State.uploads := State.uploads s;
     State.frame_dirs := State.frame_dirs s;
     State.lancedb := State.lancedb s;
     State.search_history := State.search_history s;
     State.bookmarks := State.bookmarks s;
     State.rate_limit_store := State.rate_limit_store s |}.

(** [upload_video].  [filename] is [file.filename] ([None] or a name)
    and [size] is [len(content)]; reading the upload and writing the
    file are taken to succeed.  The third component is the background
    task created: the arguments of [process_video_background]. *)
Definition upload_video (now today client_ip : string) (s : State.t)
    (filename : option string) (size : Z)
    : (HTTPException.t + UploadReply.t) * State.t * option (string * string) :=
  let remaining := get_rate_limit_remaining today client_ip (State.rate_limit_store s) in
  if (remaining <=? 0)%Z then (inl rate_limit_exceeded, s, None)
  else
    match filename with
    | None | Some "" =>
        (inl {| HTTPException.status_code := 400;
                HTTPException.detail := "No filename provided" |}, s, None)
    | Some filename =>
        if negb (supported filename) then
          (inl {| HTTPException.status_code := 400;
                  HTTPException.detail :=
                    "Invalid file format. Supported: mp4, avi, mov, mkv, webm" |},
           s, None)
        else
          let video_id := generate_video_id filename now in
          if (MAX_FILE_SIZE <? size)%Z then
            (* raised in the [try], caught by its [except Exception] *)
            (inl {| HTTPException.status_code := 500;
                    HTTPException.detail :=
                      "Upload failed: " +:+ http_exception_str file_too_large |},
             s, None)
          else
            (inr {| UploadReply.video_id := video_id;
                    UploadReply.filename := filename;
                    UploadReply.message :=
                      "Upload successful. Processing with FIXED visual search.";
                    UploadReply.remaining_uploads := (remaining - 1)%Z |},
             with_upload s (video_name video_id),
             Some (video_id, upload_path (video_name video_id)))
    end.

(** [s.strip()] leaves nothing: [s] is made of white space. *)
Definition is_space (c : ascii) : bool :=
  let n := nat_of_ascii c in
  ((9 <=? n) && (n <=? 13) || (28 <=? n) && (n <=? 32))%nat.

Fixpoint blank (s : string) : bool :=
  match s with
  | EmptyString => true
  | String c s' => is_space c && blank s'
  end.

(** [upload_youtube_url].  The third component is the background task
    created: the arguments of [download_and_process_youtube]. *)
Definition upload_youtube_url (now today client_ip : string) (s : State.t)
    (url : string)
    : (HTTPException.t + UploadReply.t) * State.t * option (string * string * string) :=
  let remaining := get_rate_limit_remaining today client_ip (State.rate_limit_store s) in
  if (remaining <=? 0)%Z then (inl rate_limit_exceeded, s, None)
  else if blank url then
    (inl {| HTTPException.status_code := 400;
            HTTPException.detail := "URL cannot be empty" |}, s, None)
  else
    let video_id := generate_video_id url now in
    (inr {| UploadReply.video_id := video_id;
            UploadReply.filename := url;
            UploadReply.message := "YouTube download started.";
            UploadReply.remaining_uploads := (remaining - 1)%Z |},
     with_status s video_id
       {| ProcessingStatus.status := "downloading";
          ProcessingStatus.progress := 5 # 100;
          ProcessingStatus.message := "Downloading from YouTube..." |},
     Some (video_id, url, upload_path (video_name video_id))).

(** ** GET /frame/{video_id}/{frame_number} *)

(** The files of the directory at [path].  The directories of the disk
    are those of [UPLOAD_DIR]. *)
Definition listdir (s : State.t) (path : string) : option (list string) :=
  if String.prefix "uploads/" path
  then State.frame_dirs s !! String.substring 8 (String.length path - 8) path
  else None.

(** [f"{n:05d}"]: the sign, then the digits filled with zeros to five
    characters in all. *)
Fixpoint zeros (k : nat) : string :=
  match k with
  | O => ""
  | S k' => String "0" (zeros k')
  end.

Definition format_05d (n : Z) : string :=
  let digits := str (Z.abs n) in
  if (n <? 0)%Z then "-" +:+ zeros (4 - String.length digits) +:+ digits
  else zeros (5 - String.length digits) +:+ digits.

(** [f"frame_{frame_number:05d}.jpg"]. *)
Definition frame_file (frame_number : Z) : string :=
  "frame_" +:+ format_05d frame_number +:+ ".jpg".

(** The answer of [get_frame]: the file served, an [HTTPException], or
    the [KeyError] of a data file without the key ["frames_dir"]. *)
Inductive Frame :=
| Served (path : string)
| NoFrame (e : HTTPException.t)
| KeyError (key : string).

Definition get_frame (s : State.t) (video_id : string) (frame_number : Z) : Frame :=
  match State.cache s !! data_name video_id with
  | None =>
      NoFrame {| HTTPException.status_code := 404;
                 HTTPException.detail := "Video not found" |}
  | Some (Json.Status _) => KeyError "frames_dir"
  | Some (Json.Data data) =>
      let frames_dir := DataFile.frames_dir data in
      if existsb (String.eqb (frame_file frame_number))
           (default [] (listdir s frames_dir))
      then Served (frames_dir +:+ "/" +:+ frame_file frame_number)
      else
        NoFrame {| HTTPException.status_code := 404;
                   HTTPException.detail := "Frame not found" |}
  end.

(** The number that [k] digits 0 write. *)
Fixpoint zero_digits (k : nat) : Decimal.uint :=
  match k with
  | O => Decimal.Nil
  | S k' => Decimal.D0 (zero_digits k')
  end.

(** ** The requests of a session with the server *)

Inductive Request :=
| Upload (client_ip : string) (filename : option string) (size : Z)
| UploadUrl (client_ip url : string)
| GetStatus (video_id : string)
| Search (query : SearchQuery.t)
| GetSearchHistory (video_id : string)
| AddBookmark (bookmark : BookmarkRequest.t)
| GetBookmarks (video_id : string)
| GetVideoInfo (video_id : string)
| DeleteVideo (video_id : string).

Inductive Reply :=
| Raised (e : HTTPException.t)
| Uploaded (reply : UploadReply.t)
| StatusOf (status : Json.t)
| Found (response : Response.t)
| History (video_id : string) (history : list HistoryEntry.t)
| Bookmarks (video_id : string) (bookmarks : list Bookmark.t)
| Info (info : VideoInfo.t)
| Message (message : string).

Definition reply_of {A : Type} (ok : A -> Reply) (r : HTTPException.t + A) : Reply :=
  match r with
  | inl e => Raised e
  | inr a => ok a
  end.

(** One request, received at time [now] on the day [today]. *)
Definition handle (now today : string) (s : State.t) (request : Request)
    : Reply * State.t :=
  match request with
  | Upload client_ip filename size =>
      let '(r, s', _) := upload_video now today client_ip s filename size in
      (reply_of Uploaded r, s')
  | UploadUrl client_ip url =>
      let '(r, s', _) := upload_youtube_url now today client_ip s url in
      (reply_of Uploaded r, s')
  | GetStatus video_id => (StatusOf (get_status s video_id), s)
  | Search query =>
      let '(r, s') := search now s query in (reply_of Found r, s')
  | GetSearchHistory video_id =>
      (History video_id (snd (get_search_history s video_id)), s)
  | AddBookmark bookmark =>
      let '(m, s') := add_bookmark now s bookmark in (Message m, s')
  | GetBookmarks video_id =>
      (Bookmarks video_id (snd (get_bookmarks s video_id)), s)
  | GetVideoInfo video_id => (reply_of Info (get_video_info s video_id), s)
  | DeleteVideo video_id =>
      let '(m, s') := delete_video s video_id in (Message m, s')
  end.

(** Requests handled one after the other, each with its time and day. *)
Fixpoint serve (s : State.t) (requests : list (string * string * Request))
    : list Reply * State.t :=
  match requests with
  | [] => ([], s)
  | (now, today, request) :: requests' =>
      let '(reply, s') := handle now today s request in
      let '(replies, s'') := serve s' requests' in
      (reply :: replies, s'')
  end.

(** ** Notions the properties of the endpoints are stated with *)

(** The files of two sessions do not meet: neither identifier is the
    other followed by ["_data"], which would make the status file of
    the one the data file of the other. *)
Definition separate (v v' : string) : Prop :=
  v <> v' /\ v' <> v +:+ "_data" /\ v <> v' +:+ "_data".

End Endpoints.

End Server.

(* ===================================================================== *)
(** * Ingestion (main.py, lines 151-197, 333-368, 586-775)                *)
(* ===================================================================== *)

Module Pipeline.

Import Py Engine Limits Server.
Local Open Scope Q_scope.

(** ** transcribe_audio *)

(** A segment of Whisper's result; the key ["words"] is never read. *)
Module WhisperSegment.
Record t := { start : Q; end_ : Q; text : string }.
End WhisperSegment.

(** What Whisper does in a run: a transcript, an [ImportError], or
    another exception with its text. *)
Inductive Whisper :=
| Transcript (segments : list WhisperSegment.t)
| NotInstalled
| Failed (message : string).

(** A text is the string of its UTF-8 bytes.  [len(s)] counts its
    characters: the bytes that do not continue one ([10xxxxxx]). *)
Definition continues (c : ascii) : bool :=
  let n := N_of_ascii c in
  ((128 <=? n) && (n <=? 191))%N.

Fixpoint len (s : string) : nat :=
  match s with
  | EmptyString => 0
  | String c s' => if continues c then len s' else S (len s')
  end.

(** The white space of [str.strip] beyond ASCII, in UTF-8: U+0085 and
    U+00A0 on two bytes; U+1680, U+2000 to U+200A, U+2028, U+2029,
    U+202F, U+205F and U+3000 on three. *)
Definition is_space2 (c1 c2 : ascii) : bool :=
  let a := N_of_ascii c1 in
  let b := N_of_ascii c2 in
  ((a =? 194) && ((b =? 133) || (b =? 160)))%N.

Definition is_space3 (c1 c2 c3 : ascii) : bool :=
  let a := N_of_ascii c1 in
  let b := N_of_ascii c2 in
  let c := N_of_ascii c3 in
  ((a =? 225) && (b =? 154) && (c =? 128)
   || (a =? 226) && (b =? 128)
      && ((128 <=? c) && (c <=? 138) || (c =? 168) || (c =? 169) || (c =? 175))
   || (a =? 226) && (b =? 129) && (c =? 159)
   || (a =? 227) && (b =? 128) && (c =? 128))%N.

(** [s.lstrip()]: the white-space characters at the head are dropped. *)
Fixpoint lstrip (s : string) : string :=
  match s with
  | EmptyString => EmptyString
  | String c1 s1 =>
      if is_space c1 then lstrip s1
      else
        match s1 with
        | EmptyString => s
        | String c2 s2 =>
            if is_space2 c1 c2 then lstrip s2
            else
              match s2 with
              | EmptyString => s
              | String c3 s3 => if is_space3 c1 c2 c3 then lstrip s3 else s
              end
        end
  end.

(** [s] is made of white space. *)
Definition is_blank (s : string) : bool :=
  match lstrip s with
  | EmptyString => true
  | _ => false
  end.

(** [s.rstrip()]: the text ends where only white space follows.  No
    byte inside a character starts a white-space character. *)
Fixpoint rstrip (s : string) : string :=
  match s with
  | EmptyString => EmptyString
  | String c s' => if is_blank s then EmptyString else String c (rstrip s')
  end.

(** [s.strip()]. *)
Definition strip (s : string) : string := rstrip (lstrip s).

(** [[
    for segment in result["segments"]:
        text = segment["text"].strip()
        if len(text) < 3:
            continue
        segments.append({"start": ..., "end": ..., "text": text, ...})
    ]] *)
Fixpoint kept_segments (segments : list WhisperSegment.t) : list Segment.t :=
  match segments with
  | [] => []
  | segment :: rest =>
      let text := strip (WhisperSegment.text segment) in
      if (len text <? 3)%nat then kept_segments rest
      else {| Segment.start := WhisperSegment.start segment;
              Segment.end_ := WhisperSegment.end_ segment;
              Segment.text := text |} :: kept_segments rest
  end.

Definition transcribe_audio (whisper : Whisper) : list Segment.t :=
  match whisper with
  | Transcript segments => kept_segments segments
  | NotInstalled =>
      [ {| Segment.start := 0; Segment.end_ := 10;
           Segment.text := "Welcome to the video." |};
        {| Segment.start := 10; Segment.end_ := 20;
           Segment.text := "Main topic discussion." |};
        {| Segment.start := 20; Segment.end_ := 30;
           Segment.text := "Examples and demonstrations." |} ]
  | Failed message =>
      [ {| Segment.start := 0; Segment.end_ := 10;
           Segment.text := "Transcription error: " +:+ message |} ]
  end.

(** What the tools outside the program do in one run.  [None] for a
    step is its success and [Some message] the text of the exception it
    raises. *)
Module Run.
Record t := {
  ffmpeg : bool;                     (* check_ffmpeg() *)
  extract_audio : option string;
  whisper : Whisper;
  frame_files : list string;         (* sorted frame_*.jpg of the frames directory *)
  frames_timed_out : bool;           (* extract_frames returns [] *)
  text_embeddings_error : string;    (* the text, if get_text_embeddings raises *)
  openclip : bool;                   (* get_openclip_model() succeeds *)
  remove_audio : option string
}.
End Run.

(** ** encode_multiple_images_batch *)

(** The image side of OpenCLIP: the normalised features of the image at
    a path, or [None] when [Image.open] fails on it.  A batch is encoded
    image by image. *)
Class ImageEncoder `{Models} := {
  encode_image : string -> option embedding
}.

Section Ingestion.
Context `{Models} `{!ImageEncoder}.

(** [[
    for i in range(0, len(image_paths), batch_size):
        batch_paths = image_paths[i:i + batch_size]
        images = [the images of batch_paths that open]
        if not images:
            continue
        all_features.extend(the features of images)
    ]]
    [range(0, n, batch_size)] has at most [n] steps: the fuel.  The
    only call passes [batch_size = 32]. *)
Fixpoint encode_batches (fuel batch_size : nat) (image_paths : list string)
    : list embedding :=
  match fuel with
  | O => []
  | S fuel' =>
      match image_paths with
      | [] => []
      | _ :: _ =>
          omap encode_image (firstn batch_size image_paths)
          ++ encode_batches fuel' batch_size (skipn batch_size image_paths)
      end
  end.

Definition encode_multiple_images_batch (image_paths : list string)
    (batch_size : nat) : list embedding :=
  encode_batches (length image_paths) batch_size image_paths.

(** ** process_video_background *)

Definition audio_name (video_id : string) : string := (video_id +:+ ".wav")%string.

Definition frame_path (video_id file : string) : string :=
  (upload_path (frames_name video_id) +:+ "/" +:+ file)%string.

(** [extract_frames(video_path, str(frames_dir), interval=1)]: the sorted
    paths of the frame files, or nothing when ffmpeg times out. *)
Definition extract_frames (run : Run.t) (video_id : string) : list string :=
  if Run.frames_timed_out run then []
  else map (frame_path video_id) (Run.frame_files run).

Definition processing (progress : Q) (message : string) : ProcessingStatus.t :=
  {| ProcessingStatus.status := "processing";
     ProcessingStatus.progress := progress;
     ProcessingStatus.message := message |}.

Definition error_status (message : string) : ProcessingStatus.t :=
  {| ProcessingStatus.status := "error";
     ProcessingStatus.progress := 0;
     ProcessingStatus.message := ("Processing failed: " +:+ message)%string |}.

Definition completed : ProcessingStatus.t :=
  {| ProcessingStatus.status := "completed";
     ProcessingStatus.progress := 1;
     ProcessingStatus.message :=
       "Processing complete! Visual search is now working correctly." |}.

(** [[
    for i, (frame_path, embedding) in enumerate(zip(frame_paths, visual_embeddings)):
        timestamp = i * 1.0
        visual_data.append({"timestamp": timestamp, "frame_path": str(frame_path),
                            "frame_number": i, "embedding": embedding.tolist()})
    ]] *)
Fixpoint visual_data_from (i : nat) (frame_paths : list string)
    (visual_embeddings : list embedding) : list VisualData.t :=
  match frame_paths, visual_embeddings with
  | frame_path :: paths, embedding :: embeddings =>
      {| VisualData.timestamp := inject_Z (Z.of_nat i);
         VisualData.frame_path := frame_path;
         VisualData.frame_number := Z.of_nat i;
         VisualData.embedding_ := embedding |}
      :: visual_data_from (S i) paths embeddings
  | _, _ => []
  end.

(** The statuses written in that loop, one for each [i] with
    [i % 50 == 0]:
    [progress = 0.65 + (i / len(frame_paths)) * 0.25]. *)
Definition encoded_status (frames i : nat) : ProcessingStatus.t :=
  processing ((65 # 100) + (inject_Z (Z.of_nat i) / inject_Z (Z.of_nat frames)) * (25 # 100))
    ("Encoded " +:+ str (Z.of_nat i) +:+ "/" +:+ str (Z.of_nat frames) +:+ " frames...").

Definition encoded_statuses (frames encoded : nat) : list ProcessingStatus.t :=
  map (encoded_status frames)
    (List.filter (fun i => (i mod 50 =? 0)%nat) (seq 0 encoded)).

(** [[
    segments[-1]["end"] if segments
    else max([vd["timestamp"] for vd in visual_data]) if visual_data else 0
    ]] *)
Definition duration_of (segments : list Segment.t) (visual_data : list VisualData.t)
    : Q :=
  match segments with
  | _ :: _ => Segment.end_ (List.last segments {| Segment.start := 0; Segment.end_ := 0;
                                                 Segment.text := "" |})
  | [] =>
      match visual_data with
      | vd :: rest =>
          fold_left (fun m v => if Qltb m (VisualData.timestamp v)
                                then VisualData.timestamp v else m)
            rest (VisualData.timestamp vd)
      | [] => 0
      end
  end.

(** The dictionary written to the data file. *)
Definition processed_data (video_id video_path : string) (segments : list Segment.t)
    (text_embeddings : list embedding) (visual_data : list VisualData.t)
    : DataFile.t :=
  {| DataFile.data :=
       {| Data.segments := segments;
          Data.text_embeddings := text_embeddings;
          Data.visual_data := visual_data |};
     DataFile.frames_dir := upload_path (frames_name video_id);
     DataFile.video_path := video_path;
     DataFile.duration := duration_of segments visual_data;
     DataFile.frame_interval := 1;
     DataFile.model := "OpenCLIP ViT-B-32 + LAION-2B - FIXED" |}.

Definition with_statuses (s : State.t) (video_id : string)
    (statuses : list ProcessingStatus.t) : State.t :=
  fold_left (fun s status => with_status s video_id status) statuses s.

Definition with_frame_dir (s : State.t) (name : string) (files : list string)
    : State.t :=
  {| State.cache := State.cache s;
     State.uploads := State.uploads s;
     State.frame_dirs := <[name := files]> (State.frame_dirs s);
     State.lancedb := State.lancedb s;
     State.search_history := State.search_history s;
     State.bookmarks := State.bookmarks s;
     State.rate_limit_store := State.rate_limit_store s |}.

(** The state once the tables are created and the data file is written. *)
Definition stored (s : State.t) (video_id : string) (tables : gset string)
    (data : DataFile.t) : State.t :=
  {| State.cache := <[data_name video_id := Json.Data data]> (State.cache s);
     State.uploads := State.uploads s;
     State.frame_dirs := State.frame_dirs s;
     State.lancedb := Some tables;
     State.search_history := State.search_history s;
     State.bookmarks := State.bookmarks s;
     State.rate_limit_store := State.rate_limit_store s |}.

Definition without_upload (s : State.t) (name : string) : State.t :=
  {| State.cache := State.cache s;
     State.uploads := State.uploads s ∖ {[ name ]};
     State.frame_dirs := State.frame_dirs s;
     State.lancedb := State.lancedb s;
     State.search_history := State.search_history s;
     State.bookmarks := State.bookmarks s;
     State.rate_limit_store := State.rate_limit_store s |}.

(** The [except Exception] of the task: the error status is written. *)
Definition failed (written : list ProcessingStatus.t) (s : State.t)
    (video_id message : string) : list ProcessingStatus.t * State.t :=
  (written ++ [error_status message], with_status s video_id (error_status message)).

(** The task.  The result is the statuses written to the status file,
    in order, and the state when the task ends.  The sentence
    transformer encodes the list [texts] text by text, and the call
    raises when it does on one of them; [extract_frames] finds ffmpeg
    as the task did; creating a table succeeds. *)
Definition process_video_background (run : Run.t) (s : State.t)
    (video_id video_path : string) : list ProcessingStatus.t * State.t :=
  if negb (Run.ffmpeg run) then failed [] s video_id "FFmpeg not installed"
  else
    (* Step 1: extract audio *)
    let written := [processing (15 # 100) "Extracting audio..."] in
    let s := with_statuses s video_id written in
    match Run.extract_audio run with
    | Some message => failed written s video_id message
    | None =>
        let s := with_upload s (audio_name video_id) in
        (* Step 2: transcribe audio *)
        let step := [processing (3 # 10) "Transcribing audio with Whisper..."] in
        let written := written ++ step in
        let s := with_statuses s video_id step in
        let segments := transcribe_audio (Run.whisper run) in
        (* Step 3: extract frames *)
        let step :=
          [processing (45 # 100) "Extracting frames (every 1 second for accuracy)..."] in
        let written := written ++ step in
        let s := with_statuses s video_id step in
        let s := with_frame_dir s (frames_name video_id) (Run.frame_files run) in
        let frame_paths := extract_frames run video_id in
        (* Step 4: text embeddings *)
        let step := [processing (55 # 100) "Generating text embeddings..."] in
        let written := written ++ step in
        let s := with_statuses s video_id step in
        let texts := map Segment.text segments in
        match mapM get_text_embeddings texts with
        | None => failed written s video_id (Run.text_embeddings_error run)
        | Some text_embeddings =>
            (* Step 5: visual embeddings *)
            let step := [processing (65 # 100) "Encoding frames with OpenCLIP..."] in
            let written := written ++ step in
            let s := with_statuses s video_id step in
            if negb (Run.openclip run) then
              failed written s video_id
                "Failed to load OpenCLIP model. Install with: pip install open-clip-torch"
            else
              let visual_embeddings := encode_multiple_images_batch frame_paths 32 in
              let visual_data := visual_data_from 0 frame_paths visual_embeddings in
              let step := encoded_statuses (length frame_paths) (length visual_data) in
              let written := written ++ step in
              let s := with_statuses s video_id step in
              (* Step 6: store *)
              let step := [processing (92 # 100) "Storing in LanceDB..."] in
              let written := written ++ step in
              let s := with_statuses s video_id step in
              match State.lancedb s with
              | None =>
                  failed written s video_id
                    "lancedb not installed. Run: pip install lancedb"
              | Some tables =>
                  if (length text_embeddings <? length segments)%nat then
                    (* text_embeddings[i] *)
                    failed written s video_id "list index out of range"
                  else
                    let tables :=
                      match segments with
                      | [] => tables
                      | _ :: _ => tables ∪ {[ ("text_" +:+ video_id)%string ]}
                      end in
                    let tables :=
                      match visual_data with
                      | [] => tables
                      | _ :: _ => tables ∪ {[ ("visual_" +:+ video_id)%string ]}
                      end in
                    let s :=
                      stored s video_id tables
                        (processed_data video_id video_path segments
                           text_embeddings visual_data) in
                    let step := [completed] in
                    let written := written ++ step in
                    let s := with_statuses s video_id step in
                    match Run.remove_audio run with
                    | Some message => failed written s video_id message
                    | None => (written, without_upload s (audio_name video_id))
                    end
              end
        end
    end.

(** ** download_and_process_youtube *)

Definition downloading : ProcessingStatus.t :=
  {| ProcessingStatus.status := "downloading";
     ProcessingStatus.progress := 1 # 10;
     ProcessingStatus.message := "Downloading YouTube video..." |}.

Definition download_failed (message : string) : ProcessingStatus.t :=
  {| ProcessingStatus.status := "error";
     ProcessingStatus.progress := 0;
     ProcessingStatus.message := ("Download failed: " +:+ message)%string |}.

(** [download] is what [download_youtube_video(url, video_path)] does:
    the text of the exception it raises, or the path of the file it
    has written. *)
Definition download_and_process_youtube (download : string + string) (run : Run.t)
    (s : State.t) (video_id : string) : list ProcessingStatus.t * State.t :=
  let s := with_status s video_id downloading in
  match download with
  | inl message =>
      ([downloading; download_failed message],
       with_status s video_id (download_failed message))
  | inr downloaded_path =>
      let s := with_upload s (video_name video_id) in
      let '(written, s) := process_video_background run s video_id downloaded_path in
      (downloading :: written, s)
  end.

(** ** Notions the properties of the ingestion are stated with *)

(** The statuses of a run in which every step succeeds, for [frames]
    frame files of which [encoded] pair with an embedding. *)
Definition steps (frames encoded : nat) : list ProcessingStatus.t :=
  [ processing (15 # 100) "Extracting audio...";
    processing (3 # 10) "Transcribing audio with Whisper...";
    processing (45 # 100) "Extracting frames (every 1 second for accuracy)...";
    processing (55 # 100) "Generating text embeddings...";
    processing (65 # 100) "Encoding frames with OpenCLIP..." ]
  ++ encoded_statuses frames encoded
  ++ [ processing (92 # 100) "Storing in LanceDB..."; completed ].

(** The entries of [visual_data] that the task builds. *)
Definition visual_data_of (run : Run.t) (video_id : string) : list VisualData.t :=
  visual_data_from 0 (extract_frames run video_id)
    (encode_multiple_images_batch (extract_frames run video_id) 32).

(** The statuses written while the task works: all but an error
    status. *)
Definition reported (written : list ProcessingStatus.t) : list ProcessingStatus.t :=
  List.filter (fun status => negb (String.eqb (ProcessingStatus.status status) "error"))
    written.

Definition progress_le (a b : ProcessingStatus.t) : Prop :=
  ProcessingStatus.progress a <= ProcessingStatus.progress b.

(** A status after which the task writes no other. *)
Definition terminal (status : ProcessingStatus.t) : Prop :=
  status = completed
  \/ (ProcessingStatus.status status = "error"
      /\ ProcessingStatus.progress status = 0).

(** Every step of the run up to the writing of the data file succeeds. *)
Definition stores (run : Run.t) (s : State.t) : Prop :=
  Run.ffmpeg run = true
  /\ Run.extract_audio run = None
  /\ (exists text_embeddings,
        mapM get_text_embeddings
          (map Segment.text (transcribe_audio (Run.whisper run)))
        = Some text_embeddings)
  /\ Run.openclip run = true
  /\ (exists tables, State.lancedb s = Some tables).

(** Every step of the run succeeds. *)
Definition succeeds (run : Run.t) (s : State.t) : Prop :=
  stores run s /\ Run.remove_audio run = None.

(** The frames directory holds [n] frames under the names that a
    pattern [frame_%05d.jpg] numbered from 1 gives them, in sorted
    order. *)
Definition numbered_from_one (run : Run.t) (n : nat) : Prop :=
  (Z.of_nat n < 100000)%Z
  /\ Run.frames_timed_out run = false
  /\ Run.frame_files run = map (fun i => frame_file (Z.of_nat i)) (seq 1 n).

(** Nothing in the state belongs to [video_id] yet. *)
Definition fresh (s : State.t) (video_id : string) : Prop :=
  State.cache s !! status_name video_id = None
  /\ State.cache s !! data_name video_id = None
  /\ (video_name video_id ∉ State.uploads s)
  /\ (audio_name video_id ∉ State.uploads s)
  /\ State.frame_dirs s !! frames_name video_id = None
  /\ (forall tables, State.lancedb s = Some tables ->
        (("text_" +:+ video_id)%string ∉ tables)
        /\ (("visual_" +:+ video_id)%string ∉ tables))
  /\ State.search_history s !! video_id = None
  /\ State.bookmarks s !! video_id = None.

(** The body of the response to a search that finds [data]. *)
Definition found (query : SearchQuery.t) (data : Data.t) : Response.t :=
  {| Response.results :=
       slice_to (SearchQuery.top_k query) (rank (candidates query data));
     Response.total_matches := length (rank (candidates query data));
     Response.search_type := SearchQuery.search_type query;
     Response.model := "OpenCLIP ViT-B-32 + LAION-2B - FIXED" |}.

End Ingestion.

End Pipeline.

(* ===================================================================== *)
(** * Sessions the properties of the server are run on                    *)
(* ===================================================================== *)

Module Sessions.

Import Py Engine Limits Server Pipeline.
Local Open Scope Q_scope.

(** [str(e)] as ["status: detail"], and an identifier made of the name
    and the time. *)
Definition framework : Framework := {|
  http_exception_str := fun e =>
    (str (HTTPException.status_code e) +:+ ": " +:+ HTTPException.detail e)%string;
  generate_video_id := fun filename now => (filename +:+ "@" +:+ now)%string
|}.

(** Every image opens. *)
Definition images : @ImageEncoder Demo.table_models :=
  @Build_ImageEncoder Demo.table_models (fun _ => Some (1 # 2)).

(** The second frame does not open. *)
Definition torn_images : @ImageEncoder Demo.table_models :=
  @Build_ImageEncoder Demo.table_models
    (fun path => if endswith path "frame_00002.jpg" then None else Some (1 # 2)).

(** A transcript of three segments, the second of which is too short,
    and three frames. *)
Definition run : Run.t := {|
  Run.ffmpeg := true;
  Run.extract_audio := None;
  Run.whisper :=
    Transcript
      [ {| WhisperSegment.start := 0; WhisperSegment.end_ := 5;
           WhisperSegment.text := " Cats are great " |};
        {| WhisperSegment.start := 5; WhisperSegment.end_ := 6;
           WhisperSegment.text := " a " |};
        {| WhisperSegment.start := 6; WhisperSegment.end_ := 9;
           WhisperSegment.text := "and dogs" |} ];
  Run.frame_files := ["frame_00001.jpg"; "frame_00002.jpg"; "frame_00003.jpg"];
  Run.frames_timed_out := false;
  Run.text_embeddings_error := "";
  Run.openclip := true;
  Run.remove_audio := None
|}.

(** The same run, but the audio file cannot be removed. *)
Definition busy_run : Run.t := {|
  Run.ffmpeg := Run.ffmpeg run;
  Run.extract_audio := Run.extract_audio run;
  Run.whisper := Run.whisper run;
  Run.frame_files := Run.frame_files run;
  Run.frames_timed_out := Run.frames_timed_out run;
  Run.text_embeddings_error := Run.text_embeddings_error run;
  Run.openclip := Run.openclip run;
  Run.remove_audio := Some "[Errno 13] Permission denied"
|}.

(** The state of a server that has just started, with LanceDB. *)
Definition started : @State.t Demo.table_models := start ∅ ∅ ∅ (Some ∅).

(** The session ["v"] of [Demo], with a bookmark, beside a session
    ["w"] that is still processing. *)
Definition busy : @State.t Demo.table_models := {|
  State.cache :=
    {[ "v.json" := Json.Status completed;
       "v_data.json" :=
         Json.Data
           {| DataFile.data := Demo.table_data;
              DataFile.frames_dir := "uploads/v_frames";
              DataFile.video_path := "uploads/v.mp4";
              DataFile.duration := 12;
              DataFile.frame_interval := 1;
              DataFile.model := "OpenCLIP ViT-B-32 + LAION-2B - FIXED" |};
       "w.json" := Json.Status (processing (3 # 10) "Transcribing audio with Whisper...") ]};
  State.uploads := {[ "v.mp4"; "w.mp4"; "w.wav" ]};
  State.frame_dirs := {[ "v_frames" := ["frame_00001.jpg"] ]};
  State.lancedb := Some {[ "text_v"; "visual_v" ]};
  State.search_history := ∅;
  State.bookmarks :=
    {[ "w" := [ {| Bookmark.timestamp := 3; Bookmark.note := Some "intro";
                   Bookmark.created_at := Demo.now |} ] ]};
  State.rate_limit_store := ∅
|}.

Definition about (video_id : string) : SearchQuery.t :=
  {| SearchQuery.video_id := video_id;
     SearchQuery.query := "cats";
     SearchQuery.search_type := "text";
     SearchQuery.top_k := 10 |}.

End Sessions.

(* ===================================================================== *)
(** * Properties of cosine_similarity                                     *)
(* ===================================================================== *)

Module CosineFacts.

Import Cosine.
Local Open Scope R_scope.

Lemma dot_from_rdot (a : list R) : forall (b : list R) (acc : R),
  length a = length b -> dot_from acc a b = Some (acc + rdot a b).
Proof.
  induction a as [|x a IH]; intros [|y b] acc Hlen; simpl in *; try discriminate.
  - f_equal. lra.
  - rewrite IH by congruence. f_equal. lra.
Qed.

Lemma sumsq_from_rdot (a : list R) : forall acc : R,
  sumsq_from acc a = acc + rdot a a.
Proof.
  induction a as [|x a IH]; intros acc; simpl.
  - lra.
  - rewrite IH. lra.
Qed.

Lemma rdot_self_nonneg (a : list R) : 0 <= rdot a a.
Proof.
  induction a as [|x a IH]; simpl; [lra | nra].
Qed.

Lemma rdot_self_pos (a : list R) : Exists (fun x => x <> 0) a -> 0 < rdot a a.
Proof.
  induction 1 as [x a Hx | x a _ IH]; simpl.
  - pose proof (rdot_self_nonneg a). nra.
  - nra.
Qed.

(** A binary quadratic form with non-negative diagonal and non-negative
    determinant takes no negative value. *)
Lemma quadratic_form_nonneg (A B d x y : R) :
  0 <= A -> 0 <= B -> d * d <= A * B ->
  0 <= B * (x * x) - 2 * d * (x * y) + A * (y * y).
Proof.
  intros HA HB Hd.
  destruct (Req_dec B 0) as [HB0 | HB0].
  - subst B. assert (d = 0) by nra. subst d. nra.
  - assert (0 < B) by lra.
    assert (0 <= B * (B * (x * x) - 2 * d * (x * y) + A * (y * y))).
    { replace (B * (B * (x * x) - 2 * d * (x * y) + A * (y * y)))
        with ((B * x - d * y) * (B * x - d * y) + (A * B - d * d) * (y * y)) by ring.
      apply Rplus_le_le_0_compat; [apply Rle_0_sqr |].
      apply Rmult_le_pos; [lra | apply Rle_0_sqr]. }
    apply Rmult_le_reg_l with B; [assumption | lra].
Qed.

(** Cauchy-Schwarz on lists. *)
Lemma cauchy_schwarz (a : list R) : forall b : list R,
  rdot a b * rdot a b <= rdot a a * rdot b b.
Proof.
  induction a as [|x a IH]; intros [|y b]; simpl;
    try (rewrite ?Rmult_0_l, ?Rmult_0_r; lra).
  specialize (IH b).
  pose proof (rdot_self_nonneg a) as HA.
  pose proof (rdot_self_nonneg b) as HB.
  pose proof (quadratic_form_nonneg _ _ _ x y HA HB IH) as HQ.
  replace ((x * x + rdot a a) * (y * y + rdot b b))
    with ((x * y + rdot a b) * (x * y + rdot a b)
          + (rdot b b * (x * x) - 2 * rdot a b * (x * y) + rdot a a * (y * y))
          + (rdot a a * rdot b b - rdot a b * rdot a b)) by ring.
  lra.
Qed.

Lemma Reqb_true (x y : R) : Reqb x y = true <-> x = y.
Proof. unfold Reqb. destruct (Req_dec_T x y); split; congruence. Qed.

Lemma Reqb_false (x y : R) : Reqb x y = false <-> x <> y.
Proof. unfold Reqb. destruct (Req_dec_T x y); split; congruence. Qed.

Lemma norm_real (a : list R) : norm a = sqrt (rdot a a).
Proof. unfold norm. simpl. rewrite sumsq_from_rdot. f_equal. lra. Qed.

Lemma cosine_similarity_real (a b : list R) :
  length a = length b ->
  cosine_similarity a b =
    Some (if Reqb (norm a) 0 || Reqb (norm b) 0 then 0
          else rdot a b / (norm a * norm b)).
Proof.
  intros Hlen. unfold cosine_similarity, dot, norm. simpl.
  rewrite dot_from_rdot by assumption.
  replace (0 + rdot a b) with (rdot a b) by lra.
  destruct (_ || _); reflexivity.
Qed.

Lemma quotient_in_unit_range (d s : R) :
  0 < s -> d * d <= s * s -> -1 <= d / s <= 1.
Proof.
  intros Hs Hd.
  assert (- s <= d <= s) as [Hlo Hhi] by nra.
  split.
  - apply Rmult_le_reg_r with s; [assumption |].
    unfold Rdiv. rewrite Rmult_assoc, Rinv_l by lra. lra.
  - apply Rmult_le_reg_r with s; [assumption |].
    unfold Rdiv. rewrite Rmult_assoc, Rinv_l by lra. lra.
Qed.

Lemma cosine_real_range (a b : list R) :
  -1 <= (if Reqb (norm a) 0 || Reqb (norm b) 0 then 0
         else rdot a b / (norm a * norm b)) <= 1.
Proof.
  destruct (Reqb (norm a) 0) eqn:Ea; cbn [orb]; [lra |].
  destruct (Reqb (norm b) 0) eqn:Eb; [lra |].
  apply Reqb_false in Ea, Eb.
  rewrite !norm_real in *.
  pose proof (sqrt_pos (rdot a a)). pose proof (sqrt_pos (rdot b b)).
  apply quotient_in_unit_range; [nra |].
  replace (sqrt (rdot a a) * sqrt (rdot b b) * (sqrt (rdot a a) * sqrt (rdot b b)))
    with ((sqrt (rdot a a) * sqrt (rdot a a)) * (sqrt (rdot b b) * sqrt (rdot b b)))
    by ring.
  rewrite !sqrt_sqrt by apply rdot_self_nonneg.
  apply cauchy_schwarz.
Qed.

Lemma cosine_real_self (v : list R) :
  Exists (fun x => x <> 0) v -> cosine_similarity v v = Some 1.
Proof.
  intros Hv. rewrite cosine_similarity_real by reflexivity.
  pose proof (rdot_self_pos v Hv) as Hpos.
  assert (norm v <> 0) as Hn.
  { rewrite norm_real. intros E. apply sqrt_eq_0 in E; lra. }
  apply Reqb_false in Hn. rewrite Hn. cbn [orb]. f_equal.
  rewrite norm_real, sqrt_sqrt by lra. field. lra.
Qed.

Lemma dot_from_float_length (a : list float) : forall (b : list float) (acc : float),
  length a = length b -> exists d, dot_from acc a b = Some d.
Proof.
  induction a as [|x a IH]; intros [|y b] acc Hlen; simpl in *; try discriminate.
  - eauto.
  - apply IH. congruence.
Qed.

(** C8, counterexample.  On binary64 the quotient leaves [[-1, 1]] and
    misses [1.0], and not every pair of vectors has a result:
    - for [v = [1.0, 1.0, 1.0]] the dot product is [3.0], the norm is
      [sqrt(3.0)], whose square rounds to [2.9999999999999996], and
      [cosine_similarity(v, v)] is [1.0000000000000002];
    - for [v = [2.0**600]] the dot product overflows and the result is
      NaN;
    - for the non-zero [v = [2.0**-600]] the dot product underflows to
      [0.0], the guard fires and [cosine_similarity(v, v)] is [0.0];
    - for vectors of different lengths [np.dot] raises. *)
Lemma cosine_similarity_float_counterexample :
  cosine_similarity [1; 1; 1]%float [1; 1; 1]%float = Some 0x1.0000000000001p+0%float
  /\ in_unit_range 0x1.0000000000001p+0%float = false
  /\ cosine_similarity [0x1p+600]%float [0x1p+600]%float = Some nan
  /\ in_unit_range nan = false
  /\ nonzero_vector [0x1p-600]%float
  /\ cosine_similarity [0x1p-600]%float [0x1p-600]%float = Some 0%float
  /\ cosine_similarity [1]%float [1; 1]%float = None
  /\ ~ spec_range
  /\ ~ spec_self_one.
Proof.
  assert (cosine_similarity [1; 1; 1]%float [1; 1; 1]%float
          = Some 0x1.0000000000001p+0%float) as E1 by (vm_compute; reflexivity).
  assert (in_unit_range 0x1.0000000000001p+0%float = false) as R1
    by (vm_compute; reflexivity).
  assert (nonzero_vector [0x1p-600]%float) as N3.
  { exists 0x1p-600%float. split; [left; reflexivity | vm_compute; reflexivity]. }
  assert (cosine_similarity [0x1p-600]%float [0x1p-600]%float = Some 0%float) as E3
    by (vm_compute; reflexivity).
  repeat split; try assumption; try (vm_compute; reflexivity).
  - intros Hspec. specialize (Hspec _ _ _ E1). congruence.
  - intros Hspec. specialize (Hspec _ N3). rewrite E3 in Hspec. discriminate.
Qed.

(** C8, as amended.  In exact arithmetic, for vectors of one length,
    [cosine_similarity] returns a value of [[-1, 1]], which is [0] when
    either norm is zero, and [cosine_similarity(v, v)] is [1] for a
    non-zero [v].  On binary64, for vectors of one length, it returns a
    float: exactly [0.0] when a computed norm is zero, and otherwise the
    float quotient of the computed dot product by the float product of
    the computed norms. *)
Theorem cosine_similarity_exact (a b : list R) (fa fb : list float) :
  length a = length b ->
  length fa = length fb ->
  (exists c : R, cosine_similarity a b = Some c
                 /\ -1 <= c <= 1
                 /\ (norm a = 0 \/ norm b = 0 -> c = 0))
  /\ (Exists (fun x => x <> 0) a -> cosine_similarity a a = Some 1)
  /\ (exists d c : float,
        dot fa fb = Some d
        /\ cosine_similarity fa fb = Some c
        /\ (PrimFloat.eqb (norm fa) 0 || PrimFloat.eqb (norm fb) 0 = true
            -> c = 0%float)
        /\ (PrimFloat.eqb (norm fa) 0 || PrimFloat.eqb (norm fb) 0 = false
            -> c = PrimFloat.div d (PrimFloat.mul (norm fa) (norm fb)))).
Proof.
  intros Hlen Hflen. split; [| split].
  - eexists. split; [apply cosine_similarity_real; assumption |]. split.
    + apply cosine_real_range.
    + intros [Hz | Hz]; apply Reqb_true in Hz; rewrite Hz;
        [reflexivity | rewrite orb_true_r; reflexivity].
  - apply cosine_real_self.
  - destruct (dot_from_float_length fa fb 0%float Hflen) as [d Hd].
    exists d. unfold cosine_similarity, dot. simpl. rewrite Hd.
    destruct (_ || _); eexists; repeat split; congruence.
Qed.

Lemma cosine_similarity_exact_witness :
  length [3; 4] = length [4; 3]
  /\ length [0x1p-600]%float = length [0x1p-600]%float
  /\ (exists c : R, cosine_similarity [3; 4] [4; 3] = Some c
                 /\ -1 <= c <= 1
                 /\ (norm [3; 4] = 0 \/ norm [4; 3] = 0 -> c = 0))
  /\ (Exists (fun x => x <> 0) [3; 4] -> cosine_similarity [3; 4] [3; 4] = Some 1).
Proof.
  split; [reflexivity |]. split; [reflexivity |].
  destruct (cosine_similarity_exact [3; 4] [4; 3] [0x1p-600]%float [0x1p-600]%float
              eq_refl eq_refl) as (Hrange & Hself & _).
  exact (conj Hrange Hself).
Defined.

End CosineFacts.

(* ===================================================================== *)
(** * Properties of the Python built-ins                                  *)
(* ===================================================================== *)

Module PyFacts.

Import Py.
Local Open Scope Q_scope.

Lemma Qltb_lt (a b : Q) : Qltb a b = true <-> a < b.
Proof.
  unfold Qltb. rewrite negb_true_iff, <- not_true_iff_false, Qle_bool_iff.
  split; [apply Qnot_le_lt | apply Qlt_not_le].
Qed.

Lemma Qltb_ge (a b : Q) : Qltb a b = false <-> b <= a.
Proof.
  unfold Qltb. rewrite negb_false_iff. apply Qle_bool_iff.
Qed.

Lemma min_le_r (a b : Q) : min a b <= b.
Proof.
  unfold min. destruct (Qltb b a) eqn:E; [apply Qle_refl | now apply Qltb_ge].
Qed.

Lemma min_gt (c a b : Q) : c < b -> (c < min a b <-> c < a).
Proof.
  intros Hb. unfold min. destruct (Qltb b a) eqn:E; [| tauto].
  apply Qltb_lt in E. split; intros; [eapply Qlt_trans; eassumption | assumption].
Qed.

(** ** [needle in hay] *)

(** Computes the string appends whose first argument starts with a
    constructor. *)
Ltac append_step :=
  repeat match goal with
  | |- context [String.append (String ?c ?s) ?t] =>
      change (String.append (String c s) t) with (String c (String.append s t))
  | |- context [String.append EmptyString ?t] =>
      change (String.append EmptyString t) with t
  | H : context [String.append (String ?c ?s) ?t] |- _ =>
      change (String.append (String c s) t) with (String c (String.append s t)) in H
  | H : context [String.append EmptyString ?t] |- _ =>
      change (String.append EmptyString t) with t in H
  end.

Lemma prefix_append (p s : string) :
  String.prefix p s = true <-> exists post, s = (p +:+ post)%string.
Proof.
  revert s. induction p as [|c p IH]; intros s.
  - split; [intros _; exists s; reflexivity | intros _; destruct s; reflexivity].
  - destruct s as [|d s]; simpl.
    + split; [discriminate | intros [post E]; discriminate].
    + destruct (Ascii.ascii_dec c d) as [-> | Hne].
      * rewrite IH. split; intros [post E]; exists post; append_step; congruence.
      * split; [discriminate | intros [post E]; append_step; congruence].
Qed.

Lemma contains_spec (hay needle : string) :
  contains hay needle = true <-> is_substring needle hay.
Proof.
  unfold is_substring. induction hay as [|c hay IH]; cbn [contains].
  - rewrite orb_false_r, prefix_append. split.
    + intros [post E]. exists EmptyString, post. exact E.
    + intros [[|d pre] [post E]]; append_step; [eauto | discriminate].
  - rewrite orb_true_iff, IH, prefix_append. split.
    + intros [[post E] | [pre [post E]]].
      * exists EmptyString, post. exact E.
      * exists (String c pre), post. append_step. congruence.
    + intros [[|d pre] [post E]]; append_step.
      * left. eauto.
      * right. exists pre, post. congruence.
Qed.

(** ** Slices *)

Lemma slice_to_nonneg {A : Type} (k : Z) (l : list A) :
  (0 <= k)%Z -> slice_to k l = firstn (Z.to_nat k) l.
Proof.
  intros Hk. unfold slice_to. destruct (Z.leb_spec 0 k); [reflexivity | lia].
Qed.

Lemma slice_to_prefix {A : Type} (k : Z) (l : list A) :
  exists n, slice_to k l = firstn n l.
Proof. unfold slice_to. destruct (0 <=? k)%Z; eauto. Qed.

Lemma slice_to_In {A : Type} (k : Z) (l : list A) (x : A) :
  In x (slice_to k l) -> In x l.
Proof.
  destruct (slice_to_prefix k l) as [n ->]. rewrite <- (firstn_skipn n l) at 2.
  intros Hin. apply in_or_app. now left.
Qed.

Lemma slice_to_length {A : Type} (k : Z) (l : list A) :
  (0 <= k)%Z -> (Z.of_nat (length (slice_to k l)) <= k)%Z.
Proof.
  intros Hk. rewrite slice_to_nonneg by assumption.
  pose proof (firstn_le_length (Z.to_nat k) l). rewrite length_firstn. lia.
Qed.



(** ** The stable descending sort *)

Section Sort.
Context {A : Type} (key : A -> Q).

Lemma insert_desc_perm (x : A) (l : list A) :
  Permutation (insert_desc key x l) (x :: l).
Proof.
  induction l as [|y l IH]; simpl; [reflexivity |].
  destruct (Qltb (key x) (key y)); [| reflexivity].
  rewrite IH. apply perm_swap.
Qed.

Lemma sort_desc_perm (l : list A) : Permutation (sort_desc key l) l.
Proof.
  induction l as [|x l IH]; simpl; [reflexivity |].
  rewrite insert_desc_perm. now apply perm_skip.
Qed.

Lemma sort_desc_In (l : list A) (x : A) : In x (sort_desc key l) <-> In x l.
Proof.
  split; apply Permutation_in; [| symmetry]; apply sort_desc_perm.
Qed.


Lemma insert_desc_sorted (x : A) (l : list A) :
  StronglySorted (desc key) l -> StronglySorted (desc key) (insert_desc key x l).
Proof.
  induction 1 as [|y l Hs IH Hy]; simpl.
  - repeat constructor.
  - destruct (Qltb (key x) (key y)) eqn:E.
    + constructor; [exact IH |].
      rewrite List.Forall_forall in *. intros z Hz.
      apply (Permutation_in _ (insert_desc_perm x l)) in Hz.
      destruct Hz as [<- | Hz]; [| now apply Hy].
      apply Qltb_lt in E. now apply Qlt_le_weak.
    + apply Qltb_ge in E. constructor; [now constructor |].
      constructor; [exact E |].
      rewrite List.Forall_forall in *. intros z Hz.
      unfold desc in *. eapply Qle_trans; [apply Hy, Hz | exact E].
Qed.

Lemma sort_desc_sorted (l : list A) : StronglySorted (desc key) (sort_desc key l).
Proof.
  induction l as [|x l IH]; simpl; [constructor | now apply insert_desc_sorted].
Qed.

Lemma find_insert_desc (P : A -> bool) (x : A) (l : list A) :
  StronglySorted (desc key) l ->
  List.find P (insert_desc key x l) =
    if P x then
      match List.find P l with
      | Some y => if Qltb (key x) (key y) then Some y else Some x
      | None => Some x
      end
    else List.find P l.
Proof.
  induction 1 as [|z l Hs IH Hz]; simpl.
  - destruct (P x); reflexivity.
  - destruct (Qltb (key x) (key z)) eqn:E; simpl.
    + destruct (P z) eqn:Pz.
      * rewrite E. destruct (P x); reflexivity.
      * exact IH.
    + destruct (P x) eqn:Px; [| reflexivity].
      apply Qltb_ge in E.
      destruct (P z) eqn:Pz; [now rewrite (proj2 (Qltb_ge _ _) E) |].
      destruct (List.find P l) as [y|] eqn:Ey; [| reflexivity].
      apply find_some in Ey. destruct Ey as [Hy _].
      rewrite List.Forall_forall in Hz. specialize (Hz y Hy). unfold desc in Hz.
      assert (Qltb (key x) (key y) = false) as ->; [| reflexivity].
      apply Qltb_ge. eapply Qle_trans; eassumption.
Qed.

Lemma find_sort_desc (P : A -> bool) (l : list A) :
  List.find P (sort_desc key l) = best key P l.
Proof.
  induction l as [|x l IH]; simpl; [reflexivity |].
  rewrite find_insert_desc by apply sort_desc_sorted. now rewrite IH.
Qed.

Lemma best_some (P : A -> bool) (l : list A) (u : A) :
  best key P l = Some u -> In u l /\ P u = true.
Proof.
  revert u. induction l as [|x l IH]; intros u; simpl; [discriminate |].
  destruct (P x) eqn:Px.
  - destruct (best key P l) as [y|].
    + destruct (Qltb (key x) (key y)); intros [= <-].
      * destruct (IH y eq_refl). auto.
      * auto.
    + intros [= <-]. auto.
  - intros Hu. destruct (IH u Hu). auto.
Qed.

Lemma best_none (P : A -> bool) (l : list A) :
  best key P l = None -> forall c, In c l -> P c = false.
Proof.
  induction l as [|x l IH]; simpl; [intros _ c [] |].
  destruct (P x) eqn:Px.
  - destruct (best key P l) as [y|]; [destruct (Qltb (key x) (key y)) |]; discriminate.
  - intros Hn c [<- | Hc]; auto.
Qed.

Lemma best_first_greatest (P : A -> bool) (l : list A) (u : A) :
  best key P l = Some u <-> first_greatest key P l u.
Proof.
  split.
  - revert u. induction l as [|x l IH]; intros u; simpl; [discriminate |].
    destruct (P x) eqn:Px.
    + destruct (best key P l) as [y|] eqn:Ey.
      * destruct (Qltb (key x) (key y)) eqn:E; intros [= <-].
        -- destruct (IH y eq_refl) as (l1 & l2 & -> & Py & H1 & H2).
           exists (x :: l1), l2. repeat split; auto.
           intros c [<- | Hc] Pc; [now apply Qltb_lt | auto].
        -- apply Qltb_ge in E.
           destruct (IH y eq_refl) as (l1 & l2 & -> & Py & H1 & H2).
           exists [], (l1 ++ y :: l2). repeat split; auto; [intros c [] |].
           intros c Hc Pc. apply in_app_or in Hc.
           destruct Hc as [Hc | [<- | Hc]]; [| assumption |].
           ++ apply Qlt_le_weak. eapply Qlt_le_trans; [apply H1 |]; eassumption.
           ++ eapply Qle_trans; [apply H2 |]; eassumption.
      * intros [= <-]. exists [], l. repeat split; auto; [intros c [] |].
        intros c Hc Pc. rewrite (best_none P l Ey c Hc) in Pc. discriminate.
    + intros Hu. destruct (IH u Hu) as (l1 & l2 & -> & Pu & H1 & H2).
      exists (x :: l1), l2. repeat split; auto.
      intros c [<- | Hc] Pc; [congruence | auto].
  - intros (l1 & l2 & -> & Pu & H1 & H2).
    induction l1 as [|c l1 IH]; simpl.
    + rewrite Pu. destruct (best key P l2) as [y|] eqn:Ey; [| reflexivity].
      apply best_some in Ey. destruct Ey as [Hy Py].
      now rewrite (proj2 (Qltb_ge _ _) (H2 y Hy Py)).
    + rewrite IH by (intros; apply H1; simpl; auto).
      destruct (P c) eqn:Pc; [| reflexivity].
      now rewrite (proj2 (Qltb_lt _ _) (H1 c (or_introl eq_refl) Pc)).
Qed.

End Sort.

End PyFacts.

(* ===================================================================== *)
(** * Properties of search_video                                          *)
(* ===================================================================== *)

Module EngineFacts.

Import Py PyFacts Engine.
Local Open Scope Q_scope.

Section Facts.
Context `{Models}.

Lemma in_bucket_true (b : Z) (r : Result.t) : in_bucket b r = true <-> bucket r = b.
Proof. apply Z.eqb_eq. Qed.

Lemma in_bucket_false (b : Z) (r : Result.t) : in_bucket b r = false <-> bucket r <> b.
Proof. apply Z.eqb_neq. Qed.

Lemma find_snoc {A : Type} (P : A -> bool) (l : list A) (r : A) :
  List.find P (l ++ [r]) =
    match List.find P l with
    | Some x => Some x
    | None => if P r then Some r else None
    end.
Proof.
  induction l as [|x l IH]; simpl; [reflexivity |].
  destruct (P x); [reflexivity | exact IH].
Qed.

Lemma sorted_snoc {A : Type} (R : A -> A -> Prop) (l : list A) (r : A) :
  StronglySorted R (l ++ [r]) ->
  StronglySorted R l /\ forall x, In x l -> R x r.
Proof.
  induction l as [|y l IH]; simpl; intros Hs.
  - split; [constructor | intros x []].
  - apply StronglySorted_inv in Hs. destruct Hs as [Hs Hy].
    destruct (IH Hs) as [Hl Hr]. rewrite List.Forall_forall in Hy. split.
    + constructor; [assumption |]. rewrite List.Forall_forall.
      intros z Hz. apply Hy, in_or_app. now left.
    + intros x [<- | Hx]; [| now apply Hr].
      apply Hy, in_or_app. right. now left.
Qed.

Lemma dedup_inv_init : dedup_inv [] (∅, []).
Proof.
  unfold dedup_inv. simpl. split; [| split; [| split]].
  - intros b. rewrite lookup_empty. tauto.
  - intros b s. rewrite lookup_empty. discriminate.
  - intros u. split; [intros [] | discriminate].
  - constructor.
Qed.

Lemma dedup_inv_step (l : list Result.t) (r : Result.t)
    (st : gmap Z Q * list Result.t) :
  StronglySorted (desc Result.score) (l ++ [r]) ->
  dedup_inv l st -> dedup_inv (l ++ [r]) (dedup_step st r).
Proof.
  intros Hs (Ha & Hb & Hc & Hd). destruct st as [seen uniq]. simpl in *.
  apply sorted_snoc in Hs. destruct Hs as [_ Hr].
  unfold dedup_step. fold (bucket r).
  destruct (seen !! bucket r) as [s|] eqn:Es.
  - (* the bucket is known: its score is not smaller, nothing changes *)
    destruct (Hb _ _ Es) as (r' & Hr' & <-).
    rewrite (proj2 (Qltb_ge _ _) (Hr r' Hr')).
    assert (forall b, seen !! b = None -> in_bucket b r = false) as Hfresh.
    { intros b Hn. apply in_bucket_false. congruence. }
    repeat split; simpl.
    + intros Hn. rewrite find_snoc, (proj1 (Ha b) Hn), (Hfresh b Hn). reflexivity.
    + rewrite find_snoc. intros Hf. apply Ha.
      destruct (List.find (in_bucket b) l); [discriminate | reflexivity].
    + intros b s Hbs. destruct (Hb b s Hbs) as (x & Hx & E).
      exists x. split; [apply in_or_app; now left | exact E].
    + intros Hu. rewrite find_snoc. apply Hc in Hu. now rewrite Hu.
    + rewrite find_snoc. intros Hf. apply Hc.
      destruct (List.find (in_bucket (bucket u)) l) as [x|] eqn:Ex; [exact Hf |].
      apply Ha in Ex. rewrite (Hfresh _ Ex) in Hf. discriminate.
    + exact Hd.
  - (* a new bucket *)
    apply Ha in Es. repeat split; simpl.
    + intros Hn. apply lookup_insert_None in Hn. destruct Hn as [Hn Hne].
      rewrite find_snoc, (proj1 (Ha b) Hn).
      now rewrite (proj2 (in_bucket_false b r)).
    + rewrite find_snoc. intros Hf. apply lookup_insert_None.
      destruct (List.find (in_bucket b) l) eqn:Ef; [discriminate |].
      split; [now apply Ha |].
      intros <-. rewrite (proj2 (in_bucket_true _ r) eq_refl) in Hf. discriminate.
    + intros b s Hbs. apply lookup_insert_Some in Hbs.
      destruct Hbs as [[_ <-] | [_ Hbs]].
      * exists r. split; [apply in_or_app; right; now left | reflexivity].
      * destruct (Hb b s Hbs) as (x & Hx & E).
        exists x. split; [apply in_or_app; now left | exact E].
    + intros Hu. rewrite find_snoc. apply in_app_or in Hu.
      destruct Hu as [Hu | [<- | []]].
      * apply Hc in Hu. now rewrite Hu.
      * rewrite Es. now rewrite (proj2 (in_bucket_true _ r) eq_refl).
    + rewrite find_snoc. intros Hf. apply in_or_app.
      destruct (List.find (in_bucket (bucket u)) l) as [x|] eqn:Ex.
      * left. apply Hc. congruence.
      * right. destruct (in_bucket (bucket u) r); [| discriminate].
        left. congruence.
    + rewrite map_app. simpl. apply List.NoDup_app.
      * exact Hd.
      * repeat constructor. intros [].
      * intros b Hin [<- | []]. apply in_map_iff in Hin.
        destruct Hin as (u & Eu & Hu). apply Hc in Hu.
        rewrite Eu, Es in Hu. discriminate.
Qed.

Lemma dedup_inv_fold (l : list Result.t) :
  StronglySorted (desc Result.score) l ->
  dedup_inv l (fold_left dedup_step l (∅, [])).
Proof.
  induction l as [|r l IH] using rev_ind; intros Hs; [apply dedup_inv_init |].
  rewrite fold_left_app. simpl. apply dedup_inv_step; [assumption |].
  apply IH. now apply sorted_snoc in Hs.
Qed.

Lemma remove_duplicates_spec (l : list Result.t) :
  StronglySorted (desc Result.score) l ->
  (forall u, In u (remove_duplicates l)
             <-> List.find (in_bucket (bucket u)) l = Some u)
  /\ List.NoDup (map bucket (remove_duplicates l)).
Proof.
  intros Hs. destruct (dedup_inv_fold l Hs) as (_ & _ & Hc & Hd). now split.
Qed.

Lemma bucket_winner_first_greatest (l : list Result.t) (u : Result.t) :
  first_greatest Result.score (in_bucket (bucket u)) l u <-> bucket_winner l u.
Proof.
  split.
  - intros (l1 & l2 & E & _ & H1 & H2). exists l1, l2.
    repeat split; [exact E | |]; intros c Hc Hb;
      [apply H1 | apply H2]; auto; now apply in_bucket_true.
  - intros (l1 & l2 & E & H1 & H2). exists l1, l2.
    repeat split; [exact E | now apply in_bucket_true | |]; intros c Hc Hb;
      [apply H1 | apply H2]; auto; now apply in_bucket_true.
Qed.

Lemma rank_In (l : list Result.t) (u : Result.t) :
  In u (rank l) <-> bucket_winner l u.
Proof.
  unfold rank. rewrite sort_desc_In.
  destruct (remove_duplicates_spec (sort_desc Result.score l)) as [Hc _];
    [apply sort_desc_sorted |].
  rewrite Hc, find_sort_desc, best_first_greatest.
  apply bucket_winner_first_greatest.
Qed.


Lemma rank_NoDup (l : list Result.t) : List.NoDup (map bucket (rank l)).
Proof.
  unfold rank.
  destruct (remove_duplicates_spec (sort_desc Result.score l)) as [_ Hd];
    [apply sort_desc_sorted |].
  eapply Permutation_NoDup; [| exact Hd].
  apply Permutation_map. symmetry. apply sort_desc_perm.
Qed.

Lemma rank_incl (l : list Result.t) (u : Result.t) : In u (rank l) -> In u l.
Proof.
  rewrite rank_In. intros (l1 & l2 & -> & _). apply in_or_app. right. now left.
Qed.

(** The body [search_video] returns when the data file is there. *)
Lemma search_video_found (now : string) (w : World.t) (query : SearchQuery.t)
    (data : Data.t) :
  World.data_files w !! SearchQuery.video_id query = Some data ->
  exists w',
    search_video now w query =
      (inr {| Response.results :=
                slice_to (SearchQuery.top_k query) (rank (candidates query data));
              Response.total_matches := length (rank (candidates query data));
              Response.search_type := SearchQuery.search_type query;
              Response.model := "OpenCLIP ViT-B-32 + LAION-2B - FIXED" |}, w').
Proof. intros E. unfold search_video. rewrite E. eauto. Qed.

Lemma search_video_inr (now : string) (w w' : World.t) (query : SearchQuery.t)
    (resp : Response.t) :
  search_video now w query = (inr resp, w') ->
  exists data,
    World.data_files w !! SearchQuery.video_id query = Some data
    /\ Response.results resp =
         slice_to (SearchQuery.top_k query) (rank (candidates query data)).
Proof.
  unfold search_video.
  destruct (World.data_files w !! SearchQuery.video_id query) as [data|];
    [| discriminate].
  intros [= <- _]. eauto.
Qed.


(** ** The dispatch on [search_type] *)

Lemma candidates_text (query : SearchQuery.t) (data : Data.t) :
  SearchQuery.search_type query = "text" ->
  candidates query data = text_search query data.
Proof. intros E. unfold candidates. now rewrite E. Qed.

Lemma candidates_visual (query : SearchQuery.t) (data : Data.t) :
  SearchQuery.search_type query = "visual" ->
  candidates query data = visual_search query data.
Proof. intros E. unfold candidates. now rewrite E. Qed.

Lemma candidates_hybrid (query : SearchQuery.t) (data : Data.t) :
  SearchQuery.search_type query <> "text" ->
  SearchQuery.search_type query <> "visual" ->
  candidates query data = hybrid_search query data.
Proof.
  intros Ht Hv. unfold candidates.
  apply String.eqb_neq in Ht, Hv. now rewrite Ht, Hv.
Qed.

Lemma results_are_candidates (now : string) (w w' : World.t)
    (query : SearchQuery.t) (resp : Response.t) (data : Data.t) (r : Result.t) :
  World.data_files w !! SearchQuery.video_id query = Some data ->
  search_video now w query = (inr resp, w') ->
  In r (Response.results resp) -> In r (candidates query data).
Proof.
  intros Hdata Hrun Hin.
  destruct (search_video_inr _ _ _ _ _ Hrun) as (data' & Hdata' & Hres).
  assert (data' = data) as -> by congruence.
  rewrite Hres in Hin. now apply slice_to_In, rank_incl in Hin.
Qed.

(** ** Text mode *)

Lemma threshold_capped (c : Q) : Qltb (3 # 10) c = true <-> 3 # 10 < min c 1.
Proof. rewrite Qltb_lt. symmetry. apply min_gt. reflexivity. Qed.

Lemma text_loop_In (query : string) (qe : embedding) (segs : list Segment.t) :
  forall (embs : list embedding) (r : Result.t),
  In r (text_loop query qe segs embs) <->
  exists (i : nat) (seg : Segment.t) (emb : embedding),
    segs !! i = Some seg /\ embs !! i = Some emb
    /\ 3 # 10 < combined_score query qe seg emb
    /\ r = text_result seg (combined_score query qe seg emb).
Proof.
  induction segs as [|seg segs IH]; intros [|emb embs] r; simpl;
    try (split; [intros [] | intros (i & s & e & Hs & He & _); destruct i; discriminate]).
  rewrite in_app_iff, IH. split.
  - intros [Hin | (i & s & e & Hs & He & Hc & Hr)].
    + destruct (Qltb _ _) eqn:E; [| destruct Hin].
      destruct Hin as [<- | []]. exists 0%nat, seg, emb.
      repeat split. now apply threshold_capped.
    + exists (S i), s, e. auto.
  - intros ([|i] & s & e & Hs & He & Hc & Hr); simpl in Hs, He.
    + injection Hs as <-. injection He as <-. left.
      apply threshold_capped in Hc. fold (keyword_bonus query (Segment.text seg)).
      rewrite Hc. left. now subst r.
    + right. exists i, s, e. auto.
Qed.

(** ** The text of a visual result *)

Lemma covers_spec (timestamp : Q) (seg : Segment.t) :
  covers timestamp seg = true
  <-> Segment.start seg <= timestamp /\ timestamp <= Segment.end_ seg.
Proof. unfold covers. now rewrite andb_true_iff, !Qle_bool_iff. Qed.

Lemma first_covering_spec (segments : list Segment.t) (timestamp : Q)
    (fallback : string) :
  (exists seg, first_containing segments timestamp seg
               /\ first_covering segments timestamp fallback = Segment.text seg)
  \/ (none_containing segments timestamp
      /\ first_covering segments timestamp fallback = fallback).
Proof.
  induction segments as [|seg segs IH]; simpl.
  - right. split; [intros s [] | reflexivity].
  - destruct (covers timestamp seg) eqn:E.
    + left. exists seg. split; [| reflexivity].
      exists [], segs. apply covers_spec in E.
      split; [reflexivity |]. split; [exact E |]. intros s [].
    + assert (~ (Segment.start seg <= timestamp /\ timestamp <= Segment.end_ seg))
        as Hno by (rewrite <- covers_spec; congruence).
      destruct IH as [(s & (l1 & l2 & -> & Hin & Hbefore) & Ht) | [Hnone Ht]].
      * left. exists s. split; [| exact Ht].
        exists (seg :: l1), l2. repeat split; try apply Hin.
        intros s' [<- | Hs']; auto.
      * right. split; [| exact Ht]. intros s' [<- | Hs']; auto.
Qed.

Lemma text_loop_type (query : string) (qe : embedding) (segs : list Segment.t)
    (embs : list embedding) (r : Result.t) :
  In r (text_loop query qe segs embs) -> Result.search_type r = "text".
Proof.
  rewrite text_loop_In. intros (i & seg & emb & _ & _ & _ & ->). reflexivity.
Qed.

(** ** Hybrid mode *)

Lemma hybrid_text_loop_halves (query : string) (qe : embedding)
    (segs : list Segment.t) :
  forall embs : list embedding,
  hybrid_text_loop query qe segs embs = map halve (text_loop query qe segs embs).
Proof.
  induction segs as [|seg segs IH]; intros [|emb embs]; simpl; try reflexivity.
  rewrite map_app, IH. destruct (Qltb _ _); reflexivity.
Qed.

Lemma hybrid_text_results_halves (query : SearchQuery.t) (data : Data.t) :
  hybrid_text_results query data = map halve (text_search query data).
Proof.
  unfold hybrid_text_results, text_search.
  destruct (get_text_embeddings _); [apply hybrid_text_loop_halves | reflexivity].
Qed.

Lemma hybrid_visual_loop_In (video_id : string) (segs : list Segment.t)
    (qv : embedding) (vds : list VisualData.t) (r : Result.t) :
  In r (hybrid_visual_loop video_id segs qv vds) <->
  exists vd : VisualData.t,
    In vd vds
    /\ 2 # 10 < cosine_similarity qv (VisualData.embedding_ vd)
    /\ r = hybrid_visual_result video_id segs vd
             (cosine_similarity qv (VisualData.embedding_ vd)).
Proof.
  induction vds as [|vd vds IH]; simpl.
  - split; [intros [] | intros (vd & [] & _)].
  - rewrite in_app_iff, IH. split.
    + intros [Hin | (vd' & Hvd & Hlt & Hr)].
      * destruct (Qltb _ _) eqn:E; [| destruct Hin].
        destruct Hin as [<- | []]. exists vd.
        repeat split; [now left | now apply Qltb_lt].
      * exists vd'. auto.
    + intros (vd' & [<- | Hvd] & Hlt & Hr).
      * left. rewrite (proj2 (Qltb_lt _ _) Hlt). left. now subst r.
      * right. exists vd'. auto.
Qed.

Lemma hybrid_visual_results_In (query : SearchQuery.t) (data : Data.t)
    (r : Result.t) :
  In r (hybrid_visual_results query data) <->
  exists (qv : embedding) (vd : VisualData.t),
    encode_text_with_openclip (SearchQuery.query query) = Some qv
    /\ In vd (Data.visual_data data)
    /\ 2 # 10 < cosine_similarity qv (VisualData.embedding_ vd)
    /\ r = hybrid_visual_result (SearchQuery.video_id query) (Data.segments data) vd
             (cosine_similarity qv (VisualData.embedding_ vd)).
Proof.
  unfold hybrid_visual_results.
  destruct (encode_text_with_openclip _) as [qv|].
  - rewrite hybrid_visual_loop_In. split.
    + intros (vd & Hvd). exists qv, vd. tauto.
    + intros (qv' & vd & [= <-] & Hvd). exists vd. exact Hvd.
  - split; [intros [] | intros (qv & vd & E & _); discriminate].
Qed.

Lemma text_search_type (query : SearchQuery.t) (data : Data.t) (r : Result.t) :
  In r (text_search query data) -> Result.search_type r = "text".
Proof.
  unfold text_search. destruct (get_text_embeddings _); [| intros []].
  apply text_loop_type.
Qed.

(** ** Visual mode *)



Lemma visual_search_text (query : SearchQuery.t) (data : Data.t) (r : Result.t) :
  In r (visual_search query data) ->
  Result.text r = corresponding_text (Data.segments data) (Result.timestamp r).
Proof.
  unfold visual_search. destruct (encode_text_with_openclip _); [| intros []].
  destruct (slice_to _ _) as [|m top_matches] eqn:E; [intros [] |].
  rewrite in_map_iff. intros (m' & <- & _). reflexivity.
Qed.

Lemma candidate_text (query : SearchQuery.t) (data : Data.t) (r : Result.t) :
  In r (candidates query data) ->
  Result.search_type r = "visual" ->
  Result.text r = corresponding_text (Data.segments data) (Result.timestamp r).
Proof.
  unfold candidates.
  destruct (String.eqb _ "text"); [| destruct (String.eqb _ "visual")].
  - intros Hin Hty. apply text_search_type in Hin. congruence.
  - intros Hin _. now apply visual_search_text in Hin.
  - unfold hybrid_search. rewrite in_app_iff. intros [Hin | Hin] Hty.
    + rewrite hybrid_text_results_halves in Hin. apply in_map_iff in Hin.
      destruct Hin as (r0 & <- & Hr0). apply text_search_type in Hr0.
      simpl in Hty. congruence.
    + apply hybrid_visual_results_In in Hin.
      destruct Hin as (qv & vd & _ & _ & _ & ->). reflexivity.
Qed.

(** C5.  A visual result, in visual or in hybrid mode, among the
    candidates and so among the returned results, shows the text of the
    first segment, in the order of the session, whose interval
    [start <= timestamp <= end] contains its timestamp; when no interval
    contains it, the text is ["Visual content at "], the timestamp
    formatted with one decimal, and ["s"]. *)
Theorem visual_result_text (now : string) (w w' : World.t) (query : SearchQuery.t)
    (resp : Response.t) (data : Data.t) (r : Result.t) :
  World.data_files w !! SearchQuery.video_id query = Some data ->
  search_video now w query = (inr resp, w') ->
  In r (candidates query data) \/ In r (Response.results resp) ->
  Result.search_type r = "visual" ->
  (exists seg,
     first_containing (Data.segments data) (Result.timestamp r) seg
     /\ Result.text r = Segment.text seg)
  \/ (none_containing (Data.segments data) (Result.timestamp r)
      /\ Result.text r
         = ("Visual content at " +:+ format_1f (Result.timestamp r) +:+ "s")%string).
Proof.
  intros Hdata Hrun Hin Hty.
  assert (In r (candidates query data)) as Hc.
  { destruct Hin as [Hin | Hin]; [exact Hin |].
    eapply results_are_candidates; eassumption. }
  rewrite (candidate_text _ _ _ Hc Hty). apply first_covering_spec.
Qed.

(** ** Errors *)

Lemma keyword_bonus_empty (text : string) : keyword_bonus "" text = 3 # 10.
Proof.
  unfold keyword_bonus. simpl.
  destruct (lower text); reflexivity.
Qed.

(** C6, as amended.  The search raises exactly when the data file of
    the session is missing, and then it raises the 404 exception
    ["Video not processed yet"] and changes nothing.  With the data
    file there it returns a body, whatever the query text, [top_k] and
    the status file; an empty query is searched as any other, and in
    text mode it earns every segment the keyword bonus. *)
Theorem search_video_errors (now : string) (w : World.t) (query : SearchQuery.t) :
  match World.data_files w !! SearchQuery.video_id query with
  | None =>
      search_video now w query =
        (inl {| HTTPException.status_code := 404;
                HTTPException.detail := "Video not processed yet" |}, w)
  | Some data =>
      exists (resp : Response.t) (w' : World.t),
        search_video now w query = (inr resp, w')
        /\ Response.results resp =
             slice_to (SearchQuery.top_k query) (rank (candidates query data))
  end
  /\ forall text, keyword_bonus "" text = 3 # 10.
Proof.
  split; [| apply keyword_bonus_empty].
  unfold search_video.
  destruct (World.data_files w !! SearchQuery.video_id query); eauto.
Qed.

Lemma slice_to_nil {A : Type} (k : Z) : slice_to k (@nil A) = [].
Proof. unfold slice_to. destruct (0 <=? k)%Z; apply firstn_nil. Qed.

Lemma all_modes_fail_candidates (query : SearchQuery.t) (data : Data.t) :
  all_modes_fail query -> candidates query data = [].
Proof.
  intros [[Hm Ht] | [[Hm Hv] | (Hm1 & Hm2 & Ht & Hv)]].
  - rewrite candidates_text by assumption. unfold text_search. now rewrite Ht.
  - rewrite candidates_visual by assumption. unfold visual_search. now rewrite Hv.
  - rewrite candidates_hybrid by assumption.
    unfold hybrid_search, hybrid_text_results, hybrid_visual_results.
    now rewrite Ht, Hv.
Qed.

(** C7, as amended.  When a query encoder raises, the mode that called
    it contributes no candidate, and the request returns a body all the
    same; when every mode of the request fails so, the request still
    returns a body, with no result and [total_matches = 0]. *)
Theorem provider_failure_degrades (now : string) (w : World.t)
    (query : SearchQuery.t) (data : Data.t) :
  World.data_files w !! SearchQuery.video_id query = Some data ->
  (get_text_embeddings (SearchQuery.query query) = None ->
     text_search query data = [] /\ hybrid_text_results query data = [])
  /\ (encode_text_with_openclip (SearchQuery.query query) = None ->
       visual_search query data = [] /\ hybrid_visual_results query data = [])
  /\ exists (resp : Response.t) (w' : World.t),
       search_video now w query = (inr resp, w')
       /\ (all_modes_fail query ->
           Response.results resp = [] /\ Response.total_matches resp = 0%nat).
Proof.
  intros Hdata. split; [| split].
  - intros E. unfold text_search, hybrid_text_results. now rewrite E.
  - intros E. unfold visual_search, hybrid_visual_results. now rewrite E.
  - destruct (search_video_found now w query data Hdata) as [w' Hrun].
    eexists. exists w'. split; [exact Hrun |]. simpl.
    intros Hfail. rewrite (all_modes_fail_candidates _ _ Hfail).
    split; [apply slice_to_nil | reflexivity].
Qed.

(** ** Determinism *)

(** The body of the response reads the data file of the session and
    nothing else of the world. *)
Lemma search_video_reads_data (now1 now2 : string) (w1 w2 : World.t)
    (query : SearchQuery.t) :
  World.data_files w1 !! SearchQuery.video_id query
    = World.data_files w2 !! SearchQuery.video_id query ->
  match fst (search_video now1 w1 query), fst (search_video now2 w2 query) with
  | inr resp1, inr resp2 => resp1 = resp2
  | inl e1, inl e2 => e1 = e2
  | _, _ => False
  end.
Proof.
  intros E. unfold search_video. rewrite <- E.
  destruct (World.data_files w1 !! SearchQuery.video_id query); reflexivity.
Qed.

(** ** Unknown search types *)

(** C10.  A request whose [search_type] is neither ["text"] nor
    ["visual"] runs the hybrid search: with the data file there it
    raises nothing and returns the results and the count of the same
    request sent with [search_type = "hybrid"]. *)
Theorem unknown_search_type_runs_hybrid (now : string) (w : World.t)
    (query : SearchQuery.t) (data : Data.t) :
  SearchQuery.search_type query <> "text" ->
  SearchQuery.search_type query <> "visual" ->
  World.data_files w !! SearchQuery.video_id query = Some data ->
  candidates query data = hybrid_search query data
  /\ exists (resp resp_hybrid : Response.t) (w' w_hybrid : World.t),
       search_video now w query = (inr resp, w')
       /\ search_video now w (with_search_type "hybrid" query)
           = (inr resp_hybrid, w_hybrid)
       /\ Response.results resp = Response.results resp_hybrid
       /\ Response.total_matches resp = Response.total_matches resp_hybrid
       /\ Response.search_type resp = SearchQuery.search_type query.
Proof.
  intros Ht Hv Hdata.
  assert (candidates query data = hybrid_search query data) as Hc
    by now apply candidates_hybrid.
  split; [exact Hc |].
  destruct (search_video_found now w query data Hdata) as [w' Hrun].
  destruct (search_video_found now w (with_search_type "hybrid" query) data Hdata)
    as [wh Hrunh].
  do 2 eexists. exists w', wh. split; [exact Hrun |]. split; [exact Hrunh |].
  simpl. rewrite Hc.
  replace (candidates (with_search_type "hybrid" query) data)
    with (hybrid_search query data) by reflexivity.
  repeat split.
Qed.

End Facts.

End EngineFacts.

(* ===================================================================== *)
(** * Properties of the scores on binary64                                *)
(* ===================================================================== *)

Module ScoresFacts.

Import Py PyFacts Scores.

(** ** Comparisons and halving on binary64 *)

Lemma SFcompare_swap (x y : SpecFloat.spec_float) :
  SpecFloat.SFcompare y x = option_map CompOpp (SpecFloat.SFcompare x y).
Proof.
destruct x as [sx|sx| |sx mx ex], y as [sy|sy| |sy my ey]; simpl;
  try reflexivity; try (destruct sx; reflexivity); try (destruct sy; reflexivity);
  try (destruct sx, sy; reflexivity).
destruct sx, sy; try reflexivity; f_equal.
- rewrite (Z.compare_antisym ex ey). destruct (ex ?= ey)%Z; simpl; try reflexivity.
  rewrite (ZC4 my mx). now destruct (Pos.compare_cont Eq mx my).
- rewrite (Z.compare_antisym ex ey). destruct (ex ?= ey)%Z; simpl; try reflexivity.
  rewrite (ZC4 my mx). now destruct (Pos.compare_cont Eq mx my).
Qed.

Lemma ltb_compare (x y : float) :
  (x <? y)%float = true <-> SpecFloat.SFcompare (Prim2SF x) (Prim2SF y) = Some Lt.
Proof.
rewrite ltb_spec. unfold SpecFloat.SFltb.
destruct (SpecFloat.SFcompare _ _) as [[| |]|]; split; congruence.
Qed.

Lemma leb_compare (x y : float) :
  (x <=? y)%float = true
  <-> SpecFloat.SFcompare (Prim2SF x) (Prim2SF y) = Some Lt
      \/ SpecFloat.SFcompare (Prim2SF x) (Prim2SF y) = Some Eq.
Proof.
rewrite leb_spec. unfold SpecFloat.SFleb.
destruct (SpecFloat.SFcompare _ _) as [[| |]|]; split;
  try congruence; try tauto; intros [E|E]; congruence.
Qed.

Lemma SFcompare_None (x y : SpecFloat.spec_float) :
  SpecFloat.SFcompare x y = None -> x = SpecFloat.S754_nan \/ y = SpecFloat.S754_nan.
Proof.
destruct x as [sx|sx| |sx mx ex], y as [sy|sy| |sy my ey]; simpl;
  try discriminate; auto.
Qed.

(** Two floats that are not NaN are ordered one way or the other. *)
Lemma not_ltb_leb (x y z : float) :
  Prim2SF x <> SpecFloat.S754_nan ->
  (z <? y)%float = true -> (x <? y)%float = false -> (y <=? x)%float = true.
Proof.
rewrite ltb_compare. intros Hnan Hz Hx. apply leb_compare.
rewrite (SFcompare_swap (Prim2SF x) (Prim2SF y)).
assert (SpecFloat.SFcompare (Prim2SF x) (Prim2SF y) <> Some Lt) as Hne.
{ intros E. apply ltb_compare in E. congruence. }
destruct (SpecFloat.SFcompare (Prim2SF x) (Prim2SF y)) as [[| |]|] eqn:E;
  simpl; try tauto; try congruence.
exfalso. apply SFcompare_None in E as [E|E]; [contradiction|].
rewrite E in Hz. now destruct (Prim2SF z).
Qed.

(** The cap: a combined score above [0.3] gives a score in [(0.3, 1.0]]. *)
Lemma min_range (c : float) :
  (0x1.3333333333333p-2 <? c)%float = true ->
  (0x1.3333333333333p-2 <? min c 1)%float = true /\ (min c 1 <=? 1)%float = true.
Proof.
intros Hc. unfold min. destruct (1 <? c)%float eqn:E1.
- split; vm_compute; reflexivity.
- split; [exact Hc|].
  apply (not_ltb_leb 1 c 0x1.3333333333333p-2); [|exact Hc|exact E1].
  vm_compute. discriminate.
Qed.

(** The test on the capped score is the test on the sum. *)
Lemma min_above (c : float) :
  (0x1.3333333333333p-2 <? min c 1)%float = (0x1.3333333333333p-2 <? c)%float.
Proof.
unfold min. destruct (1 <? c)%float eqn:E; [|reflexivity].
transitivity true; [reflexivity|]. symmetry.
apply ltb_compare in E. apply ltb_compare.
change (Prim2SF 1) with (SpecFloat.S754_finite false 4503599627370496 (-52)) in E.
change (Prim2SF 0x1.3333333333333p-2)
  with (SpecFloat.S754_finite false 5404319552844595 (-54)).
destruct (Prim2SF c) as [sx|sx| |sx m e]; try discriminate.
- destruct sx; [discriminate | reflexivity].
- destruct sx; [discriminate|].
  unfold SpecFloat.SFcompare in *.
  assert (-54 < e)%Z as He.
  { destruct (-52 ?= e)%Z eqn:Ecmp.
    - rewrite Z.compare_eq_iff in Ecmp. clear -Ecmp. lia.
    - rewrite Z.compare_lt_iff in Ecmp. clear -Ecmp. lia.
    - discriminate. }
  apply Z.compare_lt_iff in He. now rewrite He.
Qed.

(** ** Halving *)

Lemma mul_shl (m : positive) : (m * 4503599627370496)%positive = shl m 52.
Proof. rewrite Pos.mul_comm. reflexivity. Qed.

Lemma digits_shl (m : positive) (k : nat) :
  Z.pos (SpecFloat.digits2_pos (shl m k))
  = (Z.pos (SpecFloat.digits2_pos m) + Z.of_nat k)%Z.
Proof.
induction k as [|k IH]; [simpl; lia|].
cbn [shl SpecFloat.digits2_pos]. rewrite Pos2Z.inj_succ, IH. lia.
Qed.

Lemma shr_shl (m : positive) :
  SpecFloat.iter_pos SpecFloat.shr_1 52
    {| SpecFloat.shr_m := Z.pos (shl m 52);
       SpecFloat.shr_r := false; SpecFloat.shr_s := false |}
  = {| SpecFloat.shr_m := Z.pos m;
       SpecFloat.shr_r := false; SpecFloat.shr_s := false |}.
Proof. reflexivity. Qed.

(** The product of a normal float and [0.5] is exact: the same
    mantissa, the exponent one less. *)
Lemma half_finite (s : float) (sx : bool) (m : positive) (e : Z) :
  Prim2SF s = SpecFloat.S754_finite sx m e -> (-1073 <= e)%Z ->
  Prim2SF (s * 0.5) = SpecFloat.S754_finite sx m (e - 1).
Proof.
intros Es He.
pose proof (Prim2SF_valid s) as Hv. rewrite Es in Hv.
unfold SpecFloat.valid_binary, SpecFloat.bounded, SpecFloat.canonical_mantissa,
  SpecFloat.fexp, SpecFloat.emin in Hv.
apply andb_prop in Hv as [Hc Hb].
apply Z.eqb_eq in Hc. apply Z.leb_le in Hb.
change prec with 53%Z in *. change emax with 1024%Z in *.
assert (Z.pos (SpecFloat.digits2_pos m) = 53%Z) as Hd by lia.
rewrite mul_spec, Es.
change (Prim2SF 0.5) with (SpecFloat.S754_finite false 4503599627370496 (-53)).
unfold SF64mul, SpecFloat.SFmul. rewrite xorb_false_r. rewrite mul_shl.
unfold SpecFloat.binary_round_aux, SpecFloat.shr_fexp, SpecFloat.fexp,
  SpecFloat.emin.
change (SpecFloat.Zdigits2 (Z.pos (shl m 52)))
  with (Z.pos (SpecFloat.digits2_pos (shl m 52))).
rewrite digits_shl, Hd.
replace (Z.max (53 + Z.of_nat 52 + (e + -53) - prec) (3 - emax - prec) - (e + -53))%Z
  with 52%Z by (change prec with 53%Z; change emax with 1024%Z; lia).
unfold SpecFloat.shr at 1. cbn [SpecFloat.shr_record_of_loc]. rewrite shr_shl.
cbn [SpecFloat.shr_m SpecFloat.loc_of_shr_record SpecFloat.round_nearest_even
     SpecFloat.Zdigits2].
rewrite Hd.
replace (Z.max (53 + (e + -53 + 52) - prec) (3 - emax - prec) - (e + -53 + 52))%Z
  with 0%Z by (change prec with 53%Z; change emax with 1024%Z; lia).
cbn [SpecFloat.shr SpecFloat.shr_m SpecFloat.shr_record_of_loc].
change prec with 53%Z. change emax with 1024%Z.
replace (e + -53 + 52)%Z with (e - 1)%Z by lia.
destruct (Z.leb_spec (e - 1) (1024 - 53)); [reflexivity | lia].
Qed.

Lemma half_infinity (s : float) (sx : bool) :
  Prim2SF s = SpecFloat.S754_infinity sx ->
  Prim2SF (s * 0.5) = SpecFloat.S754_infinity sx.
Proof.
intros Es. rewrite mul_spec, Es.
change (Prim2SF 0.5) with (SpecFloat.S754_finite false 4503599627370496 (-53)).
simpl. now rewrite xorb_false_r.
Qed.

Lemma compare_shift (a b : Z) : (a - 1 ?= b - 1)%Z = (a ?= b)%Z.
Proof.
replace (a - 1)%Z with (-1 + a)%Z by lia. replace (b - 1)%Z with (-1 + b)%Z by lia.
apply Z.add_compare_mono_l.
Qed.

(** Half of a similarity above [0.2] is above [0.1], and is at most
    [0.5] exactly when the similarity is at most [1.0]. *)
Lemma half_above (s : float) :
  (0x1.999999999999ap-3 <? s)%float = true ->
  (0x1.999999999999ap-4 <? s * 0.5)%float = true
  /\ (s * 0.5 <=? 0.5)%float = (s <=? 1)%float.
Proof.
intros Hs. pose proof Hs as Hc. apply ltb_compare in Hc.
rewrite ltb_spec, !leb_spec.
change (Prim2SF 0x1.999999999999ap-3)
  with (SpecFloat.S754_finite false 7205759403792794 (-55)) in Hc.
change (Prim2SF 0x1.999999999999ap-4)
  with (SpecFloat.S754_finite false 7205759403792794 (-56)).
change (Prim2SF 0.5) with (SpecFloat.S754_finite false 4503599627370496 (-53)).
change (Prim2SF 1) with (SpecFloat.S754_finite false 4503599627370496 (-52)).
destruct (Prim2SF s) as [sx|sx| |sx m e] eqn:Es; try discriminate.
- destruct sx; [discriminate|]. rewrite (half_infinity s false Es). now split.
- destruct sx; [discriminate|].
  unfold SpecFloat.SFcompare in Hc.
  assert (-55 <= e)%Z as He.
  { destruct (-55 ?= e)%Z eqn:Ecmp.
    - rewrite Z.compare_eq_iff in Ecmp. clear -Ecmp. lia.
    - rewrite Z.compare_lt_iff in Ecmp. clear -Ecmp. lia.
    - discriminate. }
  rewrite (half_finite s false m e Es) by lia.
  unfold SpecFloat.SFltb, SpecFloat.SFleb, SpecFloat.SFcompare.
  change (-56)%Z with (-55 - 1)%Z. change (-53)%Z with (-52 - 1)%Z.
  rewrite (compare_shift (-55) e), (compare_shift e (-52)).
  split; [|reflexivity].
  destruct (-55 ?= e)%Z; [|reflexivity|discriminate].
  now destruct (Pos.compare_cont Eq 7205759403792794 m).
Qed.

(** ** Ranking keeps to the candidates *)

Lemma insert_desc_member (x r : Result.t) (l : list Result.t) :
  In r (insert_desc x l) -> r = x \/ In r l.
Proof.
induction l as [|y l IH]; simpl.
- intros [<-|[]]. now left.
- destruct (Result.score x <? Result.score y)%float; simpl.
  + intros [<-|Hin]; [right; now left|].
    destruct (IH Hin) as [->|Hl]; [now left | right; now right].
  + intros [<-|Hin]; [now left | now right].
Qed.

Lemma sort_desc_member (r : Result.t) (l : list Result.t) :
  In r (sort_desc l) -> In r l.
Proof.
induction l as [|x l IH]; simpl; [tauto|].
intros Hin. apply insert_desc_member in Hin as [->|Hin]; [now left | right; auto].
Qed.

Lemma dedup_step_member (st : gmap Z float * list Result.t) (x r : Result.t) :
  In r (snd (dedup_step st x)) -> r = x \/ In r (snd st).
Proof.
destruct st as [seen unique]. unfold dedup_step.
destruct (seen !! round1 (Result.timestamp x)) as [s|].
- destruct (s <? Result.score x)%float; simpl; [|now right].
  intros Hin. apply in_app_or in Hin as [Hin|[<-|[]]]; [|now left].
  apply List.filter_In in Hin as [Hin _]. now right.
- simpl. intros Hin. apply in_app_or in Hin as [Hin|[<-|[]]]; [now right | now left].
Qed.

Lemma fold_dedup_member (l : list Result.t) (r : Result.t) :
  forall st, In r (snd (fold_left dedup_step l st)) -> In r l \/ In r (snd st).
Proof.
induction l as [|x l IH]; intros st; simpl; [now right|].
intros Hin. destruct (IH _ Hin) as [Hl|Hst]; [left; now right|].
apply dedup_step_member in Hst as [->|Hst]; [left; now left | now right].
Qed.

Lemma rank_member (r : Result.t) (l : list Result.t) : In r (rank l) -> In r l.
Proof.
unfold rank, remove_duplicates. intros Hin.
apply sort_desc_member, fold_dedup_member in Hin as [Hin|[]].
now apply sort_desc_member.
Qed.

Lemma returned_member (query : Engine.SearchQuery.t) (r : Result.t)
    (candidates : list Result.t) :
  In r (returned query candidates) -> In r candidates.
Proof. intros Hin. now apply slice_to_In, rank_member in Hin. Qed.

Section Facts.
Context `{Models}.

(** ** Text mode *)

Lemma reached_S (qe : list float) (emb : list float) (embs : list (list float))
    (i : nat) :
  reached qe (emb :: embs) (S i)
  <-> cosine_similarity qe emb <> None /\ reached qe embs i.
Proof.
unfold reached. split.
- intros Hr. split.
  + apply (Hr 0%nat emb); [lia | reflexivity].
  + intros j e Hj He. apply (Hr (S j) e); [lia | exact He].
- intros [H0 Hr] [|j] e Hj He.
  + now injection He as <-.
  + apply (Hr j e); [lia | exact He].
Qed.

Lemma reached_all (qe : list float) (embs : list (list float)) :
  (forall emb, In emb embs -> cosine_similarity qe emb <> None) ->
  forall i, reached qe embs i.
Proof.
intros Hall i j emb _ Hj. apply Hall.
apply list_elem_of_In. now apply list_elem_of_lookup_2 in Hj.
Qed.

Lemma text_loop_members (query : string) (qe : list float)
    (segs : list Engine.Segment.t) :
  forall (embs : list (list float)) (r : Result.t),
  In r (text_loop query qe segs embs) <->
  exists (i : nat) (seg : Engine.Segment.t) (emb : list float) (similarity : float),
    segs !! i = Some seg /\ embs !! i = Some emb
    /\ reached qe embs i
    /\ cosine_similarity qe emb = Some similarity
    /\ (0x1.3333333333333p-2
        <? similarity + keyword_bonus query (Engine.Segment.text seg))%float = true
    /\ r = text_result seg
             (min (similarity + keyword_bonus query (Engine.Segment.text seg)) 1).
Proof.
induction segs as [|seg segs IH]; intros [|emb embs] r; cbn [text_loop].
- split; [intros [] | intros (i & s & e & c & Hs & _); destruct i; discriminate].
- split; [intros [] | intros (i & s & e & c & Hs & _); destruct i; discriminate].
- split; [intros [] | intros (i & s & e & c & _ & He & _); destruct i; discriminate].
- destruct (cosine_similarity qe emb) as [similarity|] eqn:Ecos.
  + rewrite in_app_iff, IH. split.
    * intros [Hhead | (i & s & e & c & Hs & He & Hr & Hc & Hlt & ->)].
      -- destruct (_ <? _)%float eqn:Hlt; [|destruct Hhead].
         destruct Hhead as [<-|[]].
         exists 0%nat, seg, emb, similarity.
         repeat split; auto. intros j e Hj. lia.
      -- exists (S i), s, e, c. repeat split; auto.
         apply reached_S. split; [congruence | exact Hr].
    * intros ([|i] & s & e & c & Hs & He & Hr & Hc & Hlt & ->).
      -- injection Hs as <-. injection He as <-.
         assert (c = similarity) as -> by congruence.
         left. rewrite Hlt. now left.
      -- right. exists i, s, e, c. apply reached_S in Hr as [_ Hr].
         repeat split; auto.
  + split; [intros []|].
    intros ([|i] & s & e & c & Hs & He & Hr & Hc & _).
    * injection He as <-. congruence.
    * apply reached_S in Hr as [Hne _]. congruence.
Qed.

Lemma keyword_bonus_value (query text : string) :
  (is_substring (lower query) (lower text)
   -> keyword_bonus query text = 0x1.3333333333333p-2%float)
  /\ (~ is_substring (lower query) (lower text) -> keyword_bonus query text = 0%float).
Proof.
unfold keyword_bonus. rewrite <- contains_spec.
destruct (contains (lower text) (lower query)); split; congruence.
Qed.

(** C1.  In text mode, on binary64 and with the query embedded, the
    candidates are exactly the results built from the segments that the
    loop reaches (each with the embedding at its index) whose combined
    score, the float sum of the similarity and the bonus, exceeds
    [0.3]; the loop reaches every segment when no similarity raises;
    the score is the combined score capped at [1.0], which
    exceeds [0.3] exactly when the sum does; the bonus is [0.3] when
    the lowercased query occurs in the lowercased segment text and
    [0.0] otherwise; and every score of a returned result lies in
    [(0.3, 1.0]]. *)
Theorem text_mode_scoring (query : Engine.SearchQuery.t) (data : Data.t)
    (query_embedding : list float) :
  get_text_embeddings (Engine.SearchQuery.query query) = Some query_embedding ->
  let combined seg similarity :=
    (similarity
     + keyword_bonus (Engine.SearchQuery.query query) (Engine.Segment.text seg))%float in
  (forall r, In r (text_search query data) <->
     exists (i : nat) (seg : Engine.Segment.t) (emb : list float)
            (similarity : float),
       Data.segments data !! i = Some seg
       /\ Data.text_embeddings data !! i = Some emb
       /\ reached query_embedding (Data.text_embeddings data) i
       /\ cosine_similarity query_embedding emb = Some similarity
       /\ (0x1.3333333333333p-2 <? combined seg similarity)%float = true
       /\ r = text_result seg (min (combined seg similarity) 1))
  /\ ((forall emb, In emb (Data.text_embeddings data) ->
         cosine_similarity query_embedding emb <> None) ->
      forall i, reached query_embedding (Data.text_embeddings data) i)
  /\ (forall text,
        (is_substring (lower (Engine.SearchQuery.query query)) (lower text) ->
         keyword_bonus (Engine.SearchQuery.query query) text
         = 0x1.3333333333333p-2%float)
        /\ (~ is_substring (lower (Engine.SearchQuery.query query)) (lower text) ->
            keyword_bonus (Engine.SearchQuery.query query) text = 0%float))
  /\ (forall c,
        (0x1.3333333333333p-2 <? min c 1)%float = (0x1.3333333333333p-2 <? c)%float)
  /\ (forall r, In r (returned query (text_search query data)) ->
        (0x1.3333333333333p-2 <? Result.score r)%float = true
        /\ (Result.score r <=? 1)%float = true).
Proof.
intros Hemb combined.
assert (forall r, In r (text_search query data) <->
     exists (i : nat) (seg : Engine.Segment.t) (emb : list float)
            (similarity : float),
       Data.segments data !! i = Some seg
       /\ Data.text_embeddings data !! i = Some emb
       /\ reached query_embedding (Data.text_embeddings data) i
       /\ cosine_similarity query_embedding emb = Some similarity
       /\ (0x1.3333333333333p-2 <? combined seg similarity)%float = true
       /\ r = text_result seg (min (combined seg similarity) 1)) as Hcand.
{ intros r. unfold text_search. rewrite Hemb. apply text_loop_members. }
split; [exact Hcand|]. split; [apply reached_all|].
split; [intros text; apply keyword_bonus_value|].
split; [exact min_above|].
intros r Hin. apply returned_member, Hcand in Hin.
destruct Hin as (i & seg & emb & similarity & _ & _ & _ & _ & Hlt & ->).
cbn [text_result Result.score]. now apply min_range.
Qed.

(** ** Hybrid mode *)

Lemma hybrid_text_loop_halved (query : string) (qe : list float)
    (segs : list Engine.Segment.t) :
  forall embs : list (list float),
  hybrid_text_loop query qe segs embs = map halve (text_loop query qe segs embs).
Proof.
induction segs as [|seg segs IH]; intros [|emb embs]; cbn [hybrid_text_loop text_loop];
  try reflexivity.
destruct (cosine_similarity qe emb) as [similarity|]; [|reflexivity].
rewrite map_app, IH. f_equal.
now destruct (_ <? _)%float.
Qed.

Lemma hybrid_text_results_halved (query : Engine.SearchQuery.t) (data : Data.t) :
  hybrid_text_results query data = map halve (text_search query data).
Proof.
unfold hybrid_text_results, text_search.
destruct (get_text_embeddings _); [apply hybrid_text_loop_halved | reflexivity].
Qed.

Lemma text_loop_mode (query : string) (qe : list float)
    (segs : list Engine.Segment.t) :
  forall (embs : list (list float)) (r : Result.t),
  In r (text_loop query qe segs embs) -> Result.search_type r = "text".
Proof.
intros embs r Hin. apply text_loop_members in Hin.
now destruct Hin as (i & seg & emb & similarity & _ & _ & _ & _ & _ & ->).
Qed.

Lemma text_search_mode (query : Engine.SearchQuery.t) (data : Data.t)
    (r : Result.t) :
  In r (text_search query data) -> Result.search_type r = "text".
Proof.
unfold text_search. destruct (get_text_embeddings _); [|intros []].
apply text_loop_mode.
Qed.

Lemma hybrid_visual_loop_members (video_id : string) (segs : list Engine.Segment.t)
    (qv : list float) :
  forall (vds : list VisualData.t) (r : Result.t),
  In r (hybrid_visual_loop video_id segs qv vds) <->
  exists (i : nat) (vd : VisualData.t) (similarity : float),
    vds !! i = Some vd
    /\ reached qv (map VisualData.embedding_ vds) i
    /\ cosine_similarity qv (VisualData.embedding_ vd) = Some similarity
    /\ (0x1.999999999999ap-3 <? similarity)%float = true
    /\ r = hybrid_visual_result video_id segs vd similarity.
Proof.
induction vds as [|vd vds IH]; intros r; cbn [hybrid_visual_loop map].
- split; [intros [] | intros (i & v & c & Hv & _); destruct i; discriminate].
- destruct (cosine_similarity qv (VisualData.embedding_ vd)) as [similarity|] eqn:Ecos.
  + rewrite in_app_iff, IH. split.
    * intros [Hhead | (i & v & c & Hv & Hr & Hc & Hlt & ->)].
      -- destruct (_ <? _)%float eqn:Hlt; [|destruct Hhead].
         destruct Hhead as [<-|[]].
         exists 0%nat, vd, similarity.
         repeat split; auto. intros j e Hj. lia.
      -- exists (S i), v, c. repeat split; auto.
         apply reached_S. split; [congruence | exact Hr].
    * intros ([|i] & v & c & Hv & Hr & Hc & Hlt & ->).
      -- injection Hv as <-.
         assert (c = similarity) as -> by congruence.
         left. rewrite Hlt. now left.
      -- right. exists i, v, c. apply reached_S in Hr as [_ Hr].
         repeat split; auto.
  + split; [intros []|].
    intros ([|i] & v & c & Hv & Hr & Hc & _).
    * injection Hv as <-. congruence.
    * apply reached_S in Hr as [Hne _]. congruence.
Qed.

Lemma hybrid_visual_results_members (query : Engine.SearchQuery.t) (data : Data.t)
    (r : Result.t) :
  In r (hybrid_visual_results query data) <->
  exists (qv : list float) (i : nat) (vd : VisualData.t) (similarity : float),
    encode_text_with_openclip (Engine.SearchQuery.query query) = Some qv
    /\ Data.visual_data data !! i = Some vd
    /\ reached qv (map VisualData.embedding_ (Data.visual_data data)) i
    /\ cosine_similarity qv (VisualData.embedding_ vd) = Some similarity
    /\ (0x1.999999999999ap-3 <? similarity)%float = true
    /\ r = hybrid_visual_result (Engine.SearchQuery.video_id query)
             (Data.segments data) vd similarity.
Proof.
unfold hybrid_visual_results.
destruct (encode_text_with_openclip _) as [qv|].
- rewrite hybrid_visual_loop_members. split.
  + intros (i & vd & c & Hrest). exists qv, i, vd, c. tauto.
  + intros (qv' & i & vd & c & [= <-] & Hrest). exists i, vd, c. exact Hrest.
- split; [intros [] | intros (qv & i & vd & c & E & _); discriminate].
Qed.

(** C3.  In hybrid mode, on binary64, the candidates are the text half
    followed by the visual half.  The text half is the text-mode
    candidate list (so with its filter [combined > 0.3]) with every
    capped score multiplied by [0.5]; the visual half holds one result
    per frame that the loop reaches and whose raw similarity exceeds
    [0.2], scored [similarity * 0.5]; the loop reaches every frame when
    no similarity raises.  Each half depends on its own encoder only.  Every visual score of a returned result exceeds
    [0.1], and it is at most [0.5] exactly when the raw similarity of
    its frame is at most [1.0], which [cosine_similarity] does not
    promise. *)
Theorem hybrid_mode_scoring (query : Engine.SearchQuery.t) (data : Data.t) :
  hybrid_search query data
    = hybrid_text_results query data ++ hybrid_visual_results query data
  /\ hybrid_text_results query data = map halve (text_search query data)
  /\ (forall r, In r (hybrid_visual_results query data) <->
        exists (qv : list float) (i : nat) (vd : VisualData.t) (similarity : float),
          encode_text_with_openclip (Engine.SearchQuery.query query) = Some qv
          /\ Data.visual_data data !! i = Some vd
          /\ reached qv (map VisualData.embedding_ (Data.visual_data data)) i
          /\ cosine_similarity qv (VisualData.embedding_ vd) = Some similarity
          /\ (0x1.999999999999ap-3 <? similarity)%float = true
          /\ r = hybrid_visual_result (Engine.SearchQuery.video_id query)
                   (Data.segments data) vd similarity)
  /\ (forall qv,
        (forall emb, In emb (map VisualData.embedding_ (Data.visual_data data)) ->
           cosine_similarity qv emb <> None) ->
        forall i, reached qv (map VisualData.embedding_ (Data.visual_data data)) i)
  /\ (forall r, In r (returned query (hybrid_search query data)) ->
        Result.search_type r = "visual" ->
        exists (qv : list float) (vd : VisualData.t) (similarity : float),
          encode_text_with_openclip (Engine.SearchQuery.query query) = Some qv
          /\ In vd (Data.visual_data data)
          /\ cosine_similarity qv (VisualData.embedding_ vd) = Some similarity
          /\ Result.score r = (similarity * 0.5)%float
          /\ (0x1.999999999999ap-4 <? Result.score r)%float = true
          /\ (Result.score r <=? 0.5)%float = (similarity <=? 1)%float).
Proof.
split; [reflexivity|].
split; [apply hybrid_text_results_halved|].
split; [intros r; apply hybrid_visual_results_members|].
split; [intros qv; apply reached_all|].
intros r Hin Hty. apply returned_member in Hin.
unfold hybrid_search in Hin. apply in_app_or in Hin as [Hin|Hin].
- rewrite hybrid_text_results_halved in Hin. apply in_map_iff in Hin.
  destruct Hin as (r0 & <- & Hr0). apply text_search_mode in Hr0.
  cbn [halve Result.search_type] in Hty. congruence.
- apply hybrid_visual_results_members in Hin.
  destruct Hin as (qv & i & vd & similarity & Hqv & Hvd & _ & Hcos & Hlt & ->).
  exists qv, vd, similarity. cbn [hybrid_visual_result Result.score].
  repeat split; auto.
  + apply list_elem_of_In. now apply list_elem_of_lookup_2 in Hvd.
  + now apply half_above.
  + now apply half_above.
Qed.

End Facts.

End ScoresFacts.

(* ===================================================================== *)
(** * Two calls of the search                                             *)
(* ===================================================================== *)

Module LaterFacts.

Import Py Engine.

Section Facts.
Context `{M : Models}.
Variables text clip : string -> option embedding.





End Facts.

End LaterFacts.

(* ===================================================================== *)
(** * The search on the small sessions                                    *)
(* ===================================================================== *)

Module Scenarios.

Import Py PyFacts Engine EngineFacts Demo.
Local Open Scope Q_scope.
Local Open Scope string_scope.

(** ** With the table models *)

Section Table.
#[local] Existing Instance table_models.

(** Text mode: ["cats"] occurs in ["Cats are great"], whose similarity
    0.1 alone would not pass the threshold. *)
Example text_search_cats :
  map (fun r => (Result.text r, Qred (Result.score r)))
    (text_search (request "cats" "text" 10) table_data)
  = [("Cats are great", 2 # 5); ("first", 3 # 5); ("second", 7 # 10)].
Proof. vm_compute. reflexivity. Qed.

(** Visual mode, similarities 0.9, 0.1 and 0.5, [top_k = 2]: the three
    frames are candidates, the two best are returned. *)
Example visual_search_top2 :
  exists resp w',
    search_video now table_world (request "a red car" "visual" 2) = (inr resp, w')
    /\ map (fun r => (Result.timestamp r, Qred (Result.score r)))
         (Response.results resp)
       = [(0, 9 # 10); (7 # 1, 1 # 2)]
    /\ Response.total_matches resp = 3%nat.
Proof. do 2 eexists. split; [reflexivity |]. vm_compute. auto. Qed.

(** The timestamps 10.04 and 10.06 round to 10.0 and 10.1: both stay. *)
Example round1_buckets :
  round1 (1004 # 100) = 100%Z /\ round1 (1006 # 100) = 101%Z
  /\ map Result.text (rank (text_search (request "zzz" "text" 10) table_data))
     = ["second"; "first"].
Proof. vm_compute. auto. Qed.

(** Hybrid mode: the segment at 0 s (text, 0.4 * 0.5) and the frame at
    0 s (visual, 0.9 * 0.5) share a bucket; the frame stays. *)
Example hybrid_search_dedup :
  map (fun r => (Result.search_type r, Result.timestamp r, Qred (Result.score r)))
    (rank (hybrid_search (request "cats" "hybrid" 10) table_data))
  = [("visual", 0, 9 # 20); ("text", 1006 # 100, 7 # 20);
     ("text", 1004 # 100, 3 # 10); ("visual", 7 # 1, 1 # 4)].
Proof. vm_compute. reflexivity. Qed.



Lemma visual_result_text_witness :
  exists resp w',
    World.data_files table_world !! SearchQuery.video_id car_visual = Some table_data
    /\ search_video now table_world car_visual = (inr resp, w')
    /\ (In frame7_result (candidates car_visual table_data)
        \/ In frame7_result (Response.results resp))
    /\ Result.search_type frame7_result = "visual"
    /\ ((exists seg,
           first_containing (Data.segments table_data)
             (Result.timestamp frame7_result) seg
           /\ Result.text frame7_result = Segment.text seg)
        \/ (none_containing (Data.segments table_data)
              (Result.timestamp frame7_result)
            /\ Result.text frame7_result
               = "Visual content at "
                 +:+ format_1f (Result.timestamp frame7_result) +:+ "s")).
Proof.
  assert (In frame7_result (candidates car_visual table_data)) as Hin.
  { vm_compute. right. left. reflexivity. }
  do 2 eexists.
  split; [reflexivity |]. split; [reflexivity |]. split; [left; exact Hin |].
  split; [reflexivity |].
  apply (visual_result_text now table_world _ car_visual _ table_data frame7_result
           eq_refl eq_refl (or_introl Hin) eq_refl).
Defined.

Lemma unknown_search_type_runs_hybrid_witness :
  SearchQuery.search_type cats_semantic <> "text"
  /\ SearchQuery.search_type cats_semantic <> "visual"
  /\ World.data_files table_world !! SearchQuery.video_id cats_semantic
     = Some table_data
  /\ candidates cats_semantic table_data = hybrid_search cats_semantic table_data
  /\ exists (resp resp_hybrid : Response.t) (w' w_hybrid : World.t),
       search_video now table_world cats_semantic = (inr resp, w')
       /\ search_video now table_world (with_search_type "hybrid" cats_semantic)
           = (inr resp_hybrid, w_hybrid)
       /\ Response.results resp = Response.results resp_hybrid
       /\ Response.total_matches resp = Response.total_matches resp_hybrid
       /\ Response.search_type resp = SearchQuery.search_type cats_semantic.
Proof.
  split; [discriminate |]. split; [discriminate |]. split; [reflexivity |].
  apply (unknown_search_type_runs_hybrid now table_world cats_semantic table_data);
    [discriminate | discriminate | reflexivity].
Defined.

(** C6, counterexample.  An empty query on a processed session raises
    nothing: in text mode every segment earns the keyword bonus and the
    three segments are returned. *)
Lemma empty_query_counterexample :
  SearchQuery.query empty_text = ""
  /\ exists resp w',
       search_video now table_world empty_text = (inr resp, w')
       /\ map (fun r => (Result.text r, Qred (Result.score r)))
            (Response.results resp)
          = [("second", 1); ("first", 9 # 10); ("Cats are great", 2 # 5)].
Proof.
  split; [reflexivity |]. do 2 eexists. split; [reflexivity |].
  vm_compute. reflexivity.
Qed.

(** Hybrid mode on a session of one segment (similarity 0.8, at 0 s)
    and one frame (similarity 0.25, at 3 s): the text result, weighted
    0.4, comes before the visual one, weighted 0.125. *)
Example hybrid_search_order :
  map (fun r => (Result.search_type r, Qred (Result.score r)))
    (rank (hybrid_search (request "dogs" "hybrid" 10)
             {| Data.segments :=
                  [ {| Segment.start := 0; Segment.end_ := 2;
                       Segment.text := "Cats are great" |} ];
                Data.text_embeddings := [8 # 10];
                Data.visual_data := [ frame 3 (25 # 100) ] |}))
  = [("text", 2 # 5); ("visual", 1 # 8)].
Proof. vm_compute. reflexivity. Qed.

End Table.

(** ** With the failing models *)

Section Failing.
#[local] Existing Instance failing_models.

Lemma provider_failure_degrades_witness :
  World.data_files failing_world !! SearchQuery.video_id cats_text = Some failing_data
  /\ (get_text_embeddings (SearchQuery.query cats_text) = None ->
      text_search cats_text failing_data = []
      /\ hybrid_text_results cats_text failing_data = [])
  /\ (encode_text_with_openclip (SearchQuery.query cats_text) = None ->
      visual_search cats_text failing_data = []
      /\ hybrid_visual_results cats_text failing_data = [])
  /\ exists (resp : Response.t) (w' : World.t),
       search_video now failing_world cats_text = (inr resp, w')
       /\ (all_modes_fail cats_text ->
           Response.results resp = [] /\ Response.total_matches resp = 0%nat).
Proof.
  split; [reflexivity |].
  apply (provider_failure_degrades now failing_world cats_text failing_data eq_refl).
Defined.

(** C7, counterexample.  The text encoder raises on a text request, and
    both encoders raise on a hybrid request: every mode of each request
    has failed, and each request returns an empty body, not an error. *)
Lemma all_modes_fail_counterexample :
  all_modes_fail cats_text
  /\ all_modes_fail cats_hybrid
  /\ fst (search_video now failing_world cats_text)
     = inr {| Response.results := [];
              Response.total_matches := 0;
              Response.search_type := "text";
              Response.model := "OpenCLIP ViT-B-32 + LAION-2B - FIXED" |}
  /\ fst (search_video now failing_world cats_hybrid)
     = inr {| Response.results := [];
              Response.total_matches := 0;
              Response.search_type := "hybrid";
              Response.model := "OpenCLIP ViT-B-32 + LAION-2B - FIXED" |}.
Proof.
  split; [left; split; reflexivity |].
  split; [right; right; repeat split; discriminate |].
  split; vm_compute; reflexivity.
Qed.

End Failing.

End Scenarios.

(* ===================================================================== *)
(** * The binary64 scores on the small session                            *)
(* ===================================================================== *)

Module SamplesFacts.

Import Scores ScoresFacts Samples.
Local Open Scope string_scope.

Section Session.
#[local] Existing Instance models.

(** The similarities of the session, on binary64. *)
Example sample_similarities :
  map (cosine_similarity [3; 4]%float) (Data.text_embeddings data)
  = [ Some 1; Some 0x1.eb851eb851eb8p-1; Some 0; Some 0x1.3333333333333p-1;
      Some 0x1.999999999999ap-1 ]%float
  /\ map (fun vd => cosine_similarity [1; 1; 1]%float (VisualData.embedding_ vd))
       (Data.visual_data data)
     = [ Some 0x1.0000000000001p+0; Some 0x1.279a74590331dp-1;
         Some (-0x1.279a74590331dp-1) ]%float.
Proof. split; vm_compute; reflexivity. Qed.

(** Text mode.  ["Many cats"] holds the query and has similarity [0.0]:
    its combined score is [0.3], not above it, and it is left out.
    ["cats"], of similarity [0.6], scores the float sum
    [0.8999999999999999]. *)
Example text_search_sample :
  map (fun r => (Result.text r, Result.score r)) (text_search cats_text data)
  = [ ("Cats are great", 1%float);
      ("and dogs", 0x1.eb851eb851eb8p-1%float);
      ("cats", 0x1.cccccccccccccp-1%float);
      ("birds", 0x1.999999999999ap-1%float) ].
Proof. vm_compute. reflexivity. Qed.

Lemma text_mode_scoring_witness :
  get_text_embeddings (Engine.SearchQuery.query cats_text) = Some [3; 4]%float
  /\ map Result.text (returned cats_text (text_search cats_text data))
     = ["Cats are great"; "and dogs"; "cats"; "birds"]
  /\ forall r, In r (returned cats_text (text_search cats_text data)) ->
       (0x1.3333333333333p-2 <? Result.score r)%float = true
       /\ (Result.score r <=? 1)%float = true.
Proof.
split; [reflexivity|]. split; [vm_compute; reflexivity|].
destruct (@text_mode_scoring models cats_text data [3; 4]%float eq_refl)
  as (_ & _ & _ & _ & Hrange).
exact Hrange.
Defined.

Lemma hybrid_mode_scoring_witness :
  hybrid_text_results cats_hybrid data = map halve (text_search cats_hybrid data)
  /\ map (fun r => (Result.search_type r, Result.text r))
       (returned cats_hybrid (hybrid_search cats_hybrid data))
     = [ ("visual", "Visual content at 20.0s"); ("text", "Cats are great");
         ("text", "and dogs"); ("text", "cats"); ("text", "birds");
         ("visual", "Visual content at 21.0s") ]
  /\ forall r, In r (returned cats_hybrid (hybrid_search cats_hybrid data)) ->
       Result.search_type r = "visual" ->
       (0x1.999999999999ap-4 <? Result.score r)%float = true.
Proof.
destruct (@hybrid_mode_scoring models cats_hybrid data) as (_ & Hhalf & _ & _ & Hrange).
split; [exact Hhalf|]. split; [vm_compute; reflexivity|].
intros r Hin Hty.
destruct (Hrange r Hin Hty) as (qv & vd & similarity & _ & _ & _ & _ & Hlo & _).
exact Hlo.
Defined.

(** C3, counterexample.  The frame at 20 s has the embedding of the
    query, [[1; 1; 1]]: [cosine_similarity] returns
    [1.0000000000000002], the frame passes the filter, and its hybrid
    score, [0.5000000000000001], is returned first and is not in
    [(0.1, 0.5]]. *)
Lemma hybrid_score_above_half_counterexample :
  encode_text_with_openclip (Engine.SearchQuery.query cats_hybrid)
    = Some [1; 1; 1]%float
  /\ cosine_similarity [1; 1; 1]%float [1; 1; 1]%float
     = Some 0x1.0000000000001p+0%float
  /\ map (fun r => (Result.search_type r, Result.timestamp r, Result.score r))
       (returned cats_hybrid (hybrid_search cats_hybrid data))
     = [ ("visual", 20%Q, 0x1.0000000000001p-1%float);
         ("text", 0%Q, 0.5%float);
         ("text", 5%Q, 0x1.eb851eb851eb8p-2%float);
         ("text", 12%Q, 0x1.cccccccccccccp-2%float);
         ("text", 15%Q, 0x1.999999999999ap-2%float);
         ("visual", 21%Q, 0x1.279a74590331dp-2%float) ]
  /\ (0x1.0000000000001p-1 <=? 0.5)%float = false.
Proof.
split; [reflexivity|]. split; [vm_compute; reflexivity|].
split; vm_compute; reflexivity.
Qed.

End Session.

End SamplesFacts.

(* ===================================================================== *)
(** * A second call on the small sessions                                 *)
(* ===================================================================== *)

Module ReplayFacts.

Import Py Engine Demo Replay LaterFacts.
Local Open Scope Q_scope.
Local Open Scope string_scope.



End ReplayFacts.

(* ===================================================================== *)
(** * Further properties of cosine_similarity                             *)
(* ===================================================================== *)

Module CosineMore.

Import Cosine CosineFacts.

(** ** On binary64 *)

Lemma SFmul_comm (prec emax : Z) (x y : SpecFloat.spec_float) :
  SpecFloat.SFmul prec emax x y = SpecFloat.SFmul prec emax y x.
Proof.
  destruct x as [sx | sx | | sx mx ex], y as [sy | sy | | sy my ey]; simpl;
    try reflexivity; try (now rewrite xorb_comm).
  now rewrite xorb_comm, Pos.mul_comm, Z.add_comm.
Qed.

Lemma float_mul_comm (x y : float) : PrimFloat.mul x y = PrimFloat.mul y x.
Proof.
  apply FloatAxioms.Prim2SF_inj. rewrite !FloatAxioms.mul_spec.
  apply SFmul_comm.
Qed.

Lemma dot_from_float_comm (a : list float) : forall (b : list float) (acc : float),
  dot_from acc a b = dot_from acc b a.
Proof.
  induction a as [|x a IH]; intros [|y b] acc; simpl; try reflexivity.
  rewrite (float_mul_comm x y). apply IH.
Qed.

Lemma cosine_similarity_float_eq (a b : list float) :
  cosine_similarity a b =
    match dot_from 0%float a b with
    | None => None
    | Some d =>
        if PrimFloat.eqb (norm a) 0 || PrimFloat.eqb (norm b) 0 then Some 0%float
        else Some (PrimFloat.div d (PrimFloat.mul (norm a) (norm b)))
    end.
Proof. reflexivity. Qed.

(** X1.  On binary64 the similarity is symmetric, bit for bit: the same
    float, or the same [ValueError], whatever the order of the two vectors. *)
Theorem cosine_similarity_float_symmetric (a b : list float) :
  cosine_similarity a b = cosine_similarity b a.
Proof.
  rewrite !cosine_similarity_float_eq, (dot_from_float_comm a b).
  destruct (dot_from 0%float b a) as [d|]; [| reflexivity].
  rewrite (orb_comm (PrimFloat.eqb (norm a) 0)).
  now rewrite (float_mul_comm (norm a) (norm b)).
Qed.

(** A float equal to zero for [==] is one of the two zeros. *)
Lemma float_eqb_zero (x : float) :
  PrimFloat.eqb x 0%float = true -> x = 0%float \/ x = (-0)%float.
Proof.
  rewrite FloatAxioms.eqb_spec.
  assert (Prim2SF 0%float = SpecFloat.S754_zero false) as ->
    by (vm_compute; reflexivity).
  intros E. rewrite <- (FloatAxioms.SF2Prim_Prim2SF x).
  destruct (Prim2SF x) as [s | s | | s m e].
  - destruct s; [right | left]; reflexivity.
  - destruct s; discriminate E.
  - discriminate E.
  - destruct s; discriminate E.
Qed.

Lemma sumsq_from_zeros (v : list float) :
  Forall (fun x => PrimFloat.eqb x 0%float = true) v ->
  sumsq_from 0%float v = 0%float.
Proof.
  induction 1 as [|x v Hx _ IH]; simpl; [reflexivity |].
  destruct (float_eqb_zero x Hx) as [-> | ->]; exact IH.
Qed.

(** X2.  On binary64, a vector whose components are all zero has similarity
    exactly [0.0] to every vector of its length, whatever that vector holds
    (infinities and NaN included), on either side. *)
Theorem cosine_similarity_float_zero_vector (a z : list float) :
  length a = length z ->
  Forall (fun x => PrimFloat.eqb x 0%float = true) z ->
  cosine_similarity a z = Some 0%float /\ cosine_similarity z a = Some 0%float.
Proof.
  intros Hlen Hz.
  assert (cosine_similarity a z = Some 0%float) as E.
  { destruct (dot_from_float_length a z 0%float Hlen) as [d Hd].
    rewrite cosine_similarity_float_eq, Hd.
    assert (PrimFloat.eqb (norm z) 0 = true) as ->.
    { unfold norm. change fzero with 0%float. rewrite (sumsq_from_zeros z Hz).
      reflexivity. }
    now rewrite orb_true_r. }
  split; [exact E |]. now rewrite cosine_similarity_float_symmetric.
Qed.

Lemma cosine_similarity_float_zero_vector_witness :
  length [0x1p+600; nan]%float = length [0; -0]%float
  /\ Forall (fun x => PrimFloat.eqb x 0%float = true) [0; -0]%float
  /\ cosine_similarity [0x1p+600; nan]%float [0; -0]%float = Some 0%float
  /\ cosine_similarity [0; -0]%float [0x1p+600; nan]%float = Some 0%float.
Proof.
  split; [reflexivity |].
  assert (Forall (fun x => PrimFloat.eqb x 0%float = true) [0; -0]%float) as Hz
    by (repeat constructor).
  split; [exact Hz |].
  apply (cosine_similarity_float_zero_vector [0x1p+600; nan]%float [0; -0]%float
           eq_refl Hz).
Defined.

(** ** In exact arithmetic *)

Local Open Scope R_scope.

Lemma rdot_scale_l (k : R) (a : list R) : forall b : list R,
  rdot (map (Rmult k) a) b = k * rdot a b.
Proof.
  induction a as [|x a IH]; intros [|y b]; simpl; try lra.
  rewrite IH. lra.
Qed.

Lemma rdot_scale_self (k : R) (a : list R) :
  rdot (map (Rmult k) a) (map (Rmult k) a) = (k * k) * rdot a a.
Proof.
  induction a as [|x a IH]; simpl; [lra |]. rewrite IH. lra.
Qed.

Lemma norm_scale (k : R) (a : list R) :
  0 < k -> norm (map (Rmult k) a) = k * norm a.
Proof.
  intros Hk. rewrite !norm_real, rdot_scale_self.
  rewrite sqrt_mult by (try apply rdot_self_nonneg; nra).
  now rewrite sqrt_square by lra.
Qed.

(** X3.  In exact arithmetic the similarity does not change when a vector is
    multiplied by a positive number: only directions count, normalised or
    not. *)
Theorem cosine_similarity_scale_invariant (k : R) (a b : list R) :
  0 < k ->
  length a = length b ->
  cosine_similarity (map (Rmult k) a) b = cosine_similarity a b.
Proof.
  intros Hk Hlen.
  rewrite !cosine_similarity_real by (rewrite ?length_map; assumption).
  rewrite norm_scale, rdot_scale_l by assumption. f_equal.
  destruct (Reqb (norm a) 0) eqn:Ea.
  - apply Reqb_true in Ea. rewrite Ea, Rmult_0_r.
    now rewrite (proj2 (Reqb_true 0 0) eq_refl).
  - apply Reqb_false in Ea.
    assert (k * norm a <> 0) as Hn by (apply Rmult_integral_contrapositive; lra).
    rewrite (proj2 (Reqb_false _ _) Hn). cbn [orb].
    destruct (Reqb (norm b) 0) eqn:Eb; [reflexivity |].
    apply Reqb_false in Eb. field. lra.
Qed.

Lemma cosine_similarity_scale_invariant_witness :
  0 < 2
  /\ length [3; 4] = length [4; 3]
  /\ cosine_similarity (map (Rmult 2) [3; 4]) [4; 3] = cosine_similarity [3; 4] [4; 3].
Proof.
  split; [lra |]. split; [reflexivity |].
  apply (cosine_similarity_scale_invariant 2 [3; 4] [4; 3]); [lra | reflexivity].
Defined.

End CosineMore.

(* ===================================================================== *)
(** * Further properties of search_video                                  *)
(* ===================================================================== *)

Module EngineMore.

Import Py PyFacts Engine EngineFacts.
Local Open Scope Q_scope.

Section Facts.
Context `{Models}.

(** ** How many results *)

Lemma rank_covers_buckets (l : list Result.t) (c : Result.t) :
  In c l -> exists u, In u (rank l) /\ bucket u = bucket c.
Proof.
  intros Hc. apply (sort_desc_In Result.score) in Hc.
  destruct (List.find (in_bucket (bucket c)) (sort_desc Result.score l))
    as [u|] eqn:E.
  - pose proof (find_some _ _ E) as [_ Hb]. apply in_bucket_true in Hb.
    exists u. split; [| exact Hb].
    unfold rank. apply sort_desc_In.
    destruct (remove_duplicates_spec (sort_desc Result.score l)) as [Hspec _];
      [apply sort_desc_sorted |].
    apply Hspec. now rewrite Hb.
  - pose proof (find_none _ _ E c Hc) as Hb.
    apply in_bucket_false in Hb. now contradiction Hb.
Qed.

Lemma rank_length (l : list Result.t) :
  length (rank l) = length (nodup Z.eq_dec (map bucket l)).
Proof.
  rewrite <- (length_map bucket (rank l)).
  apply Permutation_length, Stdlib.Sorting.Permutation.NoDup_Permutation.
  - apply rank_NoDup.
  - apply List.NoDup_nodup.
  - intros b. rewrite List.nodup_In, !in_map_iff. split.
    + intros (u & <- & Hu). exists u. split; [reflexivity | now apply rank_incl].
    + intros (c & <- & Hc). destruct (rank_covers_buckets l c Hc) as (u & Hu & Hb).
      exists u. now split.
Qed.

Lemma search_video_body (now : string) (w w' : World.t) (query : SearchQuery.t)
    (resp : Response.t) :
  search_video now w query = (inr resp, w') ->
  exists data,
    World.data_files w !! SearchQuery.video_id query = Some data
    /\ Response.results resp
       = slice_to (SearchQuery.top_k query) (rank (candidates query data))
    /\ Response.total_matches resp = length (rank (candidates query data))
    /\ World.search_history w' !! SearchQuery.video_id query
       = Some (default [] (World.search_history w !! SearchQuery.video_id query)
               ++ [history_entry now query (rank (candidates query data))]).
Proof.
  unfold search_video.
  destruct (World.data_files w !! SearchQuery.video_id query) as [data|];
    [| discriminate].
  intros [= <- <-]. exists data. simpl. repeat split. apply lookup_insert_eq.
Qed.

(** X4.  [total_matches] is the number of distinct 0.1 s buckets among the
    candidates, not the number of candidates; and the number of results
    returned is [min(top_k, total_matches)] for a [top_k >= 0], while a
    negative [top_k] is not rejected: it drops the last [-top_k] of the
    ranked results. *)
Theorem result_counts (now : string) (w w' : World.t) (query : SearchQuery.t)
    (resp : Response.t) (data : Data.t) :
  World.data_files w !! SearchQuery.video_id query = Some data ->
  search_video now w query = (inr resp, w') ->
  Response.total_matches resp
    = length (nodup Z.eq_dec
                (map (fun r => round1 (Result.timestamp r)) (candidates query data)))
  /\ length (Response.results resp)
     = (if (0 <=? SearchQuery.top_k query)%Z
        then Nat.min (Z.to_nat (SearchQuery.top_k query)) (Response.total_matches resp)
        else Response.total_matches resp - Z.to_nat (- SearchQuery.top_k query))%nat.
Proof.
  intros Hdata Hrun.
  destruct (search_video_body _ _ _ _ _ Hrun) as (data' & Hdata' & Hres & Htot & _).
  assert (data' = data) as -> by congruence.
  rewrite Hres, Htot. split; [apply rank_length |].
  unfold slice_to. destruct (0 <=? SearchQuery.top_k query)%Z;
    rewrite length_firstn; lia.
Qed.

(** ** Text against visual results in hybrid mode *)

Lemma hybrid_text_results_type (query : SearchQuery.t) (data : Data.t)
    (r : Result.t) :
  In r (hybrid_text_results query data) -> Result.search_type r = "text".
Proof.
  rewrite hybrid_text_results_halves, in_map_iff.
  intros (r0 & <- & Hr0). simpl. now apply text_search_type in Hr0.
Qed.

Lemma hybrid_visual_results_type (query : SearchQuery.t) (data : Data.t)
    (r : Result.t) :
  In r (hybrid_visual_results query data) -> Result.search_type r = "visual".
Proof.
  rewrite hybrid_visual_results_In. intros (qv & vd & _ & _ & _ & ->). reflexivity.
Qed.

(** A list cut in two ways: an element outside the first part lies in
    the second one. *)
Lemma app_split_right {A : Type} (t v l1 l2 : list A) (u : A) :
  t ++ v = l1 ++ u :: l2 -> ~ In u t ->
  exists v1, l1 = t ++ v1 /\ v = v1 ++ u :: l2.
Proof.
  revert l1. induction t as [|x t IH]; intros l1 E Hu; simpl in *.
  - exists l1. auto.
  - destruct l1 as [|y l1]; simpl in E; injection E as -> E.
    + contradiction Hu. now left.
    + destruct (IH l1 E) as (v1 & -> & ->); [tauto |]. exists v1. auto.
Qed.

Lemma app_split_left {A : Type} (t v l1 l2 : list A) (u : A) :
  t ++ v = l1 ++ u :: l2 -> ~ In u v ->
  exists t2, t = l1 ++ u :: t2 /\ l2 = t2 ++ v.
Proof.
  revert l1. induction t as [|x t IH]; intros l1 E Hu; simpl in *.
  - contradiction Hu. rewrite E. apply in_or_app. right. now left.
  - destruct l1 as [|y l1]; simpl in E; injection E as -> E.
    + exists t. auto.
    + destruct (IH l1 E Hu) as (t2 & -> & ->). exists t2. auto.
Qed.

(** X6.  In hybrid mode a visual result is returned only if its weighted
    score is strictly above that of every text candidate of its 0.1 s
    bucket, and a text result only if no visual candidate of its bucket is
    above it: on equal weighted scores the text result is kept. *)
Theorem hybrid_text_wins_ties (now : string) (w w' : World.t)
    (query : SearchQuery.t) (resp : Response.t) (data : Data.t) (u : Result.t) :
  SearchQuery.search_type query <> "text" ->
  SearchQuery.search_type query <> "visual" ->
  World.data_files w !! SearchQuery.video_id query = Some data ->
  search_video now w query = (inr resp, w') ->
  In u (Response.results resp) ->
  (Result.search_type u = "visual" ->
   forall t, In t (hybrid_text_results query data) ->
     round1 (Result.timestamp t) = round1 (Result.timestamp u) ->
     Result.score t < Result.score u)
  /\ (Result.search_type u = "text" ->
      forall v, In v (hybrid_visual_results query data) ->
        round1 (Result.timestamp v) = round1 (Result.timestamp u) ->
        Result.score v <= Result.score u).
Proof.
  intros Ht Hv Hdata Hrun Hu.
  destruct (search_video_body _ _ _ _ _ Hrun) as (data' & Hdata' & Hres & _).
  assert (data' = data) as -> by congruence.
  rewrite Hres in Hu. apply slice_to_In, rank_In in Hu.
  destruct Hu as (l1 & l2 & E & Hbefore & Hafter).
  rewrite candidates_hybrid in E by assumption. unfold hybrid_search in E.
  split; intros Hty.
  - intros t Hin Hb.
    destruct (app_split_right _ _ _ _ _ E) as (v1 & -> & _).
    { intros Hut. apply hybrid_text_results_type in Hut. congruence. }
    apply Hbefore; [apply in_or_app; now left | exact Hb].
  - intros v Hin Hb.
    destruct (app_split_left _ _ _ _ _ E) as (t2 & _ & ->).
    { intros Huv. apply hybrid_visual_results_type in Huv. congruence. }
    apply Hafter; [apply in_or_app; now right | exact Hb].
Qed.

(** ** The history entry of a search *)



End Facts.

End EngineMore.

(* ===================================================================== *)
(** * Properties of the rate limiter                                      *)
(* ===================================================================== *)

Module LimitsFacts.

Import Limits.
Local Open Scope Z_scope.

Lemma check_rate_limit_eq (today ip : string) (store : gmap string Z) :
  check_rate_limit today ip store =
    if RATE_LIMIT <=? used_of today ip store
    then (false,
          match store !! key today ip with
          | None => <[key today ip := 0]> store
          | Some _ => store
          end)
    else (true, <[key today ip := used_of today ip store + 1]> store).
Proof.
  unfold check_rate_limit, used_of.
  destruct (store !! key today ip) as [u|] eqn:E; simpl.
  - rewrite E. reflexivity.
  - rewrite lookup_insert_eq. simpl. now rewrite insert_insert_eq.
Qed.

(** X8.  [check_rate_limit] lets a call through exactly when
    [get_rate_limit_remaining] is positive before it; a call let through
    lowers the remaining count of its address and day by one, a refused call
    leaves it at zero; the remaining count of every other key is unchanged. *)
Theorem check_rate_limit_remaining (today ip : string) (store : gmap string Z) :
  let ok := fst (check_rate_limit today ip store) in
  let store' := snd (check_rate_limit today ip store) in
  ok = (0 <? get_rate_limit_remaining today ip store)
  /\ get_rate_limit_remaining today ip store'
     = get_rate_limit_remaining today ip store - (if ok then 1 else 0)
  /\ forall today' ip',
       key today' ip' <> key today ip ->
       get_rate_limit_remaining today' ip' store'
       = get_rate_limit_remaining today' ip' store.
Proof.
  cbv zeta. rewrite check_rate_limit_eq. unfold get_rate_limit_remaining.
  fold (used_of today ip store).
  destruct (Z.leb_spec RATE_LIMIT (used_of today ip store)) as [Hge | Hlt]; simpl.
  - split; [symmetry; apply Z.ltb_ge; lia |]. split.
    + unfold used_of in *.
      destruct (store !! key today ip) as [u|] eqn:E; simpl in *.
      * rewrite E. simpl. lia.
      * unfold RATE_LIMIT in Hge. lia.
    + intros today' ip' Hne.
      destruct (store !! key today ip); [reflexivity |].
      now rewrite lookup_insert_ne by congruence.
  - split; [symmetry; apply Z.ltb_lt; lia |]. split.
    + rewrite lookup_insert_eq. simpl. lia.
    + intros today' ip' Hne. now rewrite lookup_insert_ne by congruence.
Qed.

Lemma check_rate_limit_used (today ip : string) (store : gmap string Z) :
  0 <= used_of today ip store <= RATE_LIMIT ->
  used_of today ip (snd (check_rate_limit today ip store))
  = Z.min RATE_LIMIT (used_of today ip store + 1)
  /\ fst (check_rate_limit today ip store)
     = (used_of today ip store <? RATE_LIMIT).
Proof.
  intros Hu. rewrite check_rate_limit_eq.
  destruct (Z.leb_spec RATE_LIMIT (used_of today ip store)) as [Hge | Hlt]; simpl.
  - split; [| symmetry; apply Z.ltb_ge; lia].
    unfold used_of in *. destruct (store !! key today ip) as [u|] eqn:E; simpl in *.
    + rewrite E. simpl. lia.
    + unfold RATE_LIMIT in *. lia.
  - split; [| symmetry; apply Z.ltb_lt; lia].
    unfold used_of at 1. rewrite lookup_insert_eq. simpl. lia.
Qed.

(** X9.  Of [n] successive calls from one address on one day, the first
    [RATE_LIMIT - used] are let through and all the later ones are refused,
    [used] being the counter before the first call ([0] for a new key): 50
    calls a day for a new address, whatever [n]. *)
Theorem check_rate_limit_quota (today ip : string) (n : nat) :
  forall store : gmap string Z,
  0 <= used_of today ip store <= RATE_LIMIT ->
  let left := Z.to_nat (RATE_LIMIT - used_of today ip store) in
  fst (check_all (repeat (today, ip) n) store)
  = repeat true (Nat.min n left) ++ repeat false (n - left).
Proof.
  induction n as [|n IH]; intros store Hu; cbv zeta; simpl; [reflexivity |].
  destruct (check_rate_limit today ip store) as [ok store'] eqn:E.
  pose proof (check_rate_limit_used today ip store Hu) as [Hused Hok].
  rewrite E in Hused, Hok. simpl in Hused, Hok.
  specialize (IH store').
  destruct (check_all (repeat (today, ip) n) store') as [oks store''].
  simpl in *. rewrite IH by lia. rewrite Hused, Hok.
  destruct (Z.ltb_spec (used_of today ip store) RATE_LIMIT) as [Hlt | Hge].
  - rewrite Z.min_r by lia.
    replace (Z.to_nat (RATE_LIMIT - used_of today ip store))
      with (S (Z.to_nat (RATE_LIMIT - (used_of today ip store + 1)))) by lia.
    reflexivity.
  - rewrite Z.min_l by lia.
    replace (Z.to_nat (RATE_LIMIT - RATE_LIMIT)) with 0%nat by lia.
    replace (Z.to_nat (RATE_LIMIT - used_of today ip store)) with 0%nat by lia.
    rewrite !Nat.min_0_r, !Nat.sub_0_r. reflexivity.
Qed.

Lemma check_rate_limit_quota_witness :
  0 <= used_of "2025-01-01" "10.0.0.1" ∅ <= RATE_LIMIT
  /\ fst (check_all (repeat ("2025-01-01", "10.0.0.1")%string 53) ∅)
     = repeat true 50 ++ repeat false 3.
Proof.
  assert (0 <= used_of "2025-01-01" "10.0.0.1" ∅ <= RATE_LIMIT) as Hu
    by (vm_compute; split; discriminate).
  split; [exact Hu |].
  rewrite (check_rate_limit_quota "2025-01-01" "10.0.0.1" 53 ∅ Hu).
  vm_compute. reflexivity.
Defined.

Lemma check_rate_limit_bounded_step (today ip : string) (store : gmap string Z) :
  bounded store -> bounded (snd (check_rate_limit today ip store)).
Proof.
  intros Hb. rewrite check_rate_limit_eq. unfold used_of.
  destruct (store !! key today ip) as [u|] eqn:E; simpl.
  - pose proof (Hb _ _ E) as Hu.
    destruct (Z.leb_spec RATE_LIMIT u); simpl; [exact Hb |].
    intros k v Hk. apply lookup_insert_Some in Hk.
    destruct Hk as [[_ <-] | [_ Hk]]; [lia | now apply (Hb k)].
  - destruct (Z.leb_spec RATE_LIMIT 0) as [Hle | _]; simpl;
      [unfold RATE_LIMIT in Hle; lia |].
    intros k v Hk. apply lookup_insert_Some in Hk.
    destruct Hk as [[_ <-] | [_ Hk]]; [unfold RATE_LIMIT; lia | now apply (Hb k)].
Qed.

(** X10.  Whatever the calls, no counter leaves [[0, RATE_LIMIT]]: a store
    that starts within the bounds (the empty store does) stays within them,
    so a counter never passes the limit. *)
Theorem check_rate_limit_bounded (calls : list (string * string)) :
  forall store : gmap string Z,
  bounded store -> bounded (snd (check_all calls store)).
Proof.
  induction calls as [|[today ip] calls IH]; intros store Hb; simpl; [exact Hb |].
  pose proof (check_rate_limit_bounded_step today ip store Hb) as Hb'.
  destruct (check_rate_limit today ip store) as [ok store'].
  specialize (IH store' Hb').
  destruct (check_all calls store') as [oks store'']. exact IH.
Qed.

Lemma check_rate_limit_bounded_witness :
  bounded ∅
  /\ bounded (snd (check_all (repeat ("2025-01-01", "10.0.0.1")%string 53) ∅)).
Proof.
  assert (bounded ∅) as Hb by (intros k v Hk; rewrite lookup_empty in Hk; discriminate).
  split; [exact Hb |].
  apply (check_rate_limit_bounded (repeat ("2025-01-01", "10.0.0.1")%string 53) ∅ Hb).
Defined.

End LimitsFacts.

(* ===================================================================== *)
(** * Properties of the other endpoints                                   *)
(* ===================================================================== *)

Module ServerFacts.

Import Py PyFacts Engine EngineFacts Limits Server.

(** ** File names *)

Lemma append_assoc (a b c : string) :
  ((a +:+ b) +:+ c = a +:+ (b +:+ c))%string.
Proof.
  induction a as [|x a IH]; append_step; [reflexivity | now rewrite IH].
Qed.

Lemma length_append (a b : string) :
  String.length (a +:+ b) = (String.length a + String.length b)%nat.
Proof.
  induction a as [|x a IH]; append_step; simpl; [reflexivity | now rewrite IH].
Qed.

Lemma append_suffix_inj (a b s : string) :
  (a +:+ s = b +:+ s)%string -> a = b.
Proof.
  revert b. induction a as [|x a IH]; intros [|y b] E; append_step.
  - reflexivity.
  - apply (f_equal String.length) in E. simpl in E. rewrite length_append in E. lia.
  - apply (f_equal String.length) in E. simpl in E. rewrite length_append in E. lia.
  - injection E as -> E. f_equal. now apply IH.
Qed.

Lemma data_name_status_name (v : string) :
  data_name v = status_name (v +:+ "_data").
Proof. unfold data_name, status_name. now rewrite append_assoc. Qed.

Lemma status_name_inj (v v' : string) : status_name v = status_name v' -> v = v'.
Proof. apply append_suffix_inj. Qed.

Lemma data_name_inj (v v' : string) : data_name v = data_name v' -> v = v'.
Proof. apply append_suffix_inj. Qed.

Lemma separate_names (v v' : string) :
  separate v v' ->
  status_name v' <> status_name v /\ status_name v' <> data_name v
  /\ data_name v' <> status_name v /\ data_name v' <> data_name v.
Proof.
  intros (Hne & H1 & H2). repeat split; intros E.
  - apply status_name_inj in E. congruence.
  - rewrite data_name_status_name in E. apply status_name_inj in E. congruence.
  - rewrite data_name_status_name in E. apply status_name_inj in E. congruence.
  - apply data_name_inj in E. congruence.
Qed.

Section Facts.
Context `{Models} `{Framework}.

(** ** The rate limit and the uploads *)

Lemma handle_rate_limit_store (now today : string) (s : State.t) (request : Request) :
  State.rate_limit_store (snd (handle now today s request))
  = State.rate_limit_store s.
Proof.
  destruct request; simpl; try reflexivity.
  - unfold upload_video.
    destruct (_ <=? 0)%Z; [reflexivity |].
    destruct filename as [[|c f]|]; try reflexivity.
    destruct (negb _); [reflexivity |]. destruct (_ <? _)%Z; reflexivity.
  - unfold upload_youtube_url.
    destruct (_ <=? 0)%Z; [reflexivity |]. destruct (blank url); reflexivity.
  - unfold search. destruct (search_video _ _ _) as [r w]. reflexivity.
Qed.

Lemma handle_not_429 (now today : string) (s : State.t) (request : Request)
    (e : HTTPException.t) :
  State.rate_limit_store s = ∅ ->
  fst (handle now today s request) = Raised e ->
  HTTPException.status_code e <> 429%Z.
Proof.
  intros Hs. destruct request; simpl; try discriminate.
  - unfold upload_video, get_rate_limit_remaining. rewrite Hs, lookup_empty. simpl.
    destruct filename as [[|c f]|]; simpl; try (intros [= <-]; discriminate).
    destruct (negb _); [intros [= <-]; discriminate |].
    destruct (_ <? _)%Z; simpl; [intros [= <-]; discriminate | discriminate].
  - unfold upload_youtube_url, get_rate_limit_remaining. rewrite Hs, lookup_empty.
    simpl. destruct (blank url); simpl; [intros [= <-]; discriminate | discriminate].
  - unfold search, search_video.
    destruct (World.data_files _ !! _); simpl; [discriminate |].
    intros [= <-]. discriminate.
  - unfold get_video_info. destruct (State.cache s !! _); simpl; [discriminate |].
    intros [= <-]. discriminate.
Qed.

(** X11.  No endpoint calls [check_rate_limit]: whatever the requests, the
    store of the limiter stays as it was; and as the program starts with an
    empty store, no upload is ever refused with status 429, however many
    uploads an address makes. *)
Theorem uploads_never_limited (requests : list (string * string * Request)) :
  forall s : State.t,
  State.rate_limit_store (snd (serve s requests)) = State.rate_limit_store s
  /\ (State.rate_limit_store s = ∅ ->
      forall e, In (Raised e) (fst (serve s requests)) ->
        HTTPException.status_code e <> 429%Z).
Proof.
  induction requests as [|[[now today] request] requests IH]; intros s; simpl.
  - split; [reflexivity | intros _ e []].
  - pose proof (handle_rate_limit_store now today s request) as Hstore.
    pose proof (fun e => handle_not_429 now today s request e) as Hcode.
    destruct (handle now today s request) as [reply s'].
    destruct (IH s') as [IHstore IHcode].
    destruct (serve s' requests) as [replies s'']. simpl in *.
    split; [congruence |].
    intros Hs e [-> | Hin]; [now apply Hcode |].
    apply IHcode; [congruence | exact Hin].
Qed.

(** X12.  A file of more than [MAX_FILE_SIZE] bytes, with a name and a
    format that pass, is answered with status 500, not 400: the exception
    raised for the size is caught by the handler around it and wrapped in
    ["Upload failed: ..."]; nothing is written and no processing starts. *)
Theorem oversized_upload_is_500 (now today client_ip : string) (s : State.t)
    (filename : string) (size : Z) :
  (0 < get_rate_limit_remaining today client_ip (State.rate_limit_store s))%Z ->
  filename <> "" ->
  supported filename = true ->
  (MAX_FILE_SIZE < size)%Z ->
  upload_video now today client_ip s (Some filename) size
  = (inl {| HTTPException.status_code := 500;
            HTTPException.detail :=
              "Upload failed: "
              +:+ http_exception_str
                    {| HTTPException.status_code := 400;
                       HTTPException.detail := "File too large. Max size: 500MB" |} |},
     s, None).
Proof.
  intros Hrem Hname Hfmt Hsize. unfold upload_video.
  destruct (Z.leb_spec (get_rate_limit_remaining today client_ip
                          (State.rate_limit_store s)) 0); [lia |].
  destruct filename as [|c f]; [congruence |].
  rewrite Hfmt. simpl.
  destruct (Z.ltb_spec MAX_FILE_SIZE size); [reflexivity | lia].
Qed.

(** ** Bookmarks *)

(** X13.  After [add_bookmark] the bookmarks of the video are the former
    ones followed by the new one, stamped with the time of the call; those
    of every other video are unchanged; so are the files, the histories and
    the limiter. The video need not exist. *)
Theorem bookmark_round_trip (now : string) (s : State.t)
    (bookmark : BookmarkRequest.t) :
  let s' := snd (add_bookmark now s bookmark) in
  get_bookmarks s' (BookmarkRequest.video_id bookmark)
  = (BookmarkRequest.video_id bookmark,
     snd (get_bookmarks s (BookmarkRequest.video_id bookmark))
     ++ [ {| Bookmark.timestamp := BookmarkRequest.timestamp bookmark;
             Bookmark.note := BookmarkRequest.note bookmark;
             Bookmark.created_at := now |} ])
  /\ (forall v, v <> BookmarkRequest.video_id bookmark ->
        get_bookmarks s' v = get_bookmarks s v)
  /\ State.cache s' = State.cache s
  /\ State.search_history s' = State.search_history s
  /\ State.rate_limit_store s' = State.rate_limit_store s.
Proof.
  cbv zeta. unfold get_bookmarks, add_bookmark. simpl.
  rewrite lookup_insert_eq. simpl. split; [reflexivity |].
  split; [| repeat split].
  intros v Hv. now rewrite lookup_insert_ne by congruence.
Qed.

(** ** Deletion *)

Lemma search_missing (now : string) (s : State.t) (query : SearchQuery.t) :
  State.cache s !! data_name (SearchQuery.video_id query) = None ->
  search now s query
  = (inl {| HTTPException.status_code := 404;
            HTTPException.detail := "Video not processed yet" |},
     with_search_history s (State.search_history s)).
Proof.
  intros E. unfold search, search_video, world_for. rewrite E.
  simpl. rewrite lookup_empty. reflexivity.
Qed.

(** X14.  After [delete_video] the session is gone for every endpoint: its
    status is ["not_found"], searching it and asking for its information
    raise 404, its search history and its bookmarks are empty; and deleting
    it again changes nothing more. The request itself never fails, whether
    or not the session existed. *)
Theorem delete_video_clears (now : string) (s : State.t) (video_id : string)
    (query : SearchQuery.t) :
  SearchQuery.video_id query = video_id ->
  let s' := snd (delete_video s video_id) in
  get_status s' video_id = Json.Status not_found
  /\ fst (search now s' query)
     = inl {| HTTPException.status_code := 404;
              HTTPException.detail := "Video not processed yet" |}
  /\ get_video_info s' video_id
     = inl {| HTTPException.status_code := 404;
              HTTPException.detail := "Video not found" |}
  /\ get_search_history s' video_id = (video_id, [])
  /\ get_bookmarks s' video_id = (video_id, [])
  /\ snd (delete_video s' video_id) = s'.
Proof.
  intros Hq. cbv zeta.
  assert (State.cache (snd (delete_video s video_id)) !! data_name video_id = None)
    as Hdata by (simpl; apply lookup_delete_eq).
  split; [| split; [| split; [| split; [| split]]]].
  - unfold get_status. simpl.
    destruct (decide (data_name video_id = status_name video_id)) as [E | Hne].
    + rewrite E. now rewrite lookup_delete_eq.
    + now rewrite lookup_delete_ne, lookup_delete_eq by congruence.
  - rewrite search_missing by (rewrite Hq; exact Hdata). reflexivity.
  - unfold get_video_info. now rewrite Hdata.
  - unfold get_search_history. simpl. now rewrite lookup_delete_eq.
  - unfold get_bookmarks. simpl. now rewrite lookup_delete_eq.
  - unfold delete_video. simpl. f_equal.
    + apply map_eq. intros k. rewrite !lookup_delete.
      repeat case_decide; reflexivity.
    + apply set_eq. intros x. rewrite !elem_of_difference. tauto.
    + apply delete_id, lookup_delete_eq.
    + destruct (State.lancedb s); [f_equal | reflexivity].
      apply set_eq. intros x. rewrite !elem_of_difference. tauto.
    + apply delete_id, lookup_delete_eq.
    + apply delete_id, lookup_delete_eq.
Qed.

Lemma search_reply (now : string) (s : State.t) (query : SearchQuery.t) :
  fst (search now s query)
  = match State.cache s !! data_name (SearchQuery.video_id query) with
    | None =>
        inl {| HTTPException.status_code := 404;
               HTTPException.detail := "Video not processed yet" |}
    | Some j =>
        inr {| Response.results :=
                 slice_to (SearchQuery.top_k query)
                   (rank (candidates query (data_of j)));
               Response.total_matches :=
                 length (rank (candidates query (data_of j)));
               Response.search_type := SearchQuery.search_type query;
               Response.model := "OpenCLIP ViT-B-32 + LAION-2B - FIXED" |}
    end.
Proof.
  unfold search, search_video, world_for.
  destruct (State.cache s !! data_name (SearchQuery.video_id query)) as [j|]; simpl.
  - now rewrite lookup_singleton_eq.
  - now rewrite lookup_empty.
Qed.

(** X15.  [delete_video] leaves the other sessions as they were: for a
    session whose files do not meet those of the deleted one, the status,
    the answer of the search, the information, the search history and the
    bookmarks are what they were before. *)
Theorem delete_video_keeps_others (now : string) (s : State.t)
    (video_id other : string) (query : SearchQuery.t) :
  separate video_id other ->
  SearchQuery.video_id query = other ->
  let s' := snd (delete_video s video_id) in
  get_status s' other = get_status s other
  /\ fst (search now s' query) = fst (search now s query)
  /\ get_video_info s' other = get_video_info s other
  /\ get_search_history s' other = get_search_history s other
  /\ get_bookmarks s' other = get_bookmarks s other.
Proof.
  intros Hsep Hq. cbv zeta.
  pose proof Hsep as (Hne & _).
  destruct (separate_names _ _ Hsep) as (Hss & Hsd & Hds & Hdd).
  assert (State.cache (snd (delete_video s video_id)) !! data_name other
          = State.cache s !! data_name other) as Hdata.
  { simpl. now rewrite !lookup_delete_ne by congruence. }
  split; [| split; [| split; [| split]]].
  - unfold get_status. simpl. now rewrite !lookup_delete_ne by congruence.
  - rewrite !search_reply, Hq. now rewrite Hdata.
  - unfold get_video_info. now rewrite Hdata.
  - unfold get_search_history. simpl. now rewrite lookup_delete_ne by congruence.
  - unfold get_bookmarks. simpl. now rewrite lookup_delete_ne by congruence.
Qed.

(** X16.  The status file of the identifier [v ++ "_data"] is the data file
    of [v]. So the status endpoint, asked for [v ++ "_data"], returns the
    whole data file of [v]; and deleting [v ++ "_data"], a session that need
    not exist, removes the data of [v], whose search then raises 404. *)
Theorem status_name_meets_data_name (now : string) (s : State.t) (v : string)
    (j : Json.t) (query : SearchQuery.t) :
  State.cache s !! data_name v = Some j ->
  SearchQuery.video_id query = v ->
  get_status s (v +:+ "_data") = j
  /\ fst (search now (snd (delete_video s (v +:+ "_data"))) query)
     = inl {| HTTPException.status_code := 404;
              HTTPException.detail := "Video not processed yet" |}.
Proof.
  intros Hj Hq. split.
  - unfold get_status. now rewrite <- data_name_status_name, Hj.
  - rewrite search_reply, Hq. simpl.
    rewrite <- (data_name_status_name v).
    destruct (decide (data_name (v +:+ "_data") = data_name v)) as [E | Hne].
    + rewrite E. now rewrite lookup_delete_eq.
    + now rewrite lookup_delete_ne, lookup_delete_eq by congruence.
Qed.

End Facts.

End ServerFacts.

(* ===================================================================== *)
(** * Properties of the ingestion                                         *)
(* ===================================================================== *)

Module PipelineFacts.

Import Py Engine Limits Server Pipeline PyFacts ServerFacts.

Lemma len_append (a b : string) : len (a +:+ b) = (len a + len b)%nat.
Proof.
induction a as [|c a IH]; [reflexivity|].
change (String c a +:+ b)%string with (String c (a +:+ b)).
cbn [len]. rewrite IH. now destruct (continues c).
Qed.

Lemma kept_segments_length (segments : list WhisperSegment.t) (seg : Segment.t) :
  In seg (kept_segments segments) -> (3 <= len (Segment.text seg))%nat.
Proof.
induction segments as [|w rest IH]; simpl; [tauto|].
destruct (Nat.ltb_spec (len (strip (WhisperSegment.text w))) 3) as [Hlt|Hge].
- exact IH.
- intros [<-|Hin]; [exact Hge | exact (IH Hin)].
Qed.

(** [" ♪ "] is one character between two spaces, on three bytes: the
    segment is dropped.  A text between no-break spaces loses them. *)
Example kept_segments_unicode :
  kept_segments
    [ {| WhisperSegment.start := 0; WhisperSegment.end_ := 1;
         WhisperSegment.text := " ♪ " |};
      {| WhisperSegment.start := 1; WhisperSegment.end_ := 2;
         WhisperSegment.text := " été " |} ]
  = [ {| Segment.start := 1; Segment.end_ := 2; Segment.text := "été" |} ]
  /\ String.length "♪" = 3%nat /\ len "♪" = 1%nat
  /\ String.length "été" = 5%nat /\ len "été" = 3%nat.
Proof. repeat split. Qed.

(** X17.  Whatever Whisper does, no segment that [transcribe_audio] returns
    has a text of fewer than three characters: short segments of a
    transcript are dropped, and the segments that stand in for a missing or
    failing Whisper are longer. *)
Theorem transcribe_audio_text_length (whisper : Whisper) (seg : Segment.t) :
  In seg (transcribe_audio whisper) ->
  (3 <= len (Segment.text seg))%nat.
Proof.
destruct whisper as [segments| |message]; simpl.
- apply kept_segments_length.
- intros [<-|[<-|[<-|[]]]]; simpl; lia.
- intros [<-|[]]. cbn [Segment.text]. rewrite len_append.
  change (len "Transcription error: ") with 21%nat. lia.
Qed.

Section Facts.
Context `{Models} `{!ImageEncoder}.

Lemma encode_batches_omap (fuel batch_size : nat) (image_paths : list string) :
  (0 < batch_size)%nat -> (length image_paths <= fuel)%nat ->
  encode_batches fuel batch_size image_paths = omap encode_image image_paths.
Proof.
intros Hb. revert image_paths.
induction fuel as [|fuel IH]; intros image_paths Hlen.
- destruct image_paths; [reflexivity | simpl in Hlen; lia].
- destruct image_paths as [|p ps]; [reflexivity|].
  cbn [encode_batches].
  rewrite IH.
  + rewrite <- omap_app. now rewrite firstn_skipn.
  + rewrite length_skipn. simpl in *. lia.
Qed.

(** X18.  The batches do not show in the result of
    [encode_multiple_images_batch]: for any positive batch size it is the
    features of the images that open, in the order of the paths. *)
Theorem encode_multiple_images_batch_unbatched (image_paths : list string)
    (batch_size : nat) :
  (0 < batch_size)%nat ->
  encode_multiple_images_batch image_paths batch_size
  = omap encode_image image_paths.
Proof.
intros Hb. unfold encode_multiple_images_batch.
now apply encode_batches_omap.
Qed.

Lemma with_statuses_app (s : State.t) (v : string) (a b : list ProcessingStatus.t) :
  with_statuses s v (a ++ b) = with_statuses (with_statuses s v a) v b.
Proof. apply fold_left_app. Qed.

Lemma with_statuses_stores (s : State.t) (v : string) (statuses : list ProcessingStatus.t) :
  State.uploads (with_statuses s v statuses) = State.uploads s
  /\ State.frame_dirs (with_statuses s v statuses) = State.frame_dirs s
  /\ State.lancedb (with_statuses s v statuses) = State.lancedb s
  /\ State.search_history (with_statuses s v statuses) = State.search_history s
  /\ State.bookmarks (with_statuses s v statuses) = State.bookmarks s
  /\ State.rate_limit_store (with_statuses s v statuses) = State.rate_limit_store s.
Proof.
revert s. induction statuses as [|st rest IH]; intros s; [now repeat split|].
cbn [with_statuses fold_left]. apply (IH (with_status s v st)).
Qed.

Lemma with_statuses_lancedb (s : State.t) (v : string) (statuses : list ProcessingStatus.t) :
  State.lancedb (with_statuses s v statuses) = State.lancedb s.
Proof. apply with_statuses_stores. Qed.

Lemma with_statuses_uploads (s : State.t) (v : string) (statuses : list ProcessingStatus.t) :
  State.uploads (with_statuses s v statuses) = State.uploads s.
Proof. apply with_statuses_stores. Qed.

Lemma with_statuses_frame_dirs (s : State.t) (v : string) (statuses : list ProcessingStatus.t) :
  State.frame_dirs (with_statuses s v statuses) = State.frame_dirs s.
Proof. apply with_statuses_stores. Qed.

Lemma with_statuses_search_history (s : State.t) (v : string) (statuses : list ProcessingStatus.t) :
  State.search_history (with_statuses s v statuses) = State.search_history s.
Proof. apply with_statuses_stores. Qed.

Lemma with_statuses_bookmarks (s : State.t) (v : string) (statuses : list ProcessingStatus.t) :
  State.bookmarks (with_statuses s v statuses) = State.bookmarks s.
Proof. apply with_statuses_stores. Qed.

Lemma with_statuses_rate_limit_store (s : State.t) (v : string) (statuses : list ProcessingStatus.t) :
  State.rate_limit_store (with_statuses s v statuses) = State.rate_limit_store s.
Proof. apply with_statuses_stores. Qed.

Lemma with_statuses_cache_other (s : State.t) (v : string)
    (statuses : list ProcessingStatus.t) (k : string) :
  k <> status_name v ->
  State.cache (with_statuses s v statuses) !! k = State.cache s !! k.
Proof.
intros Hk. revert s. induction statuses as [|st rest IH]; intros s; [reflexivity|].
change (with_statuses s v (st :: rest))
  with (with_statuses (with_status s v st) v rest).
rewrite IH. cbn [with_status State.cache]. now rewrite lookup_insert_ne.
Qed.


Ltac run_cases run s :=
  unfold process_video_background;
  destruct (Run.ffmpeg run) eqn:Hffmpeg; cbn [negb];
  [ destruct (Run.extract_audio run) as [audio_error|] eqn:Haudio;
    [ | destruct (mapM get_text_embeddings _) as [text_embeddings|] eqn:Htext;
        [ destruct (Run.openclip run) eqn:Hclip; cbn [negb];
          [ cbn [with_statuses fold_left];
            cbn [State.lancedb with_status with_upload with_frame_dir];
            rewrite with_statuses_lancedb;
            cbn [State.lancedb with_status with_upload with_frame_dir];
            destruct (State.lancedb s) as [tables|] eqn:Hdb;
            [ rewrite (proj2 (Nat.ltb_ge _ _))
                by (rewrite <- (length_mapM _ _ _ Htext), length_map; reflexivity);
              destruct (Run.remove_audio run) as [remove_error|] eqn:Hremove
            | ]
          | ]
        | ]
    ]
  | ].

Lemma last_snoc_eq {A : Type} (l : list A) (x : A) : last (l ++ [x]) = Some x.
Proof. apply last_snoc. Qed.

(** X19.  However the run goes, the last status the task writes is a final
    one, [completed] or an error with progress 0, and it is the status that
    [get_status] then returns. *)
Theorem process_video_background_ends (run : Run.t) (s : State.t)
    (video_id video_path : string) :
  exists status,
    last (fst (process_video_background run s video_id video_path)) = Some status
    /\ get_status (snd (process_video_background run s video_id video_path)) video_id
       = Json.Status status
    /\ terminal status.
Proof.
unfold get_status.
run_cases run s; unfold failed; cbn [fst snd];
  try (eexists; split; [apply last_snoc_eq|]; split;
       [cbn [with_status without_upload State.cache]; now rewrite lookup_insert_eq
       | first [now left | now right]]).
Qed.


Lemma sorted_app (l1 l2 : list ProcessingStatus.t) (c : Q) :
  StronglySorted progress_le l1 -> StronglySorted progress_le l2 ->
  List.Forall (fun a => (ProcessingStatus.progress a <= c)%Q) l1 ->
  List.Forall (fun b => (c <= ProcessingStatus.progress b)%Q) l2 ->
  StronglySorted progress_le (l1 ++ l2).
Proof.
intros H1 H2 Hl Hr. induction H1 as [|a l1 Hs IH Ha]; [exact H2|].
simpl. constructor.
- apply IH. now inversion Hl.
- apply List.Forall_app. split; [exact Ha|].
  apply List.Forall_forall. intros b Hb.
  rewrite List.Forall_forall in Hr. specialize (Hr b Hb).
  inversion Hl as [|? ? Hac _]; subst. unfold progress_le.
  now apply Qle_trans with c.
Qed.

Lemma sorted_prefix (l1 l2 : list ProcessingStatus.t) :
  StronglySorted progress_le (l1 ++ l2) -> StronglySorted progress_le l1.
Proof.
induction l1 as [|a l1 IH]; [constructor|].
simpl. intros Hs. inversion Hs as [|? ? Hs' Ha]; subst. constructor.
- now apply IH.
- now apply List.Forall_app in Ha as [Ha _].
Qed.

Lemma encoded_progress (frames i : nat) :
  (i < frames)%nat ->
  (65 # 100 <= ProcessingStatus.progress (encoded_status frames i))%Q
  /\ (ProcessingStatus.progress (encoded_status frames i) <= 9 # 10)%Q.
Proof.
intros Hi. cbn [encoded_status processing ProcessingStatus.progress].
assert (0 < inject_Z (Z.of_nat frames))%Q as Hpos.
{ change 0%Q with (inject_Z 0). rewrite <- Zlt_Qlt. lia. }
assert (0 <= inject_Z (Z.of_nat i) / inject_Z (Z.of_nat frames))%Q as Hq0.
{ apply Qle_shift_div_l; [exact Hpos|]. rewrite Qmult_0_l.
  change 0%Q with (inject_Z 0). rewrite <- Zle_Qle. lia. }
assert (inject_Z (Z.of_nat i) / inject_Z (Z.of_nat frames) <= 1)%Q as Hq1.
{ apply Qle_shift_div_r; [exact Hpos|]. rewrite Qmult_1_l.
  rewrite <- Zle_Qle. lia. }
remember (inject_Z (Z.of_nat i) / inject_Z (Z.of_nat frames))%Q as q eqn:Hq. clear Hq Hpos.
split; lra.
Qed.

Lemma encoded_progress_le (frames i j : nat) :
  (i <= j)%nat -> (j < frames)%nat ->
  progress_le (encoded_status frames i) (encoded_status frames j).
Proof.
intros Hij Hj. unfold progress_le.
cbn [encoded_status processing ProcessingStatus.progress].
assert (0 < inject_Z (Z.of_nat frames))%Q as Hpos.
{ change 0%Q with (inject_Z 0). rewrite <- Zlt_Qlt. lia. }
assert (inject_Z (Z.of_nat i) / inject_Z (Z.of_nat frames)
        <= inject_Z (Z.of_nat j) / inject_Z (Z.of_nat frames))%Q as Hle.
{ apply Qle_shift_div_l; [exact Hpos|].
  unfold Qdiv. rewrite <- Qmult_assoc, (Qmult_comm (/ _)), Qmult_inv_r, Qmult_1_r.
  - rewrite <- Zle_Qle. lia.
  - intros Heq. rewrite Heq in Hpos. now apply Qlt_irrefl in Hpos. }
remember (inject_Z (Z.of_nat i) / inject_Z (Z.of_nat frames))%Q as qi eqn:Hqi.
remember (inject_Z (Z.of_nat j) / inject_Z (Z.of_nat frames))%Q as qj eqn:Hqj. clear Hqi Hqj Hpos.
lra.
Qed.

Lemma encoded_sorted (frames : nat) (l : list nat) :
  StronglySorted le l -> List.Forall (fun i => (i < frames)%nat) l ->
  StronglySorted progress_le (map (encoded_status frames) l).
Proof.
intros Hs Hb. induction Hs as [|i l Hs IH Hi]; [constructor|].
inversion Hb as [|? ? Hif Hb']; subst.
simpl. constructor; [now apply IH|].
apply List.Forall_forall. intros st Hst.
apply in_map_iff in Hst as [j [<- Hj]].
rewrite List.Forall_forall in Hi, Hb'.
apply encoded_progress_le; auto.
Qed.

Lemma seq_sorted (start len : nat) : StronglySorted le (seq start len).
Proof.
revert start. induction len as [|len IH]; intros start; [constructor|].
simpl. constructor; [apply IH|].
apply List.Forall_forall. intros j Hj. apply in_seq in Hj. lia.
Qed.

Lemma filter_sorted (f : nat -> bool) (l : list nat) :
  StronglySorted le l -> StronglySorted le (List.filter f l).
Proof.
intros Hs. induction Hs as [|i l Hs IH Hi]; [constructor|].
simpl. destruct (f i); [|exact IH].
constructor; [exact IH|].
apply List.Forall_forall. intros j Hj. apply List.filter_In in Hj as [Hj _].
rewrite List.Forall_forall in Hi. auto.
Qed.

Lemma steps_sorted (frames encoded : nat) :
  (encoded <= frames)%nat -> StronglySorted progress_le (steps frames encoded).
Proof.
intros Hle. unfold steps.
assert (List.Forall (fun i => (i < frames)%nat)
          (List.filter (fun i => (i mod 50 =? 0)%nat) (seq 0 encoded))) as Hb.
{ apply List.Forall_forall. intros i Hi.
  apply List.filter_In in Hi as [Hi _]. apply in_seq in Hi. lia. }
apply sorted_app with (c := 65 # 100).
- repeat (constructor; [|repeat (constructor; try (unfold progress_le; simpl; lra))]).
  constructor.
- apply sorted_app with (c := 9 # 10).
  + apply encoded_sorted; [|exact Hb]. apply filter_sorted, seq_sorted.
  + repeat (constructor; [|repeat (constructor; try (unfold progress_le; simpl; lra))]).
    constructor.
  + apply List.Forall_forall. intros st Hst. unfold encoded_statuses in Hst.
    apply in_map_iff in Hst as [i [<- Hi]].
    rewrite List.Forall_forall in Hb. now apply encoded_progress, Hb.
  + repeat constructor; simpl; lra.
- repeat constructor; simpl; lra.
- apply List.Forall_app. split.
  + apply List.Forall_forall. intros st Hst. unfold encoded_statuses in Hst.
    apply in_map_iff in Hst as [i [<- Hi]].
    rewrite List.Forall_forall in Hb. now apply encoded_progress, Hb.
  + repeat constructor; simpl; lra.
Qed.

Lemma encode_batches_omap_32 (image_paths : list string) :
  encode_multiple_images_batch image_paths 32 = omap encode_image image_paths.
Proof.
unfold encode_multiple_images_batch. apply encode_batches_omap; lia.
Qed.

Lemma visual_data_from_length (i : nat) (frame_paths : list string)
    (visual_embeddings : list embedding) :
  length (visual_data_from i frame_paths visual_embeddings)
  = Nat.min (length frame_paths) (length visual_embeddings).
Proof.
revert i visual_embeddings.
induction frame_paths as [|p ps IH]; intros i [|e es]; simpl; auto.
Qed.


Lemma steps_status (frames encoded : nat) :
  List.Forall (fun st => String.eqb (ProcessingStatus.status st) "error" = false)
    (steps frames encoded).
Proof.
unfold steps. repeat (apply List.Forall_cons; [reflexivity|]).
apply List.Forall_app. split; [|repeat constructor].
apply List.Forall_forall. intros st Hst. unfold encoded_statuses in Hst.
now apply in_map_iff in Hst as [i [<- _]].
Qed.

Lemma reported_prefix (l rest : list ProcessingStatus.t) (frames encoded : nat)
    (message : string) :
  l ++ rest = steps frames encoded ->
  reported (l ++ [error_status message]) = l /\ reported l = l.
Proof.
intros Hsteps. pose proof (steps_status frames encoded) as Hst.
rewrite <- Hsteps in Hst. apply List.Forall_app in Hst as [Hl _].
unfold reported. rewrite List.filter_app. cbn [List.filter error_status
  ProcessingStatus.status String.eqb Ascii.eqb Bool.eqb negb].
rewrite app_nil_r.
assert (List.filter
          (fun status => negb (String.eqb (ProcessingStatus.status status) "error")) l
        = l) as Hf.
{ clear Hsteps. induction l as [|a l IH]; [reflexivity|].
  inversion Hl as [|? ? Ha Hl']; subst. simpl. rewrite Ha. simpl.
  now rewrite IH. }
now rewrite Hf.
Qed.

Lemma reported_steps (frames encoded : nat) :
  reported (steps frames encoded) = steps frames encoded.
Proof.
apply (reported_prefix (steps frames encoded) [] frames encoded "").
apply app_nil_r.
Qed.

Lemma reported_until_error (l rest : list ProcessingStatus.t) (frames encoded : nat)
    (message : string) :
  (l ++ rest = steps frames encoded)%list ->
  (reported (l ++ [error_status message]) ++ rest = steps frames encoded)%list.
Proof.
intros Hsteps.
now rewrite (proj1 (reported_prefix l rest frames encoded message Hsteps)).
Qed.

Lemma encoded_le_frames (run : Run.t) (video_id : string) :
  (length (visual_data_from 0 (extract_frames run video_id)
             (encode_multiple_images_batch (extract_frames run video_id) 32))
   <= length (extract_frames run video_id))%nat.
Proof. rewrite visual_data_from_length. apply Nat.le_min_l. Qed.

Ltac until_error frames encoded :=
  exists frames, encoded;
  split; [first [assumption | lia]|];
  eexists; apply reported_until_error;
  unfold steps; rewrite <- ?app_assoc; cbn; reflexivity.

Lemma run_reported (run : Run.t) (s : State.t) (video_id video_path : string) :
  exists frames encoded,
    (encoded <= frames)%nat
    /\ exists rest,
         (reported (fst (process_video_background run s video_id video_path)) ++ rest
          = steps frames encoded)%list.
Proof.
pose proof (encoded_le_frames run video_id) as Hle.
run_cases run s; unfold failed; cbn [fst snd].
- until_error 0%nat 0%nat.
- until_error (length (extract_frames run video_id))
    (length (visual_data_from 0 (extract_frames run video_id)
               (encode_multiple_images_batch (extract_frames run video_id) 32))).
- exists (length (extract_frames run video_id)),
    (length (visual_data_from 0 (extract_frames run video_id)
               (encode_multiple_images_batch (extract_frames run video_id) 32))).
  split; [exact Hle|]. exists [].
  replace (_ ++ [completed])
    with (steps (length (extract_frames run video_id))
            (length (visual_data_from 0 (extract_frames run video_id)
               (encode_multiple_images_batch (extract_frames run video_id) 32))))
    by (unfold steps; now rewrite <- ?app_assoc).
  rewrite reported_steps. apply app_nil_r.
- until_error (length (extract_frames run video_id))
    (length (visual_data_from 0 (extract_frames run video_id)
               (encode_multiple_images_batch (extract_frames run video_id) 32))).
- until_error 0%nat 0%nat.
- until_error 0%nat 0%nat.
- until_error 0%nat 0%nat.
Qed.

(** X20.  The progress that the task reports never goes down while it works:
    leaving out the error status of a failing run, each status written has a
    progress at least that of the statuses written before it. *)
Theorem progress_never_decreases (run : Run.t) (s : State.t)
    (video_id video_path : string) :
  StronglySorted progress_le
    (reported (fst (process_video_background run s video_id video_path))).
Proof.
destruct (run_reported run s video_id video_path)
  as (frames & encoded & Hle & rest & Hsteps).
apply sorted_prefix with rest. rewrite Hsteps. now apply steps_sorted.
Qed.


Lemma names_differ (v : string) : data_name v <> status_name v.
Proof.
rewrite data_name_status_name. intros Heq. apply status_name_inj in Heq.
apply (f_equal String.length) in Heq. rewrite length_append in Heq.
simpl in Heq. lia.
Qed.

Ltac cache_simpl :=
  cbn [State.cache State.uploads State.frame_dirs State.lancedb
       State.search_history State.bookmarks State.rate_limit_store
       with_status without_upload stored with_upload with_frame_dir];
  repeat first
    [ rewrite lookup_insert_eq
    | rewrite (lookup_insert_ne _ _ _ _ (not_eq_sym (names_differ _)))
    | rewrite (with_statuses_cache_other _ _ _ _ (names_differ _))
    | rewrite with_statuses_uploads
    | rewrite with_statuses_frame_dirs
    | rewrite with_statuses_lancedb
    | rewrite with_statuses_search_history
    | rewrite with_statuses_bookmarks
    | rewrite with_statuses_rate_limit_store
    | progress cbn [State.cache State.uploads State.frame_dirs State.lancedb
       State.search_history State.bookmarks State.rate_limit_store
       with_status without_upload stored with_upload with_frame_dir] ].

(** X21.  The data file is written exactly in the runs that write the status
    [completed]. In such a run it holds the segments of [transcribe_audio],
    one text embedding for each of them, and the entries built from the
    frames; in any other run the data file is as it was before. *)
Theorem data_file_written_with_completed (run : Run.t) (s : State.t)
    (video_id video_path : string) :
  let written := fst (process_video_background run s video_id video_path) in
  let s' := snd (process_video_background run s video_id video_path) in
  (In completed written
   /\ exists text_embeddings,
        length text_embeddings = length (transcribe_audio (Run.whisper run))
        /\ State.cache s' !! data_name video_id
           = Some (Json.Data
                     (processed_data video_id video_path
                        (transcribe_audio (Run.whisper run)) text_embeddings
                        (visual_data_of run video_id))))
  \/ (~ In completed written
      /\ State.cache s' !! data_name video_id = State.cache s !! data_name video_id).
Proof.
cbv zeta.
run_cases run s; unfold failed; cbn [fst snd].
- right. split; [|now cache_simpl].
  intros Hin. apply in_app_iff in Hin. simpl in Hin. intuition discriminate.
- left. split; [apply in_app_iff; left; apply in_app_iff; right; now left|].
  exists text_embeddings. split.
  + rewrite <- (length_mapM _ _ _ Htext). apply length_map.
  + now cache_simpl.
- left. split; [apply in_app_iff; right; now left|].
  exists text_embeddings. split.
  + rewrite <- (length_mapM _ _ _ Htext). apply length_map.
  + now cache_simpl.
- right. split; [|now cache_simpl].
  intros Hin. rewrite !in_app_iff in Hin. unfold encoded_statuses in Hin.
  rewrite in_map_iff in Hin. simpl in Hin.
  destruct Hin as [[[Hin|[i [Hin _]]]|Hin]|Hin]; try discriminate; intuition discriminate.
- right. split; [|now cache_simpl].
  intros Hin. rewrite !in_app_iff in Hin. simpl in Hin. intuition discriminate.
- right. split; [|now cache_simpl].
  intros Hin. rewrite !in_app_iff in Hin. simpl in Hin. intuition discriminate.
- right. split; [|now cache_simpl].
  intros Hin. simpl in Hin. intuition discriminate.
Qed.


(** X22.  After a run in which every step succeeds, the statuses written are
    those of [steps], [get_status] returns [completed], the audio file is
    removed, and a search of the video ranks the candidates of the
    transcript's segments, their embeddings and the entries built from the
    frames. *)
Theorem processed_video_is_served (run : Run.t) (s : State.t)
    (video_id video_path now : string) (query : SearchQuery.t) :
  succeeds run s -> SearchQuery.video_id query = video_id ->
  let written := fst (process_video_background run s video_id video_path) in
  let s' := snd (process_video_background run s video_id video_path) in
  written = steps (length (extract_frames run video_id))
              (length (visual_data_of run video_id))
  /\ get_status s' video_id = Json.Status completed
  /\ (audio_name video_id ∉ State.uploads s')
  /\ exists text_embeddings,
       mapM get_text_embeddings
         (map Segment.text (transcribe_audio (Run.whisper run)))
       = Some text_embeddings
       /\ fst (search now s' query)
          = inr (found query
                   {| Data.segments := transcribe_audio (Run.whisper run);
                      Data.text_embeddings := text_embeddings;
                      Data.visual_data := visual_data_of run video_id |}).
Proof.
unfold succeeds, stores.
intros [(Hf & Ha & [te Ht] & Hc & [tb Hd]) Hr] <-. cbv zeta.
rewrite search_reply. unfold get_status.
run_cases run s; try congruence.
cbn [fst snd]. split; [|split; [|split]].
- unfold steps, visual_data_of. now rewrite <- ?app_assoc.
- now cache_simpl.
- cache_simpl. rewrite !elem_of_difference, elem_of_singleton. tauto.
- exists text_embeddings. split; [reflexivity|]. now cache_simpl.
Qed.


(** X23.  When only the removal of the audio file fails, the video is fully
    processed and a search of it answers, yet [get_status] reports an error
    with progress 0, and the audio file stays. *)
Theorem cleanup_failure_reports_error (run : Run.t) (s : State.t)
    (video_id video_path now message : string) (query : SearchQuery.t) :
  stores run s -> Run.remove_audio run = Some message ->
  SearchQuery.video_id query = video_id ->
  let s' := snd (process_video_background run s video_id video_path) in
  get_status s' video_id = Json.Status (error_status message)
  /\ audio_name video_id ∈ State.uploads s'
  /\ exists text_embeddings,
       mapM get_text_embeddings
         (map Segment.text (transcribe_audio (Run.whisper run)))
       = Some text_embeddings
       /\ fst (search now s' query)
          = inr (found query
                   {| Data.segments := transcribe_audio (Run.whisper run);
                      Data.text_embeddings := text_embeddings;
                      Data.visual_data := visual_data_of run video_id |}).
Proof.
unfold stores.
intros (Hf & Ha & [te Ht] & Hc & [tb Hd]) Hr <-. cbv zeta.
rewrite search_reply. unfold get_status.
run_cases run s; try congruence.
injection Hr as ->.
unfold failed. cbn [fst snd]. split; [|split].
- now cache_simpl.
- cache_simpl. apply elem_of_union_r, elem_of_singleton. reflexivity.
- exists text_embeddings. split; [reflexivity|]. now cache_simpl.
Qed.

Lemma append_prefix_inj (a s t : string) : (a +:+ s = a +:+ t)%string -> s = t.
Proof.
induction a as [|x a IH]; append_step; [auto|].
intros E. injection E as E. auto.
Qed.

Lemma audio_name_video_name (v v' : string) : audio_name v <> video_name v'.
Proof.
unfold audio_name, video_name. intros E.
assert (String.length v = String.length v') as Hlen.
{ apply (f_equal String.length) in E. rewrite !length_append in E. simpl in E. lia. }
revert v' E Hlen. induction v as [|x v IH]; intros [|y v'] E Hlen;
  try discriminate; append_step.
injection E as _ E. injection Hlen as Hlen. eauto.
Qed.

(** X24.  The audio file outlives the video: once the audio is extracted, a
    run that does not remove it (any run that ends with an error status)
    leaves a file that [delete_video] does not delete. *)
Theorem delete_video_leaves_audio (run : Run.t) (s : State.t)
    (video_id video_path : string) :
  Run.ffmpeg run = true -> Run.extract_audio run = None ->
  get_status (snd (process_video_background run s video_id video_path)) video_id
    <> Json.Status completed ->
  audio_name video_id
    ∈ State.uploads
        (snd (delete_video (snd (process_video_background run s video_id video_path))
                video_id)).
Proof.
intros Hf Ha. unfold get_status, delete_video. cbn [snd State.uploads].
rewrite elem_of_difference, elem_of_singleton.
run_cases run s; try congruence; unfold failed; cbn [fst snd]; intros Hst;
  (split; [|apply audio_name_video_name]); cache_simpl;
  try (apply elem_of_union_r, elem_of_singleton; reflexivity).
exfalso. apply Hst. now cache_simpl.
Qed.


Lemma process_video_background_cache (run : Run.t) (s : State.t)
    (video_id video_path k : string) :
  k <> status_name video_id -> k <> data_name video_id ->
  State.cache (snd (process_video_background run s video_id video_path)) !! k
  = State.cache s !! k.
Proof.
intros Hs Hd.
run_cases run s; unfold failed; cbn [fst snd]; cache_simpl;
  repeat first
    [ rewrite (lookup_insert_ne _ _ _ _ (not_eq_sym Hs))
    | rewrite (lookup_insert_ne _ _ _ _ (not_eq_sym Hd))
    | rewrite (with_statuses_cache_other _ _ _ _ Hs)
    | progress cache_simpl ];
  reflexivity.
Qed.

Lemma process_video_background_stores (run : Run.t) (s : State.t)
    (video_id video_path : string) :
  let s' := snd (process_video_background run s video_id video_path) in
  State.search_history s' = State.search_history s
  /\ State.bookmarks s' = State.bookmarks s
  /\ State.rate_limit_store s' = State.rate_limit_store s.
Proof.
cbv zeta.
run_cases run s; unfold failed; cbn [fst snd]; cache_simpl; auto.
Qed.

(** X25.  Processing a video changes nothing of another video whose files
    are separate from its own: its status, the answer to a search of it, its
    information, its search history and its bookmarks are as before the run,
    however the run goes. *)
Theorem other_videos_untouched (run : Run.t) (s : State.t)
    (video_id video_path other now : string) (query : SearchQuery.t) :
  separate video_id other -> SearchQuery.video_id query = other ->
  let s' := snd (process_video_background run s video_id video_path) in
  get_status s' other = get_status s other
  /\ fst (search now s' query) = fst (search now s query)
  /\ get_video_info s' other = get_video_info s other
  /\ get_search_history s' other = get_search_history s other
  /\ get_bookmarks s' other = get_bookmarks s other.
Proof.
intros Hsep <-. cbv zeta.
apply separate_names in Hsep as (H1 & H2 & H3 & H4).
destruct (process_video_background_stores run s video_id video_path)
  as (Hh & Hb & _).
rewrite !search_reply.
unfold get_status, get_video_info, get_search_history, get_bookmarks.
rewrite !process_video_background_cache by assumption.
now rewrite Hh, Hb.
Qed.


Lemma state_eq (s s' : State.t) :
  State.cache s = State.cache s' -> State.uploads s = State.uploads s' ->
  State.frame_dirs s = State.frame_dirs s' -> State.lancedb s = State.lancedb s' ->
  State.search_history s = State.search_history s' ->
  State.bookmarks s = State.bookmarks s' ->
  State.rate_limit_store s = State.rate_limit_store s' ->
  s = s'.
Proof. destruct s, s'; simpl; intros; subst; reflexivity. Qed.

Lemma upload_video_uploaded `{Framework} (now today client_ip : string) (s s1 : State.t)
    (filename : option string) (size : Z) (reply : UploadReply.t)
    (task : option (string * string)) :
  upload_video now today client_ip s filename size = (inr reply, s1, task) ->
  s1 = with_upload s (video_name (UploadReply.video_id reply))
  /\ task = Some (UploadReply.video_id reply,
                  upload_path (video_name (UploadReply.video_id reply))).
Proof.
unfold upload_video.
destruct (_ <=? 0)%Z; [discriminate|].
destruct filename as [[|c name]|]; try discriminate.
destruct (supported _); cbn [negb]; [|discriminate].
destruct (MAX_FILE_SIZE <? size)%Z; [discriminate|].
intros [= <- <- <-]. now split.
Qed.

(** X26.  Uploading a video, processing it in a run where every step
    succeeds, and deleting it gives back the state before the upload, when
    nothing in that state belonged to the new identifier. *)
Theorem upload_process_delete_round_trip `{Framework} (now today client_ip : string)
    (s s1 : State.t) (filename : option string) (size : Z) (reply : UploadReply.t)
    (video_id video_path : string) (run : Run.t) :
  upload_video now today client_ip s filename size
    = (inr reply, s1, Some (video_id, video_path)) ->
  fresh s video_id -> succeeds run s1 ->
  snd (delete_video (snd (process_video_background run s1 video_id video_path))
         video_id) = s.
Proof.
intros Hup (Hst & Hdt & Hv & Ha & Hfr & Htb & Hh & Hb) [(Hf & Hau & [te Ht] & Hc & [tb Hd]) Hr].
apply upload_video_uploaded in Hup as [-> [= -> ->]].
cbn [with_upload State.lancedb] in Hd.
destruct (Htb tb Hd) as [Htt Hvt].
unfold delete_video. cbn [snd]. apply state_eq; cbn [State.cache State.uploads
  State.frame_dirs State.lancedb State.search_history State.bookmarks
  State.rate_limit_store].
- apply map_eq. intros k.
  destruct (decide (k = data_name (UploadReply.video_id reply))) as [->|Hkd].
  { now rewrite lookup_delete_eq, Hdt. }
  rewrite lookup_delete_ne by congruence.
  destruct (decide (k = status_name (UploadReply.video_id reply))) as [->|Hks].
  { now rewrite lookup_delete_eq, Hst. }
  rewrite lookup_delete_ne by congruence.
  now rewrite process_video_background_cache.
- run_cases run s; try congruence.
  cbn [fst snd]. cache_simpl.
  apply set_eq. intros x.
  rewrite !elem_of_difference, !elem_of_union, !elem_of_singleton.
  split; [tauto|]. intros Hx.
  repeat split; auto; intros ->; contradiction.
- run_cases run s; try congruence.
  cbn [fst snd]. cache_simpl.
  rewrite delete_insert_id by exact Hfr. reflexivity.
- run_cases run s; try congruence.
  cbn [fst snd]. cache_simpl. rewrite Hd. f_equal.
  assert (tables = tb) as -> by congruence.
  apply set_eq. intros x.
  rewrite !elem_of_difference, !elem_of_singleton.
  destruct (transcribe_audio _), (visual_data_from _ _ _);
    rewrite ?elem_of_union, ?elem_of_singleton;
    (split; [tauto|]); intros Hx; repeat split; auto; intros ->; contradiction.
- destruct (process_video_background_stores run
              (with_upload s (video_name (UploadReply.video_id reply)))
              (UploadReply.video_id reply)
              (upload_path (video_name (UploadReply.video_id reply)))) as (-> & _ & _).
  cbn [with_upload State.search_history]. now apply delete_id.
- destruct (process_video_background_stores run
              (with_upload s (video_name (UploadReply.video_id reply)))
              (UploadReply.video_id reply)
              (upload_path (video_name (UploadReply.video_id reply)))) as (_ & -> & _).
  cbn [with_upload State.bookmarks]. now apply delete_id.
- destruct (process_video_background_stores run
              (with_upload s (video_name (UploadReply.video_id reply)))
              (UploadReply.video_id reply)
              (upload_path (video_name (UploadReply.video_id reply)))) as (_ & _ & ->).
  reflexivity.
Qed.


Lemma visual_data_from_lookup (i k : nat) (frame_paths : list string)
    (visual_embeddings : list embedding) (frame_path : string) (e : embedding) :
  frame_paths !! k = Some frame_path -> visual_embeddings !! k = Some e ->
  visual_data_from i frame_paths visual_embeddings !! k
  = Some {| VisualData.timestamp := inject_Z (Z.of_nat (i + k));
            VisualData.frame_path := frame_path;
            VisualData.frame_number := Z.of_nat (i + k);
            VisualData.embedding_ := e |}.
Proof.
revert i k visual_embeddings.
induction frame_paths as [|p ps IH]; intros i k [|e' es] Hp He; try discriminate.
destruct k as [|k].
- injection Hp as ->. injection He as ->. cbn. now rewrite Nat.add_0_r.
- cbn [visual_data_from].
  change ((?x :: ?l) !! S k) with (l !! k).
  rewrite (IH (S i) k es Hp He).
  now rewrite Nat.add_succ_r.
Qed.

Lemma omap_all_length {A B : Type} (f : A -> option B) (l : list A) :
  Forall (fun x => is_Some (f x)) l -> length (omap f l) = length l.
Proof.
induction 1 as [|x l [y Hy] _ IH]; [reflexivity|].
cbn. rewrite Hy. cbn. now rewrite IH.
Qed.

(** X27.  A frame that does not open shifts the embeddings: the entry built
    for it carries the embedding of the next frame that opens, so a search
    that matches that frame's picture returns this one. *)
Theorem skipped_image_shifts_embeddings (run : Run.t) (s : State.t)
    (video_id video_path : string) (before after : list string)
    (unreadable next : string) (e : embedding) :
  stores run s -> Run.frames_timed_out run = false ->
  Run.frame_files run = (before ++ unreadable :: next :: after)%list ->
  Forall (fun file => is_Some (encode_image (frame_path video_id file))) before ->
  encode_image (frame_path video_id unreadable) = None ->
  encode_image (frame_path video_id next) = Some e ->
  exists d,
    State.cache (snd (process_video_background run s video_id video_path))
      !! data_name video_id = Some (Json.Data d)
    /\ Data.visual_data (DataFile.data d) !! length before
       = Some {| VisualData.timestamp := inject_Z (Z.of_nat (length before));
                 VisualData.frame_path := frame_path video_id unreadable;
                 VisualData.frame_number := Z.of_nat (length before);
                 VisualData.embedding_ := e |}.
Proof.
intros (Hf & Ha & [te Ht] & Hc & [tb Hd]) Hto Hfiles Hbefore Hbad Hnext.
assert (visual_data_of run video_id !! length before
        = Some {| VisualData.timestamp := inject_Z (Z.of_nat (length before));
                  VisualData.frame_path := frame_path video_id unreadable;
                  VisualData.frame_number := Z.of_nat (length before);
                  VisualData.embedding_ := e |}) as Hentry.
{ unfold visual_data_of, extract_frames. rewrite Hto, Hfiles.
  rewrite encode_batches_omap_32.
  apply (visual_data_from_lookup 0).
  - rewrite map_app. rewrite lookup_app_r by (rewrite length_map; lia).
    rewrite length_map, Nat.sub_diag. reflexivity.
  - rewrite map_app, omap_app.
    assert (length (omap encode_image (map (frame_path video_id) before))
            = length before) as Hlen.
    { rewrite omap_all_length; [apply length_map|].
      apply Forall_map. exact Hbefore. }
    rewrite lookup_app_r by lia. rewrite Hlen, Nat.sub_diag.
    cbn. rewrite Hbad, Hnext. reflexivity. }
run_cases run s; try congruence; unfold failed; cbn [fst snd];
  (eexists; split; [now cache_simpl | exact Hentry]).
Qed.


Lemma steps_progress (frames encoded : nat) :
  (encoded <= frames)%nat ->
  List.Forall (fun st => (1 # 10 <= ProcessingStatus.progress st)%Q)
    (steps frames encoded).
Proof.
intros Hle. unfold steps.
repeat (apply List.Forall_cons; [simpl; lra|]).
apply List.Forall_app. split; [|repeat constructor; simpl; lra].
apply List.Forall_forall. intros st Hst. unfold encoded_statuses in Hst.
apply in_map_iff in Hst as [i [<- Hi]].
apply List.filter_In in Hi as [Hi _]. apply in_seq in Hi.
destruct (encoded_progress frames i) as [Hlow _]; [lia|]. lra.
Qed.

(** X28.  The task of a YouTube upload ends like the task of a file upload:
    its last status is [completed] or an error with progress 0 (["Download
    failed: ..."] when the download raises), [get_status] returns it, and
    the progress reported before it, from the 0.1 of the download on, never
    goes down. *)
Theorem download_and_process_youtube_ends (download : string + string)
    (run : Run.t) (s : State.t) (video_id : string) :
  let written := fst (download_and_process_youtube download run s video_id) in
  let s' := snd (download_and_process_youtube download run s video_id) in
  (exists status,
     last written = Some status
     /\ get_status s' video_id = Json.Status status
     /\ terminal status)
  /\ StronglySorted progress_le (reported written)
  /\ (forall message, download = inl message ->
        get_status s' video_id = Json.Status (download_failed message)).
Proof.
cbv zeta. unfold download_and_process_youtube.
destruct download as [message|downloaded_path].
- cbn [fst snd]. split; [|split].
  + exists (download_failed message). split; [reflexivity|]. split.
    * unfold get_status. now cache_simpl.
    * now right.
  + cbn. repeat constructor.
  + intros m [= <-]. unfold get_status. now cache_simpl.
- assert (exists status,
            last (fst (process_video_background run
                         (with_upload (with_status s video_id downloading)
                            (video_name video_id))
                         video_id downloaded_path)) = Some status
            /\ get_status
                 (snd (process_video_background run
                         (with_upload (with_status s video_id downloading)
                            (video_name video_id))
                         video_id downloaded_path)) video_id
               = Json.Status status
            /\ terminal status) as (status & Hlast & Hget & Hterm).
  { unfold get_status.
    run_cases run s; unfold failed; cbn [fst snd];
      try (eexists; split; [apply last_snoc_eq|]; split;
           [cbn [with_status without_upload State.cache]; now rewrite lookup_insert_eq
           | first [now left | now right]]). }
  destruct (run_reported run
              (with_upload (with_status s video_id downloading) (video_name video_id))
              video_id downloaded_path) as (frames & encoded & Hle & rest & Hsteps).
  destruct (process_video_background run
              (with_upload (with_status s video_id downloading) (video_name video_id))
              video_id downloaded_path) as [written s'].
  cbn [fst snd] in *. split; [|split].
  + exists status. split; [|now split].
    destruct written as [|st written]; [discriminate|]. exact Hlast.
  + change (reported (downloading :: written))
      with (downloading :: reported written).
    pose proof (steps_sorted frames encoded Hle) as Hsorted.
    pose proof (steps_progress frames encoded Hle) as Hprogress.
    rewrite <- Hsteps in Hsorted, Hprogress.
    apply sorted_prefix in Hsorted. apply List.Forall_app in Hprogress as [Hprogress _].
    constructor; [exact Hsorted|].
    eapply List.Forall_impl; [|exact Hprogress].
    intros st Hst. exact Hst.
  + discriminate.
Qed.

Lemma uint_of_zeros (k : nat) :
  NilEmpty.uint_of_string (zeros k) = Some (zero_digits k).
Proof. induction k as [|k IH]; [reflexivity|]. simpl. now rewrite IH. Qed.

Lemma of_zero_digits (k : nat) : Pos.of_uint (zero_digits k) = 0%N.
Proof. induction k as [|k IH]; [reflexivity | exact IH]. Qed.

Lemma str_not_zeros (n : Z) (k : nat) : (0 < n)%Z -> str n <> zeros k.
Proof.
intros Hn E. unfold str in E.
apply (f_equal NilZero.int_of_string) in E.
rewrite NilZero.isi in E.
- destruct k as [|k]; [discriminate|].
  change (NilZero.int_of_string (zeros (S k)))
    with (option_map Decimal.Pos (NilEmpty.uint_of_string (zeros (S k)))) in E.
  rewrite uint_of_zeros in E. injection E as E.
  apply (f_equal Z.of_int) in E. rewrite DecimalZ.of_to in E.
  change (Z.of_int (Decimal.Pos (Decimal.D0 (zero_digits k))))
    with (Z.of_N (Pos.of_uint (zero_digits k))) in E.
  rewrite of_zero_digits in E. simpl in E. lia.
- destruct n; try discriminate.
  intros [= E']. now apply Unsigned.to_uint_nonnil in E'.
- destruct n; discriminate.
Qed.

Lemma zeros_suffix (a b : nat) (t : string) :
  (zeros a +:+ t)%string = zeros b -> exists c, t = zeros c.
Proof.
revert b. induction a as [|a IH]; intros b E; cbn [zeros] in E; append_step.
- eauto.
- destruct b as [|b]; [discriminate|]. injection E as E. eauto.
Qed.

Lemma frame_file_zero (n : Z) : (0 < n)%Z -> frame_file n <> frame_file 0.
Proof.
intros Hn E. unfold frame_file in E.
apply append_prefix_inj, append_suffix_inj in E.
unfold format_05d in E.
destruct (Z.ltb_spec n 0) as [Hneg|_]; [lia|].
change (if (0 <? 0)%Z then _ else _) with (zeros 5) in E.
apply zeros_suffix in E as [c E].
rewrite Z.abs_eq in E by lia. now apply str_not_zeros in E.
Qed.


Lemma substring_all (s : string) : String.substring 0 (String.length s) s = s.
Proof. induction s as [|c s IH]; [reflexivity|]. simpl. now rewrite IH. Qed.

Lemma listdir_upload_path (s : State.t) (name : string) :
  listdir s (upload_path name) = State.frame_dirs s !! name.
Proof.
unfold listdir, upload_path. append_step.
change (String.prefix "uploads/" (String "u" (String "p" (String "l" (String "o"
          (String "a" (String "d" (String "s" (String "/" name)))))))))
  with (String.prefix "" name).
replace (String.prefix "" name) with true by (now destruct name).
cbn [String.length]. cbn [Nat.sub String.substring].
rewrite Nat.sub_0_r. now rewrite substring_all.
Qed.

Lemma existsb_eqb_In (x : string) (l : list string) :
  existsb (String.eqb x) l = true <-> In x l.
Proof.
rewrite existsb_exists. split.
- intros [y [Hy E]]. apply String.eqb_eq in E. now subst.
- intros Hx. exists x. split; [exact Hx | apply String.eqb_refl].
Qed.

(** X29.  With the frame files numbered from 1, as the pattern
    [frame_%05d.jpg] numbers them, the entry of index [i] is built from the
    file of number [i + 1] and gets the frame number [i]; so [get_frame],
    which serves the file of that number, answers 404 for the first entry
    and serves the frame of the entry before for every other one. *)
Theorem frame_numbers_are_off_by_one (run : Run.t) (s : State.t)
    (video_id video_path : string) (n i : nat) :
  stores run s -> numbered_from_one run n ->
  Forall (fun file => is_Some (encode_image (frame_path video_id file)))
    (Run.frame_files run) ->
  (i < n)%nat ->
  let s' := snd (process_video_background run s video_id video_path) in
  (exists d e,
     State.cache s' !! data_name video_id = Some (Json.Data d)
     /\ Data.visual_data (DataFile.data d) !! i
        = Some {| VisualData.timestamp := inject_Z (Z.of_nat i);
                  VisualData.frame_path :=
                    frame_path video_id (frame_file (Z.of_nat (S i)));
                  VisualData.frame_number := Z.of_nat i;
                  VisualData.embedding_ := e |})
  /\ get_frame s' video_id (Z.of_nat i)
     = match i with
       | O => NoFrame {| HTTPException.status_code := 404;
                         HTTPException.detail := "Frame not found" |}
       | S _ => Served (frame_path video_id (frame_file (Z.of_nat i)))
       end.
Proof.
intros (Hf & Ha & [te Ht] & Hc & [tb Hd]) (Hn & Hto & Hfiles) Hall Hi. cbv zeta.
assert (exists e,
          visual_data_of run video_id !! i
          = Some {| VisualData.timestamp := inject_Z (Z.of_nat i);
                    VisualData.frame_path :=
                      frame_path video_id (frame_file (Z.of_nat (S i)));
                    VisualData.frame_number := Z.of_nat i;
                    VisualData.embedding_ := e |}) as [e Hentry].
{ unfold visual_data_of, extract_frames. rewrite Hto.
  rewrite encode_batches_omap_32.
  assert (map (frame_path video_id) (Run.frame_files run) !! i
          = Some (frame_path video_id (frame_file (Z.of_nat (S i))))) as Hpath.
  { rewrite Hfiles, !list_lookup_fmap.
    rewrite lookup_seq_lt by exact Hi. reflexivity. }
  assert (is_Some (omap encode_image (map (frame_path video_id) (Run.frame_files run))
                     !! i)) as [e He].
  { apply lookup_lt_is_Some. rewrite omap_all_length.
    - rewrite length_map, Hfiles, length_map, length_seq. exact Hi.
    - apply Forall_map. exact Hall. }
  exists e. now apply (visual_data_from_lookup 0). }
assert (forall s0 : State.t,
          State.cache s0 !! data_name video_id
            = Some (Json.Data (processed_data video_id video_path
                                 (transcribe_audio (Run.whisper run)) te
                                 (visual_data_of run video_id))) ->
          State.frame_dirs s0 !! frames_name video_id = Some (Run.frame_files run) ->
          get_frame s0 video_id (Z.of_nat i)
          = match i with
            | O => NoFrame {| HTTPException.status_code := 404;
                              HTTPException.detail := "Frame not found" |}
            | S _ => Served (frame_path video_id (frame_file (Z.of_nat i)))
            end) as Hget.
{ intros s0 Hdata Hdir. unfold get_frame. rewrite Hdata.
  cbn [processed_data DataFile.frames_dir].
  rewrite listdir_upload_path, Hdir. cbn [default].
  destruct i as [|j].
  - destruct (existsb _ _) eqn:Hex; [|reflexivity].
    apply existsb_eqb_In in Hex. rewrite Hfiles in Hex.
    apply in_map_iff in Hex as [k [E Hk]]. apply in_seq in Hk.
    apply frame_file_zero in E; [contradiction | lia].
  - replace (existsb _ _) with true; [reflexivity|].
    symmetry. apply existsb_eqb_In. rewrite Hfiles.
    apply in_map_iff. exists (S j). split; [reflexivity|].
    apply in_seq. lia. }
run_cases run s; try congruence; unfold failed; cbn [fst snd];
  assert (text_embeddings = te) as -> by congruence;
  (split;
   [ eexists; exists e; split; [now cache_simpl | exact Hentry]
   | apply Hget; now cache_simpl ]).
Qed.

End Facts.

End PipelineFacts.

(* ===================================================================== *)
(** * The properties of the server, run on the sessions                   *)
(* ===================================================================== *)

Module Runs.

Import Py PyFacts Engine EngineFacts EngineMore Demo.
Import Limits Server ServerFacts Pipeline PipelineFacts Sessions.
Local Open Scope Q_scope.

Section Table.
#[local] Existing Instance table_models.

(** ** Searches on the session of [Demo] *)

Lemma result_counts_witness :
  exists resp w',
    World.data_files table_world !! SearchQuery.video_id cats_hybrid = Some table_data
    /\ search_video now table_world cats_hybrid = (inr resp, w')
    /\ Response.total_matches resp = 4%nat
    /\ length (Response.results resp) = 2%nat.
Proof.
do 2 eexists. split; [reflexivity|]. split; [reflexivity|].
destruct (result_counts now table_world _ cats_hybrid _ table_data eq_refl eq_refl)
  as [Htotal Hlength].
split; [exact Htotal | exact Hlength].
Defined.

Lemma hybrid_text_wins_ties_witness :
  exists resp w' u,
    SearchQuery.search_type cats_hybrid <> "text"%string
    /\ SearchQuery.search_type cats_hybrid <> "visual"%string
    /\ World.data_files table_world !! SearchQuery.video_id cats_hybrid = Some table_data
    /\ search_video now table_world cats_hybrid = (inr resp, w')
    /\ In u (Response.results resp)
    /\ Result.search_type u = "visual"%string
    /\ forall t, In t (hybrid_text_results cats_hybrid table_data) ->
         round1 (Result.timestamp t) = round1 (Result.timestamp u) ->
         Result.score t < Result.score u.
Proof.
do 3 eexists. split; [discriminate|]. split; [discriminate|].
split; [reflexivity|]. split; [reflexivity|].
split; [left; reflexivity|]. split; [reflexivity|].
apply (hybrid_text_wins_ties now table_world _ cats_hybrid _ table_data _
         ltac:(discriminate) ltac:(discriminate) eq_refl eq_refl
         ltac:(left; reflexivity)).
reflexivity.
Defined.


(** ** Requests on the sessions of [Sessions] *)

#[local] Existing Instance framework.

Lemma oversized_upload_is_500_witness :
  (0 < get_rate_limit_remaining "2025-01-01" "10.0.0.1"
         (State.rate_limit_store started))%Z
  /\ "talk.mp4"%string <> ""%string
  /\ supported "talk.mp4" = true
  /\ (MAX_FILE_SIZE < MAX_FILE_SIZE + 1)%Z
  /\ upload_video now "2025-01-01" "10.0.0.1" started (Some "talk.mp4"%string)
       (MAX_FILE_SIZE + 1)
     = (inl {| HTTPException.status_code := 500;
               HTTPException.detail :=
                 "Upload failed: 400: File too large. Max size: 500MB" |},
        started, None).
Proof.
split; [reflexivity|]. split; [discriminate|]. split; [reflexivity|].
split; [reflexivity|].
apply (oversized_upload_is_500 now "2025-01-01" "10.0.0.1" started "talk.mp4"
         (MAX_FILE_SIZE + 1) eq_refl ltac:(discriminate) eq_refl eq_refl).
Defined.

Lemma delete_video_clears_witness :
  SearchQuery.video_id (about "v") = "v"%string
  /\ get_status busy "v" = Json.Status completed
  /\ get_status (snd (delete_video busy "v")) "v" = Json.Status not_found
  /\ get_video_info (snd (delete_video busy "v")) "v"
     = inl {| HTTPException.status_code := 404;
              HTTPException.detail := "Video not found" |}.
Proof.
split; [reflexivity|]. split; [reflexivity|].
destruct (delete_video_clears now busy "v" (about "v") eq_refl)
  as (Hstatus & _ & Hinfo & _).
split; [exact Hstatus | exact Hinfo].
Defined.

Lemma delete_video_keeps_others_witness :
  separate "w" "v"
  /\ SearchQuery.video_id (about "v") = "v"%string
  /\ get_status (snd (delete_video busy "w")) "v" = get_status busy "v"
  /\ fst (search now (snd (delete_video busy "w")) (about "v"))
     = fst (search now busy (about "v")).
Proof.
assert (separate "w" "v") as Hsep by (repeat split; discriminate).
split; [exact Hsep|]. split; [reflexivity|].
destruct (delete_video_keeps_others now busy "w" "v" (about "v") Hsep eq_refl)
  as (Hstatus & Hsearch & _).
split; [exact Hstatus | exact Hsearch].
Defined.

Lemma status_name_meets_data_name_witness :
  exists j,
    State.cache busy !! data_name "v" = Some j
    /\ SearchQuery.video_id (about "v") = "v"%string
    /\ get_status busy "v_data" = j
    /\ fst (search now (snd (delete_video busy "v_data")) (about "v"))
       = inl {| HTTPException.status_code := 404;
                HTTPException.detail := "Video not processed yet" |}.
Proof.
eexists. split; [reflexivity|]. split; [reflexivity|].
apply (status_name_meets_data_name now busy "v" _ (about "v") eq_refl eq_refl).
Defined.

(** ** Runs of the ingestion *)

Lemma transcribe_audio_text_length_witness :
  In {| Segment.start := 0; Segment.end_ := 5; Segment.text := "Cats are great" |}
     (transcribe_audio (Run.whisper run))
  /\ length (transcribe_audio (Run.whisper run)) = 2%nat
  /\ (3 <= len "Cats are great")%nat.
Proof.
assert (In {| Segment.start := 0; Segment.end_ := 5; Segment.text := "Cats are great" |}
           (transcribe_audio (Run.whisper run))) as Hin by (left; reflexivity).
split; [exact Hin|]. split; [reflexivity|].
apply (transcribe_audio_text_length (Run.whisper run) _ Hin).
Defined.

Lemma encode_multiple_images_batch_unbatched_witness :
  (0 < 2)%nat
  /\ @encode_multiple_images_batch table_models torn_images
       (map (frame_path "v") (Run.frame_files run)) 2
     = [1 # 2; 1 # 2].
Proof.
split; [lia|].
rewrite (@encode_multiple_images_batch_unbatched table_models torn_images
           (map (frame_path "v") (Run.frame_files run)) 2 ltac:(lia)).
reflexivity.
Defined.

Lemma run_stores : @stores table_models run started.
Proof.
repeat split; try reflexivity; eexists; reflexivity.
Defined.

Lemma processed_video_is_served_witness :
  @succeeds table_models run started
  /\ SearchQuery.video_id (about "v") = "v"%string
  /\ get_status (snd (@process_video_background table_models images run started
                        "v" "uploads/v.mp4")) "v"
     = Json.Status completed
  /\ length (fst (@process_video_background table_models images run started
                    "v" "uploads/v.mp4")) = 8%nat.
Proof.
assert (@succeeds table_models run started) as Hrun
  by (split; [exact run_stores | reflexivity]).
split; [exact Hrun|]. split; [reflexivity|].
destruct (@processed_video_is_served table_models images run started "v"
            "uploads/v.mp4" now (about "v") Hrun eq_refl)
  as (Hwritten & Hstatus & _).
split; [exact Hstatus|]. rewrite Hwritten. reflexivity.
Defined.

Lemma busy_run_stores : @stores table_models busy_run started.
Proof.
repeat split; try reflexivity; eexists; reflexivity.
Defined.

Lemma cleanup_failure_reports_error_witness :
  @stores table_models busy_run started
  /\ Run.remove_audio busy_run = Some "[Errno 13] Permission denied"%string
  /\ SearchQuery.video_id (about "v") = "v"%string
  /\ get_status (snd (@process_video_background table_models images busy_run started
                        "v" "uploads/v.mp4")) "v"
     = Json.Status (error_status "[Errno 13] Permission denied")
  /\ exists response,
       fst (search now (snd (@process_video_background table_models images busy_run
                               started "v" "uploads/v.mp4")) (about "v"))
       = inr response.
Proof.
split; [exact busy_run_stores|]. split; [reflexivity|]. split; [reflexivity|].
destruct (@cleanup_failure_reports_error table_models images busy_run started "v"
            "uploads/v.mp4" now "[Errno 13] Permission denied" (about "v")
            busy_run_stores eq_refl eq_refl)
  as (Hstatus & _ & text_embeddings & _ & Hsearch).
split; [exact Hstatus|]. eexists. exact Hsearch.
Defined.

Lemma delete_video_leaves_audio_witness :
  Run.ffmpeg busy_run = true
  /\ Run.extract_audio busy_run = None
  /\ get_status (snd (@process_video_background table_models images busy_run started
                        "v" "uploads/v.mp4")) "v"
     <> Json.Status completed
  /\ "v.wav"%string
     ∈ State.uploads
         (snd (delete_video
                 (snd (@process_video_background table_models images busy_run started
                         "v" "uploads/v.mp4")) "v")).
Proof.
assert (get_status (snd (@process_video_background table_models images busy_run started
                           "v" "uploads/v.mp4")) "v"
        <> Json.Status completed) as Hstatus by (vm_compute; discriminate).
split; [reflexivity|]. split; [reflexivity|]. split; [exact Hstatus|].
apply (@delete_video_leaves_audio table_models images busy_run started "v"
         "uploads/v.mp4" eq_refl eq_refl Hstatus).
Defined.

Lemma other_videos_untouched_witness :
  separate "x" "v"
  /\ SearchQuery.video_id (about "v") = "v"%string
  /\ get_status (snd (@process_video_background table_models images run busy
                        "x" "uploads/x.mp4")) "v"
     = Json.Status completed
  /\ get_bookmarks (snd (@process_video_background table_models images run busy
                           "x" "uploads/x.mp4")) "w"
     = get_bookmarks busy "w".
Proof.
assert (separate "x" "v") as Hv by (repeat split; discriminate).
assert (separate "x" "w") as Hw by (repeat split; discriminate).
split; [exact Hv|]. split; [reflexivity|].
destruct (@other_videos_untouched table_models images run busy "x" "uploads/x.mp4"
            "v" now (about "v") Hv eq_refl) as (Hstatus & _).
destruct (@other_videos_untouched table_models images run busy "x" "uploads/x.mp4"
            "w" now (about "w") Hw eq_refl) as (_ & _ & _ & _ & Hbookmarks).
split; [rewrite Hstatus; reflexivity | exact Hbookmarks].
Defined.

Lemma started_fresh (video_id : string) : fresh started video_id.
Proof.
unfold fresh, started, start. cbn.
repeat split; try apply lookup_empty; try apply not_elem_of_empty;
  injection H as <-; apply not_elem_of_empty.
Defined.

Lemma upload_process_delete_round_trip_witness :
  exists reply s1,
    upload_video now "2025-01-01" "10.0.0.1" started (Some "talk.mp4"%string) 1024
      = (inr reply, s1, Some ("talk.mp4@2025-01-01T12:00:00"%string,
                              "uploads/talk.mp4@2025-01-01T12:00:00.mp4"%string))
    /\ fresh started "talk.mp4@2025-01-01T12:00:00"
    /\ @succeeds table_models run s1
    /\ snd (delete_video
              (snd (@process_video_background table_models images run s1
                      "talk.mp4@2025-01-01T12:00:00"
                      "uploads/talk.mp4@2025-01-01T12:00:00.mp4"))
              "talk.mp4@2025-01-01T12:00:00")
       = started.
Proof.
do 2 eexists.
assert (@succeeds table_models run
          (with_upload started (video_name "talk.mp4@2025-01-01T12:00:00"))) as Hrun.
{ split; [|reflexivity]. repeat split; try reflexivity; eexists; reflexivity. }
split; [reflexivity|]. split; [apply started_fresh|]. split; [exact Hrun|].
apply (@upload_process_delete_round_trip table_models images framework now
         "2025-01-01" "10.0.0.1" started _ (Some "talk.mp4"%string) 1024 _
         "talk.mp4@2025-01-01T12:00:00" "uploads/talk.mp4@2025-01-01T12:00:00.mp4" run
         eq_refl (started_fresh _) Hrun).
Defined.

Lemma skipped_image_shifts_embeddings_witness :
  @stores table_models run started
  /\ Run.frames_timed_out run = false
  /\ Run.frame_files run
     = (["frame_00001.jpg"%string]
        ++ ["frame_00002.jpg"%string; "frame_00003.jpg"%string])%list
  /\ @encode_image table_models torn_images (frame_path "v" "frame_00002.jpg") = None
  /\ exists d,
       State.cache (snd (@process_video_background table_models torn_images run started
                           "v" "uploads/v.mp4")) !! data_name "v"
       = Some (Json.Data d)
       /\ Data.visual_data (DataFile.data d) !! 1%nat
          = Some {| VisualData.timestamp := 1;
                    VisualData.frame_path := "uploads/v_frames/frame_00002.jpg";
                    VisualData.frame_number := 1;
                    VisualData.embedding_ := 1 # 2 |}.
Proof.
split; [exact run_stores|]. split; [reflexivity|]. split; [reflexivity|].
split; [reflexivity|].
apply (@skipped_image_shifts_embeddings table_models torn_images run started "v"
         "uploads/v.mp4" ["frame_00001.jpg"%string] [] "frame_00002.jpg"
         "frame_00003.jpg" (1 # 2) run_stores eq_refl eq_refl).
- constructor; [|constructor]. eexists. reflexivity.
- reflexivity.
- reflexivity.
Defined.

Lemma run_numbered : numbered_from_one run 3.
Proof. repeat split. Defined.

Lemma frame_numbers_are_off_by_one_witness :
  @stores table_models run started
  /\ numbered_from_one run 3
  /\ (0 < 3)%nat
  /\ @get_frame table_models
       (snd (@process_video_background table_models images run started
               "v" "uploads/v.mp4")) "v" 0
     = NoFrame {| HTTPException.status_code := 404;
                  HTTPException.detail := "Frame not found" |}.
Proof.
split; [exact run_stores|]. split; [exact run_numbered|]. split; [lia|].
destruct (@frame_numbers_are_off_by_one table_models images run started "v"
            "uploads/v.mp4" 3 0 run_stores run_numbered) as [_ Hframe].
- repeat constructor; eexists; reflexivity.
- lia.
- exact Hframe.
Defined.

End Table.

End Runs.
